(** * DriveTestDashboard: normalisation, classification and query engine

    A shallow embedding of the analytic core of [src/DriveTestDashboard.js]:
    the coordinate validator, the column mapper, the CSV row normaliser
    ([processCsvData]), the ingestion step ([applyCsvData]) and the local
    question interpreter ([askLocalAI]).

    Conventions of the embedding.
    - A JavaScript number is a [num]: [NaN], the two infinities, or a finite
      value carried as an exact rational.  Comparisons are the JavaScript
      ones (anything compared with [NaN] is false).  Arithmetic on finite
      values is exact; binary64 rounding is not represented, and [-0] is
      identified with [0] (both are falsy and [=== 0]).
    - A JavaScript string is a Rocq [string] whose characters are the code
      units 0..255.
    - A parsed CSV row is a finite map from column names to cells; a cell is
      what PapaParse yields under [dynamicTyping]: a number, a string, a
      boolean, [null], or a [Date] for a text in ISO format.  A row is a
      plain object, so looking up a name it does not own finds what
      [Object.prototype] has under that name, and [undefined], embedded as
      [None], otherwise.
    - [Math.random], the local time zone and the engine-specific parts of
      [Date] and of locale formatting are read from an explicit environment. *)

From Stdlib Require Import ZArith QArith Qround Qabs Lia Lqa Bool Ascii String List
  Sorted DecimalString.
From Stdlib Require Decimal DecimalPos DecimalN.
From stdpp Require Import base option list gmap strings.
Import ListNotations.

Local Open Scope string_scope.
Local Open Scope Z_scope.

(** ** JavaScript numbers *)

Inductive num : Type :=
| NaN
| PosInf
| NegInf
| Fin (q : Q).

Definition Qltb (x y : Q) : bool := negb (Qle_bool y x).

(** [a < b] *)
Definition num_lt (a b : num) : bool :=
  match a, b with
  | NaN, _ | _, NaN => false
  | PosInf, _ => false
  | _, NegInf => false
  | _, PosInf => true
  | NegInf, _ => true
  | Fin x, Fin y => Qltb x y
  end.

(** [a >= b] *)
Definition num_ge (a b : num) : bool :=
  match a, b with
  | NaN, _ | _, NaN => false
  | _, _ => negb (num_lt a b)
  end.

(** [a <= b] *)
Definition num_le (a b : num) : bool := num_ge b a.

(** [a === b] on numbers *)
Definition num_eqb (a b : num) : bool :=
  match a, b with
  | PosInf, PosInf | NegInf, NegInf => true
  | Fin x, Fin y => Qeq_bool x y
  | _, _ => false
  end.

Definition isNaN (a : num) : bool :=
  match a with NaN => true | _ => false end.

(** Truthiness of a number: [0] and [NaN] are falsy. *)
Definition num_truthy (a : num) : bool :=
  match a with
  | NaN => false
  | Fin q => negb (Qeq_bool q 0)
  | _ => true
  end.

(** [a || d] when [a] is a number. *)
Definition num_or (a d : num) : num := if num_truthy a then a else d.

Definition ofZ (z : Z) : num := Fin (inject_Z z).

(** ** Cells and rows *)

Inductive cell : Type :=
| CNum (x : num)
| CStr (s : string)
| CBool (b : bool)
| CNull
| CDate (time : option Z)   (** a [Date] object, with its time value *)
| CObject (text : string).  (** another object, array or function, with [String(v)] *)

(** A JavaScript value as the normaliser meets it: a cell, or [undefined]. *)
Abbreviation jsval := (option cell).

Abbreviation Row := (gmap string cell).

(** The property names every plain object inherits from [Object.prototype]. *)
Definition objectPrototypeKeys : list string :=
  ["constructor"; "hasOwnProperty"; "isPrototypeOf"; "propertyIsEnumerable";
   "toLocaleString"; "toString"; "valueOf"; "__proto__";
   "__defineGetter__"; "__defineSetter__"; "__lookupGetter__";
   "__lookupSetter__"].

Definition inheritedKey (k : string) : bool :=
  existsb (String.eqb k) objectPrototypeKeys.

(** What a plain object inherits under [k]: [Object.prototype] itself for
    [__proto__], the function [Object] for [constructor], a native method
    otherwise (printed the way V8 prints them). *)
Definition inherited (k : string) : cell :=
  if String.eqb k "__proto__" then CObject "[object Object]"
  else if String.eqb k "constructor"
  then CObject "function Object() { [native code] }"
  else CObject (String.append "function "
                  (String.append k "() { [native code] }")).

(** [row[k]] *)
Definition rowGet (row : Row) (k : string) : jsval :=
  match row !! k with
  | Some v => Some v
  | None => if inheritedKey k then Some (inherited k) else None
  end.

Definition str_truthy (s : string) : bool :=
  match s with EmptyString => false | _ => true end.

Definition truthy (v : jsval) : bool :=
  match v with
  | Some (CNum x) => num_truthy x
  | Some (CStr s) => str_truthy s
  | Some (CBool b) => b
  | Some CNull => false
  | Some (CDate _) => true
  | Some (CObject _) => true
  | None => false
  end.

(** [v !== undefined] *)
Definition defined (v : jsval) : bool :=
  match v with Some _ => true | None => false end.

(** ** Characters and strings *)

Definition code (c : ascii) : N := N_of_ascii c.

Definition isDigit (c : ascii) : bool := ((48 <=? code c) && (code c <=? 57))%N.

(** [\s] / StrWhiteSpaceChar, restricted to code units below 256. *)
Definition isSpace (c : ascii) : bool :=
  let n := code c in
  ((9 <=? n) && (n <=? 13) || (n =? 32) || (n =? 160))%N.

(** [\w] *)
Definition isWord (c : ascii) : bool :=
  let n := code c in
  (isDigit c || (65 <=? n) && (n <=? 90) || (97 <=? n) && (n <=? 122) || (n =? 95))%N.

(** [String.prototype.toLowerCase] on code units below 256: the ASCII
    capitals, and the Latin-1 capitals U+00C0..U+00DE except U+00D7. *)
Definition lowerChar (c : ascii) : ascii :=
  let n := code c in
  if ((65 <=? n) && (n <=? 90) || (192 <=? n) && (n <=? 222) && negb (n =? 215))%N
  then ascii_of_N (n + 32) else c.

Fixpoint toLowerCase (s : string) : string :=
  match s with
  | EmptyString => EmptyString
  | String c r => String (lowerChar c) (toLowerCase r)
  end.

Fixpoint startsWith (s p : string) : bool :=
  match p, s with
  | EmptyString, _ => true
  | String a p', String b s' => if Ascii.eqb a b then startsWith s' p' else false
  | String _ _, EmptyString => false
  end.

(** [s.includes(p)] *)
Fixpoint includes (s p : string) : bool :=
  startsWith s p ||
  match s with
  | EmptyString => false
  | String _ r => includes r p
  end.

Fixpoint skipSpaces (s : string) : string :=
  match s with
  | String c r => if isSpace c then skipSpaces r else s
  | EmptyString => s
  end.

Definition digitVal (c : ascii) : Z := Z.of_N (code c) - 48.

(** The longest prefix of decimal digits: its value, how many digits it has,
    and what follows. *)
Fixpoint takeDigits (acc : Z) (n : nat) (s : string) : Z * nat * string :=
  match s with
  | String c r =>
      if isDigit c then takeDigits (10 * acc + digitVal c) (S n) r
      else (acc, n, s)
  | EmptyString => (acc, n, s)
  end.

(** ** [parseFloat] *)

Definition takeSign (s : string) : Z * string :=
  match s with
  | String "+" r => (1, r)
  | String "-" r => (-1, r)
  | _ => (1, s)
  end.

(** ExponentPart: an [e] or [E], an optional sign and at least one digit;
    when that does not match, the literal ends before the [e]. *)
Definition takeExponent (s : string) : Z :=
  match s with
  | String c r =>
      if Ascii.eqb (lowerChar c) "e" then
        let '(sg, r') := takeSign r in
        let '(v, n, _) := takeDigits 0 O r' in
        match n with O => 0 | _ => sg * v end
      else 0
  | EmptyString => 0
  end.

(** [parseFloat] of a string: skip leading white space, then read the longest
    prefix that is a StrDecimalLiteral; [NaN] when there is none. *)
Definition parseFloatStr (s : string) : num :=
  let '(sg, s1) := takeSign (skipSpaces s) in
  if startsWith s1 "Infinity" then (if sg =? 1 then PosInf else NegInf)
  else
    let '(ip, ni, r1) := takeDigits 0 O s1 in
    let '(m, nf, r2) :=
      match r1 with
      | String "." t => takeDigits ip O t
      | _ => (ip, O, r1)
      end in
    match ni, nf with
    | O, O => NaN
    | _, _ =>
        Fin (inject_Z (sg * m) * Qpower 10 (takeExponent r2 - Z.of_nat nf))
    end.

(** [parseFloat(v)] converts [v] to a string first.  A number prints to a
    literal that reads back as itself; [true], [false], [null] and
    [undefined] print to words that are no numeric literal, and so does a
    [Date] (a weekday name, or [Invalid Date]). *)
Definition parseFloat (v : jsval) : num :=
  match v with
  | Some (CNum x) => x
  | Some (CStr s) => parseFloatStr s
  | Some (CObject text) => parseFloatStr text
  | _ => NaN
  end.

(** ** CoordinateValidator *)

Definition isValidCoordinate (lat lng : jsval) : bool :=
  let latitude := parseFloat lat in
  let longitude := parseFloat lng in
  negb (isNaN latitude) &&
  negb (isNaN longitude) &&
  num_ge latitude (ofZ (-90)) &&
  num_le latitude (ofZ 90) &&
  num_ge longitude (ofZ (-180)) &&
  num_le longitude (ofZ 180) &&
  negb (num_eqb latitude (ofZ 0)) &&
  negb (num_eqb longitude (ofZ 0)).

(** ** Classifier (the rule inlined in [processCsvData]) *)

Definition classify (rsrp : num) : Z :=
  if num_ge rsrp (ofZ (-70)) then 1
  else if num_ge rsrp (ofZ (-85)) then 2
  else if num_ge rsrp (ofZ (-100)) then 3
  else 4.

(** ** Decimal printing of integers *)

Definition decimal (n : Z) : string :=
  NilZero.string_of_uint (N.to_uint (Z.to_N n)).

Fixpoint zeros (n : nat) : string :=
  match n with O => "" | S k => String "0" (zeros k) end.

(** Left-pad with zeros to at least [w] characters. *)
Definition pad (w : nat) (n : Z) : string :=
  let s := decimal n in
  zeros (w - String.length s) +:+ s.

(** ** The environment of a run *)

Record Env : Type := {
  (** offset of local time from UTC, in minutes (local = UTC + offset);
      one fixed offset, daylight-saving changes are not represented *)
  tzMinutes : Z;
  (** what [Date.parse] makes of a string that is not in the ECMAScript
      date-time format (left to the engine by the standard) *)
  legacyDateParse : string -> option Z;
  (** the successive results of [Math.random()] *)
  random : nat -> Q;
  (** [Number.prototype.toLocaleString] on integers *)
  localeInteger : Z -> string;
  (** [Date.prototype.toLocaleString] of a time value *)
  localeDate : option Z -> string;
  (** [String(x)] for a finite number that is not an integer below 1e21 in
      magnitude (shortest round-trip digits, exponent notation) *)
  numberToStringOther : Q -> string;
  (** the name of the local time zone that [Date.prototype.toString] prints *)
  tzName : string
}.

Definition random_ok (env : Env) : Prop :=
  forall n : nat, (0 <= random env n)%Q /\ (random env n < 1)%Q.

(** ** Dates *)

Definition msPerDay : Z := 86400000.
Definition msPerHour : Z := 3600000.
Definition msPerMinute : Z := 60000.
Definition msPerSecond : Z := 1000.

(** Day number (days since 1970-01-01) of a proleptic Gregorian date,
    months counted from 1. *)
Definition daysFromCivil (y m d : Z) : Z :=
  let y' := if m <=? 2 then y - 1 else y in
  let era := y' / 400 in
  let yoe := y' - era * 400 in
  let doy := (153 * (if 2 <? m then m - 3 else m + 9) + 2) / 5 + d - 1 in
  let doe := yoe * 365 + yoe / 4 - yoe / 100 + doy in
  era * 146097 + doe - 719468.

(** Year, month (from 1) and day of month of a day number. *)
Definition civilFromDays (z : Z) : Z * Z * Z :=
  let z' := z + 719468 in
  let era := z' / 146097 in
  let doe := z' - era * 146097 in
  let yoe := (doe - doe / 1460 + doe / 36524 - doe / 146096) / 365 in
  let doy := doe - (365 * yoe + yoe / 4 - yoe / 100) in
  let mp := (5 * doy + 2) / 153 in
  let d := doy - (153 * mp + 2) / 5 + 1 in
  let m := if mp <? 10 then mp + 3 else mp - 9 in
  ((yoe + era * 400) + (if m <=? 2 then 1 else 0), m, d).

Definition isLeap (y : Z) : bool :=
  (y mod 4 =? 0) && (negb (y mod 100 =? 0) || (y mod 400 =? 0)).

Definition daysInMonth (y m : Z) : Z :=
  if m =? 2 then (if isLeap y then 29 else 28)
  else if (m =? 4) || (m =? 6) || (m =? 9) || (m =? 11) then 30
  else 31.

(** A [Date] object is its time value: milliseconds since the epoch, or
    [None] for an invalid date (time value [NaN]). *)
Abbreviation Date := (option Z).

Definition maxTime : Z := 8640000000000000.

Definition timeClip (t : Z) : Date :=
  if Z.abs t <=? maxTime then Some t else None.

Definition Qtrunc (q : Q) : Z :=
  if Qle_bool 0 q then Qfloor q else Qceiling q.

Definition timeClipNum (x : num) : Date :=
  match x with
  | Fin q => timeClip (Qtrunc q)
  | _ => None
  end.

(** Exactly [n] decimal digits. *)
Fixpoint readDigits (n : nat) (acc : Z) (s : string) : option (Z * string) :=
  match n with
  | O => Some (acc, s)
  | S k =>
      match s with
      | String c r =>
          if isDigit c then readDigits k (10 * acc + digitVal c) r else None
      | EmptyString => None
      end
  end.

Definition expect (c : ascii) (s : string) : option string :=
  match s with
  | String a r => if Ascii.eqb a c then Some r else None
  | EmptyString => None
  end.

Definition peek (c : ascii) (s : string) : bool :=
  match s with
  | String a _ => Ascii.eqb a c
  | EmptyString => false
  end.

(** [YYYY] or a signed six-digit year; [-000000] is not a year. *)
Definition isoYear (s : string) : option (Z * string) :=
  match s with
  | String "+" r => readDigits 6 0 r
  | String "-" r =>
      '(y, r') ← readDigits 6 0 r;
      if y =? 0 then None else Some (- y, r')
  | _ => readDigits 4 0 s
  end.

(** [YYYY], [YYYY-MM] or [YYYY-MM-DD]. *)
Definition isoDate (s : string) : option (Z * string) :=
  '(y, r1) ← isoYear s;
  '(m, r2) ← (if peek "-" r1 then r ← expect "-" r1; readDigits 2 0 r
              else Some (1, r1));
  '(d, r3) ← (if peek "-" r2 then r ← expect "-" r2; readDigits 2 0 r
              else Some (1, r2));
  if (1 <=? m) && (m <=? 12) && (1 <=? d) && (d <=? daysInMonth y m)
  then Some (daysFromCivil y m d, r3) else None.

(** [HH:mm], [HH:mm:ss] or [HH:mm:ss.sss], as milliseconds in the day. *)
Definition isoTime (s : string) : option (Z * string) :=
  '(h, r1) ← readDigits 2 0 s;
  r1' ← expect ":" r1;
  '(mi, r2) ← readDigits 2 0 r1';
  '(sec, r3) ← (if peek ":" r2 then r ← expect ":" r2; readDigits 2 0 r
                else Some (0, r2));
  '(ms, r4) ← (if peek "." r3 then r ← expect "." r3; readDigits 3 0 r
               else Some (0, r3));
  let t := h * msPerHour + mi * msPerMinute + sec * msPerSecond + ms in
  if (h <=? 24) && (mi <=? 59) && (sec <=? 59) && (t <=? msPerDay)
  then Some (t, r4) else None.

(** The UTC offset designator: [Z] or a signed [HH:mm]; minutes east. *)
Definition isoOffset (s : string) : option Z :=
  match s with
  | "Z" => Some 0
  | String c r =>
      '(h, r1) ← readDigits 2 0 r;
      r1' ← expect ":" r1;
      '(mi, r2) ← readDigits 2 0 r1';
      match r2 with
      | EmptyString =>
          if (h <=? 23) && (mi <=? 59) then
            if Ascii.eqb c "+" then Some (h * 60 + mi)
            else if Ascii.eqb c "-" then Some (- (h * 60 + mi))
            else None
          else None
      | _ => None
      end
  | EmptyString => None
  end.

Section WithEnv.
Variable env : Env.

Definition localTZA : Z := tzMinutes env * msPerMinute.

(** The ECMAScript date-time string format.  A date alone is UTC; a date
    and time without offset is local time. *)
Definition isoParse (s : string) : option Z :=
  '(day, r) ← isoDate s;
  match r with
  | EmptyString => Some (day * msPerDay)
  | String "T" r1 =>
      '(t, r2) ← isoTime r1;
      match r2 with
      | EmptyString => Some (day * msPerDay + t - localTZA)
      | _ => off ← isoOffset r2; Some (day * msPerDay + t - off * msPerMinute)
      end
  | _ => None
  end.

Definition dateParse (s : string) : Date :=
  match isoParse s with
  | Some t => timeClip t
  | None => t ← legacyDateParse env s; timeClip t
  end.

(** [new Date(v)] for a cell [v]. *)
Definition newDate (v : cell) : Date :=
  match v with
  | CStr s => dateParse s
  | CNum x => timeClipNum x
  | CBool b => Some (if b then 1 else 0)
  | CNull => Some 0
  | CDate time => time
  | CObject text => dateParse text
  end.

Definition getTime (d : Date) : num :=
  match d with Some t => ofZ t | None => NaN end.

Definition localTime (t : Z) : Z := t + localTZA.

Definition hourOf (t : Z) : Z := (t / msPerHour) mod 24.

Definition dateOf (t : Z) : Z := snd (civilFromDays (t / msPerDay)).

Definition getHours (d : Date) : num :=
  match d with Some t => ofZ (hourOf (localTime t)) | None => NaN end.

Definition getDate (d : Date) : num :=
  match d with Some t => ofZ (dateOf (localTime t)) | None => NaN end.

Definition getUTCHours (d : Date) : num :=
  match d with Some t => ofZ (hourOf t) | None => NaN end.

(** [d.setHours(h, m, s, ms)]: same local day, new time in the day.

    The two setters compute on the time value as an unbounded integer; the
    range check that invalidates a date more than 100,000,000 days from the
    epoch is made where a [Date] is constructed and not repeated here.  The
    normaliser applies the setters to 2025-08-01 moved forward by one day
    per 24 rows, which leaves the range only after some 2.3e9 rows. *)
Definition setHours (d : Date) (h m s ms : Z) : Date :=
  t ← d;
  let lt := localTime t in
  Some ((lt / msPerDay) * msPerDay
        + (h * msPerHour + m * msPerMinute + s * msPerSecond + ms)
        - localTZA).

(** [d.setDate(dt)]: day [dt] of the same local month, same time in the day. *)
Definition setDate (d : Date) (dt : Z) : Date :=
  t ← d;
  let lt := localTime t in
  let '(y, m, _) := civilFromDays (lt / msPerDay) in
  Some ((daysFromCivil y m 1 + dt - 1) * msPerDay + lt mod msPerDay - localTZA).

Definition yearString (y : Z) : string :=
  if (0 <=? y) && (y <=? 9999) then pad 4 y
  else if y <? 0 then "-" +:+ pad 6 (- y)
  else "+" +:+ pad 6 y.

(** [d.toISOString()]; [None] stands for the [RangeError] thrown on an
    invalid date. *)
Definition toISOString (d : Date) : option string :=
  t ← d;
  let '(y, m, dd) := civilFromDays (t / msPerDay) in
  let r := t mod msPerDay in
  Some (yearString y +:+ "-" +:+ pad 2 m +:+ "-" +:+ pad 2 dd +:+ "T"
        +:+ pad 2 (r / msPerHour) +:+ ":" +:+ pad 2 ((r / msPerMinute) mod 60)
        +:+ ":" +:+ pad 2 ((r / msPerSecond) mod 60)
        +:+ "." +:+ pad 3 (r mod msPerSecond) +:+ "Z").

Definition weekDays : list string :=
  ["Sun"; "Mon"; "Tue"; "Wed"; "Thu"; "Fri"; "Sat"].

Definition monthNames : list string :=
  ["Jan"; "Feb"; "Mar"; "Apr"; "May"; "Jun";
   "Jul"; "Aug"; "Sep"; "Oct"; "Nov"; "Dec"].

(** [d.toDateString()], in local time. *)
Definition toDateString (d : Date) : string :=
  match d with
  | None => "Invalid Date"
  | Some t =>
      let day := localTime t / msPerDay in
      let '(y, m, dd) := civilFromDays day in
      nth (Z.to_nat ((day + 4) mod 7)) weekDays ""
      +:+ " " +:+ nth (Z.to_nat (m - 1)) monthNames ""
      +:+ " " +:+ pad 2 dd
      +:+ " " +:+ (if y <? 0 then "-" else "") +:+ pad 4 (Z.abs y)
  end.

(** [d.toString()]: the date, the local time, the offset and the name of
    the zone. *)
Definition dateToString (d : Date) : string :=
  match d with
  | None => "Invalid Date"
  | Some t =>
      let r := localTime t mod msPerDay in
      let off := tzMinutes env in
      toDateString d +:+ " "
      +:+ pad 2 (r / msPerHour) +:+ ":" +:+ pad 2 ((r / msPerMinute) mod 60)
      +:+ ":" +:+ pad 2 ((r / msPerSecond) mod 60)
      +:+ " GMT" +:+ (if off <? 0 then "-" else "+")
      +:+ pad 2 (Z.abs off / 60) +:+ pad 2 (Z.abs off mod 60)
      +:+ " (" +:+ tzName env +:+ ")"
  end.

End WithEnv.

(** ** Arithmetic on numbers *)

Definition num_opp (a : num) : num :=
  match a with
  | NaN => NaN
  | PosInf => NegInf
  | NegInf => PosInf
  | Fin x => Fin (- x)
  end.

Definition num_add (a b : num) : num :=
  match a, b with
  | NaN, _ | _, NaN => NaN
  | PosInf, NegInf | NegInf, PosInf => NaN
  | PosInf, _ | _, PosInf => PosInf
  | NegInf, _ | _, NegInf => NegInf
  | Fin x, Fin y => Fin (x + y)
  end.

Definition num_sub (a b : num) : num := num_add a (num_opp b).

(** [parseFloat(x.toFixed(1))].  [toFixed] picks the integer [n] with [n/10]
    nearest to the magnitude of [x], the larger one on a tie, and keeps the
    sign; from 1e21 on it prints the number itself. *)
Definition roundTenth (q : Q) : Q :=
  if Qle_bool (inject_Z (10 ^ 21)) (Qabs q) then q
  else
    let n := Qfloor (Qabs q * 10 + (1 # 2)) in
    ((if Qltb q 0 then - n else n) # 10)%Q.

Definition round1 (x : num) : num :=
  match x with
  | Fin q => Fin (roundTenth q)
  | other => other
  end.

(** [String(x)] *)
Definition numberToString (env : Env) (x : num) : string :=
  match x with
  | NaN => "NaN"
  | PosInf => "Infinity"
  | NegInf => "-Infinity"
  | Fin q =>
      let n := Qfloor q in
      if Qeq_bool q (inject_Z n) && (Z.abs n <? 10 ^ 21)
      then (if n <? 0 then "-" +:+ decimal (- n) else decimal n)
      else numberToStringOther env q
  end.

(** [v.toString()] for a cell that is not [null]; [String(v)] in general. *)
Definition cellToString (env : Env) (v : cell) : string :=
  match v with
  | CNum x => numberToString env x
  | CStr s => s
  | CBool true => "true"
  | CBool false => "false"
  | CNull => "null"
  | CDate time => dateToString env time
  | CObject text => text
  end.

(** ** Exceptions *)

Inductive result (A : Type) : Type :=
| Ok (a : A)
| Throw (message : string).
Arguments Ok {A} a.
Arguments Throw {A} message.

#[global] Instance result_ret : MRet result := fun A a => Ok a.
#[global] Instance result_bind : MBind result := fun A B f m =>
  match m with
  | Ok a => f a
  | Throw e => Throw e
  end.

Definition orThrow {A : Type} (o : option A) (message : string) : result A :=
  match o with
  | Some a => Ok a
  | None => Throw message
  end.

(** ** Field mapping and ColumnMapper *)

Module Mapping.
Record t : Type := make {
  timestamp : string;
  rsrp : string;
  rsrq : string;
  sinr : string;
  technology : string;
  location : string;
  throughput : string;
  latitude : string;
  longitude : string
}.

Definition empty : t := make "" "" "" "" "" "" "" "" "".
End Mapping.

Definition latPatterns : list string :=
  ["lat"; "latitude"; "Lat"; "Latitude"; "LAT"; "LATITUDE";
   "lat_deg"; "latitude_deg"; "lat_decimal"; "latitude_decimal"].

Definition lngPatterns : list string :=
  ["lng"; "lon"; "long"; "longitude"; "Lng"; "Lon"; "Long";
   "Longitude"; "LNG"; "LON"; "LONG"; "LONGITUDE";
   "lng_deg"; "lon_deg"; "longitude_deg"; "long_decimal"].

(** [headers.includes(pattern)] *)
Definition hasHeader (headers : list string) (pattern : string) : bool :=
  existsb (String.eqb pattern) headers.

(** The first pattern, in pattern order, that is a header; [None] is [null]. *)
Definition detectCoordinateColumns (headers : list string)
  : option string * option string :=
  (List.find (hasHeader headers) latPatterns,
   List.find (hasHeader headers) lngPatterns).

(** One round of the [headers.forEach] of [handleCsvUpload]. *)
Definition autoMapHeader (m : Mapping.t) (h : string) : Mapping.t :=
  let lower := toLowerCase h in
  let pick (current : string) (cue : bool) : string :=
    if negb (str_truthy current) && cue then h else current in
  {| Mapping.timestamp :=
       pick (Mapping.timestamp m)
         (includes lower "time" || includes lower "date"
          || includes lower "timestamp");
     Mapping.rsrp :=
       pick (Mapping.rsrp m)
         (includes lower "rsrp"
          || includes lower "signal" && includes lower "strength");
     Mapping.rsrq :=
       pick (Mapping.rsrq m)
         (includes lower "rsrq" || includes lower "quality");
     Mapping.sinr :=
       pick (Mapping.sinr m)
         (includes lower "sinr" || includes lower "snr");
     Mapping.technology :=
       pick (Mapping.technology m)
         (includes lower "tech" || includes lower "rat"
          || includes lower "generation" || includes lower "technology");
     Mapping.location :=
       pick (Mapping.location m)
         (includes lower "location" || includes lower "sector"
          || includes lower "cell" || includes lower "site");
     Mapping.throughput :=
       pick (Mapping.throughput m)
         (includes lower "throughput" || includes lower "speed"
          || includes lower "rate" || includes lower "kbps"
          || includes lower "mbps");
     Mapping.latitude := Mapping.latitude m;
     Mapping.longitude := Mapping.longitude m |}.

(** The mapping proposed by [handleCsvUpload] for a header list. *)
Definition autoMapping (headers : list string) : Mapping.t :=
  let '(latCol, lngCol) := detectCoordinateColumns headers in
  let start :=
    {| Mapping.timestamp := ""; Mapping.rsrp := ""; Mapping.rsrq := "";
       Mapping.sinr := ""; Mapping.technology := ""; Mapping.location := "";
       Mapping.throughput := "";
       Mapping.latitude := default "" latCol;
       Mapping.longitude := default "" lngCol |} in
  fold_left autoMapHeader headers start.

(** ** Canonical measurement records *)

Record MeasurementRecord : Type := {
  timestamp : string;
  date : string;
  hour : num;
  day : num;
  rsrp : num;
  rsrq : num;
  sinr : num;
  signalClass : Z;
  technology : string;
  location : cell;
  throughput : num;
  lat : num;
  lon : num;
  (** present on normalised CSV rows, absent on generated demo data *)
  originalRow : option nat
}.

(** ** RecordNormalizer: [processCsvData] *)

Section Normalizer.
Variable env : Env.

(** Johannesburg default *)
Definition centerLat : Q := (-262041 # 10000)%Q.
Definition centerLon : Q := (280473 # 10000)%Q.

(** The timestamp synthesised for row [index]:
    [new Date('2025-08-01')], [setHours(index % 24, 0, 0, 0)],
    [setDate(getDate() + Math.floor(index / 24))]. *)
Definition fallbackTimestamp (index : nat) : Date :=
  let timestamp := dateParse env "2025-08-01" in
  let timestamp := setHours env timestamp (Z.of_nat index mod 24) 0 0 0 in
  match getDate env timestamp with
  | Fin d => setDate env timestamp (Qtrunc d + Z.of_nat index / 24)
  | _ => None
  end.

Definition resolveTimestamp (mapping : Mapping.t) (row : Row) (index : nat)
  : Date :=
  if str_truthy (Mapping.timestamp mapping)
     && truthy (rowGet row (Mapping.timestamp mapping))
  then
    let timestamp :=
      match rowGet row (Mapping.timestamp mapping) with
      | Some v => newDate env v
      | None => None
      end in
    if isNaN (getTime timestamp) then fallbackTimestamp index
    else timestamp
  else fallbackTimestamp index.

(** [mapping.f && row[mapping.f] !== undefined ?
      parseFloat(row[mapping.f]) || dflt : dflt],
    for a default that is a constant. *)
Definition resolveSignal (column : string) (row : Row) (dflt : num) : num :=
  if str_truthy column && defined (rowGet row column)
  then num_or (parseFloat (rowGet row column)) dflt
  else dflt.

(** [Math.random() * 100 + 50], drawing number [g] of the generator. *)
Definition randomThroughput (g : nat) : num :=
  Fin (random env g * 100 + 50).

(** The throughput and the generator position after it: the random value
    is drawn only where it is used. *)
Definition resolveThroughput (column : string) (row : Row) (g : nat)
  : num * nat :=
  if str_truthy column && defined (rowGet row column)
  then
    let parsed := parseFloat (rowGet row column) in
    if num_truthy parsed then (parsed, g)
    else (randomThroughput g, S g)
  else (randomThroughput g, S g).

Definition resolveTechnology (column : string) (row : Row) : string :=
  if str_truthy column && truthy (rowGet row column) then
    match rowGet row column with
    | Some v =>
        let techValue := toLowerCase (cellToString env v) in
        if includes techValue "5g" || includes techValue "nr"
           || includes techValue "new"
        then "5G" else "4G"
    | None => "4G"
    end
  else "4G".

(** The coordinates read from the mapped columns; [None] is the [null]
    both variables start with. *)
Definition mappedCoordinates (mapping : Mapping.t) (row : Row)
  : option num * option num :=
  if str_truthy (Mapping.latitude mapping)
     && str_truthy (Mapping.longitude mapping)
     && defined (rowGet row (Mapping.latitude mapping))
     && defined (rowGet row (Mapping.longitude mapping))
  then
    let parsedLat := parseFloat (rowGet row (Mapping.latitude mapping)) in
    let parsedLon := parseFloat (rowGet row (Mapping.longitude mapping)) in
    if isValidCoordinate (Some (CNum parsedLat)) (Some (CNum parsedLon))
    then (Some parsedLat, Some parsedLon)
    else (None, None)
  else (None, None).

(** The default centre moved by a random and a per-row jitter. *)
Definition fallbackCoordinates (index g : nat) : num * num :=
  let jitterA := (inject_Z (Z.of_nat index mod 100) / 1000)%Q in
  let jitterB := (inject_Z ((Z.of_nat index * 7) mod 100) / 1000)%Q in
  (Fin (centerLat + (random env g - (1 # 2)) * (5 # 100) + jitterA),
   Fin (centerLon + (random env (S g) - (1 # 2)) * (7 # 100) + jitterB)).

Definition resolveCoordinates (mapping : Mapping.t) (row : Row)
    (index g : nat) : num * num * nat :=
  match mappedCoordinates mapping row with
  | (Some lat, Some lon) => (lat, lon, g)
  | _ => (fallbackCoordinates index g, (2 + g)%nat)
  end.

Definition sectorLabel (index : nat) : cell :=
  CStr ("Sector_" +:+ decimal (Z.of_nat index / 24 + 1)).

Definition resolveLocation (column : string) (row : Row) (index : nat)
  : cell :=
  if str_truthy column && truthy (rowGet row column) then
    match rowGet row column with
    | Some v => v
    | None => sectorLabel index
    end
  else sectorLabel index.

(** The callback of [csvData.map]: the record of one row, and the position
    of the random generator after it. *)
Definition processRow (mapping : Mapping.t) (row : Row) (index g : nat)
  : result (MeasurementRecord * nat) :=
  let timestamp := resolveTimestamp mapping row index in
  let hour := getHours env timestamp in
  let day := getDate env timestamp in
  let date := toDateString env timestamp in
  let rsrp := resolveSignal (Mapping.rsrp mapping) row (ofZ (-80)) in
  let rsrq := resolveSignal (Mapping.rsrq mapping) row (ofZ (-10)) in
  let sinr := resolveSignal (Mapping.sinr mapping) row (ofZ 15) in
  let '(throughput, g1) :=
    resolveThroughput (Mapping.throughput mapping) row g in
  let technology := resolveTechnology (Mapping.technology mapping) row in
  let '(lat, lon, g2) := resolveCoordinates mapping row index g1 in
  let signalClass := classify rsrp in
  iso ← orThrow (toISOString timestamp) "Invalid time value";
  Ok ({| timestamp := iso;
         date := date;
         hour := hour;
         day := day;
         rsrp := round1 rsrp;
         rsrq := round1 rsrq;
         sinr := round1 sinr;
         signalClass := signalClass;
         technology := technology;
         location := resolveLocation (Mapping.location mapping) row index;
         throughput := round1 throughput;
         lat := lat;
         lon := lon;
         originalRow := Some index |}, g2).

Fixpoint processRows (mapping : Mapping.t) (rows : list Row) (index g : nat)
  : result (list MeasurementRecord * nat) :=
  match rows with
  | [] => Ok ([], g)
  | row :: rest =>
      '(r, g1) ← processRow mapping row index g;
      '(rs, g2) ← processRows mapping rest (S index) g1;
      Ok (r :: rs, g2)
  end.

(** [processCsvData(csvData, mapping)], with the generator position before
    and after. *)
Definition processCsvData (csvData : list Row) (mapping : Mapping.t) (g : nat)
  : result (list MeasurementRecord * nat) :=
  processRows mapping csvData 0 g.

End Normalizer.

(** ** Ingestion: [applyCsvData] *)

(** What PapaParse reports for a file: the [complete] callback with
    [results.data] (absent or a list of rows), or the [error] callback with
    a message.  A [File] is represented by that report. *)
Inductive CsvFile : Type :=
| Complete (data : option (list Row))
| Failed (message : string).

(** The component state that ingestion and the query engine touch. *)
Record AppState : Type := {
  data : list MeasurementRecord;
  selectedTech : string;
  csvFile : option CsvFile;
  isLoading : bool;
  dataSource : string;
  error : option string;
  fieldMapping : Mapping.t
}.

Section Ingestion.
Variable env : Env.

(** The body of the [try] block of the [complete] callback. *)
Definition ingest (results : option (list Row)) (mapping : Mapping.t)
    (g : nat) : result (list MeasurementRecord) :=
  match results with
  | None | Some [] => Throw "No data found in CSV file"
  | Some rows =>
      '(processed, _) ← processCsvData env rows mapping g;
      match processed with
      | [] => Throw "No valid data could be processed from CSV"
      | _ => Ok processed
      end
  end.

(** [applyCsvData()], run to the end of the parser callback; [g] is the
    position of the random generator when it starts. *)
Definition applyCsvData (st : AppState) (g : nat) : AppState :=
  match csvFile st with
  | None => st
  | Some file =>
      match file with
      | Complete results =>
          match ingest results (fieldMapping st) g with
          | Ok processed =>
              {| data := processed;
                 selectedTech := selectedTech st;
                 csvFile := csvFile st;
                 isLoading := false;
                 dataSource := "csv";
                 error := None;
                 fieldMapping := fieldMapping st |}
          | Throw message =>
              {| data := [];
                 selectedTech := selectedTech st;
                 csvFile := csvFile st;
                 isLoading := false;
                 dataSource := dataSource st;
                 error := Some ("Failed to process CSV: " +:+ message);
                 fieldMapping := fieldMapping st |}
          end
      | Failed message =>
          {| data := data st;
             selectedTech := selectedTech st;
             csvFile := csvFile st;
             isLoading := false;
             dataSource := dataSource st;
             error := Some ("Failed to parse CSV file: " +:+ message);
             fieldMapping := fieldMapping st |}
      end
  end.

End Ingestion.

(** ** Regular expressions

    The fragment of JavaScript regular expressions the query engine uses,
    matched by backtracking in the order the language prescribes: greedy
    quantifiers, alternatives from left to right, the leftmost start
    position first. *)

Inductive regex : Type :=
| Lit (s : string)            (** the characters of [s] *)
| Class (p : ascii -> bool)   (** one character of a class *)
| Cat (r1 r2 : regex)
| Alt (r1 r2 : regex)         (** [r1|r2] *)
| Opt (r : regex)             (** [r?] *)
| Star (p : ascii -> bool)    (** [c*] for a character class [c] *)
| Group (r : regex)           (** a capturing group *)
| WordBoundary.               (** [\b] *)

Definition Plus (p : ascii -> bool) : regex := Cat (Class p) (Star p).

(** [\d{1,2}] *)
Definition Digits12 : regex := Cat (Class isDigit) (Opt (Class isDigit)).

(** [.]: any character but a line terminator *)
Definition isDot (c : ascii) : bool :=
  negb ((code c =? 10)%N || (code c =? 13)%N).

Fixpoint catAll (rs : list regex) : regex :=
  match rs with
  | [] => Lit ""
  | [r] => r
  | r :: rest => Cat r (catAll rest)
  end.

Fixpoint takeStr (n : nat) (s : string) : string :=
  match n, s with
  | S k, String c r => String c (takeStr k r)
  | _, _ => EmptyString
  end.

Definition isWordAt (c : option ascii) : bool :=
  match c with Some a => isWord a | None => false end.

Definition firstChar (s : string) : option ascii :=
  match s with String c _ => Some c | EmptyString => None end.

Section Matcher.
Context {R : Type}.

(** A continuation receives the character before the current position,
    the rest of the input and the groups captured so far. *)
Definition cont : Type := option ascii -> string -> list string -> option R.

Fixpoint runLit (l : string) (b : option ascii) (s : string)
    (gs : list string) (k : cont) : option R :=
  match l with
  | EmptyString => k b s gs
  | String a l' =>
      match s with
      | String c s' =>
          if Ascii.eqb a c then runLit l' (Some c) s' gs k else None
      | EmptyString => None
      end
  end.

Fixpoint runStar (p : ascii -> bool) (b : option ascii) (s : string)
    (gs : list string) (k : cont) : option R :=
  match s with
  | String c s' =>
      if p c then
        match runStar p (Some c) s' gs k with
        | Some x => Some x
        | None => k b s gs
        end
      else k b s gs
  | EmptyString => k b s gs
  end.

Fixpoint run (r : regex) (b : option ascii) (s : string) (gs : list string)
    (k : cont) : option R :=
  match r with
  | Lit l => runLit l b s gs k
  | Class p =>
      match s with
      | String c s' => if p c then k (Some c) s' gs else None
      | EmptyString => None
      end
  | Cat r1 r2 => run r1 b s gs (fun b' s' gs' => run r2 b' s' gs' k)
  | Alt r1 r2 =>
      match run r1 b s gs k with
      | Some x => Some x
      | None => run r2 b s gs k
      end
  | Opt r1 =>
      match run r1 b s gs k with
      | Some x => Some x
      | None => k b s gs
      end
  | Star p => runStar p b s gs k
  | Group r1 =>
      run r1 b s gs (fun b' s' gs' =>
        k b' s' (gs' ++ [takeStr (String.length s - String.length s') s])%list)
  | WordBoundary =>
      if xorb (isWordAt b) (isWordAt (firstChar s)) then k b s gs else None
  end.
End Matcher.

(** The match starting at the leftmost possible position: its groups. *)
Fixpoint searchFrom (r : regex) (b : option ascii) (s : string)
  : option (list string) :=
  match run r b s [] (fun _ _ gs => Some gs) with
  | Some gs => Some gs
  | None =>
      match s with
      | String c s' => searchFrom r (Some c) s'
      | EmptyString => None
      end
  end.

(** [s.match(r)] for a regular expression without the [g] flag: [None] is
    [null], otherwise the captured groups. *)
Definition regexMatch (s : string) (r : regex) : option (list string) :=
  searchFrom r None s.

(** [m[i]] for a match array [m] and a group number [i >= 1]; [None] is
    [undefined]. *)
Definition group (m : list string) (i : nat) : option string :=
  m !! (i - 1)%nat.

(** [/between\s+(\d{1,2})\s*(?:and|-|to)\s*(\d{1,2})/] *)
Definition hourRangeRe : regex :=
  catAll [Lit "between"; Plus isSpace; Group Digits12; Star isSpace;
          Alt (Lit "and") (Alt (Lit "-") (Lit "to")); Star isSpace;
          Group Digits12].

(** [/\b(?:hour|at)\s*(\d{1,2})\b/] *)
Definition atHourRe : regex :=
  catAll [WordBoundary; Alt (Lit "hour") (Lit "at"); Star isSpace;
          Group Digits12; WordBoundary].

(** [/\baug(?:ust)?\s*(\d{1,2})\b/] *)
Definition dayRe : regex :=
  catAll [WordBoundary; Lit "aug"; Opt (Lit "ust"); Star isSpace;
          Group Digits12; WordBoundary].

(** [/top\s*\d+\s*sectors?.*throughput/] and the same with [bottom] *)
Definition sectorsRe (which : string) : regex :=
  catAll [Lit which; Star isSpace; Plus isDigit; Star isSpace; Lit "sector";
          Opt (Lit "s"); Star isDot; Lit "throughput"].

(** [/top\s*(\d+)/] and the same with [bottom] *)
Definition countRe (which : string) : regex :=
  catAll [Lit which; Star isSpace; Group (Plus isDigit)].

(** [/(\d{1,2})\s*th\s*percentile/] *)
Definition percentileRe : regex :=
  catAll [Group Digits12; Star isSpace; Lit "th"; Star isSpace;
          Lit "percentile"].

(** ** Small helpers of the query engine *)

(** The binary64 value nearest to a natural number (ties to even). *)
Definition nearestDouble (n : Z) : num :=
  let e := Z.log2 n - 52 in
  if e <=? 0 then ofZ n
  else
    let m := n / 2 ^ e in
    let r := n mod 2 ^ e in
    let half := 2 ^ (e - 1) in
    let m' := if (half <? r) || (half =? r) && Z.odd m then m + 1 else m in
    if 2 ^ 1024 <=? m' * 2 ^ e then PosInf else ofZ (m' * 2 ^ e).

Fixpoint allDigits (s : string) : bool :=
  match s with
  | EmptyString => true
  | String c r => isDigit c && allDigits r
  end.

(** [Number(v)] for what reaches [clampInt]: [undefined] or the text of a
    group of decimal digits. *)
Definition toNumber (v : option string) : num :=
  match v with
  | None => NaN
  | Some EmptyString => ofZ 0
  | Some s =>
      if allDigits s then nearestDouble (fst (fst (takeDigits 0 O s)))
      else NaN
  end.

(** [x | 0]: ToInt32 *)
Definition toInt32 (x : num) : Z :=
  match x with
  | Fin q =>
      let m := Qtrunc q mod 2 ^ 32 in
      if 2 ^ 31 <=? m then m - 2 ^ 32 else m
  | _ => 0
  end.

Definition clampInt (n : option string) (lo hi : Z) : Z :=
  Z.max lo (Z.min hi (toInt32 (toNumber n))).

(** [Math.round] *)
Definition mathRound (q : Q) : Z := Qfloor (q + (1 # 2)).

(** [x.toFixed(1)] *)
Definition toFixed1 (env : Env) (x : num) : string :=
  match x with
  | Fin q =>
      if Qle_bool (inject_Z (10 ^ 21)) (Qabs q) then numberToString env x
      else
        let n := Qfloor (Qabs q * 10 + (1 # 2)) in
        (if Qltb q 0 then "-" else "")
        +:+ decimal (n / 10) +:+ "." +:+ decimal (n mod 10)
  | other => numberToString env other
  end.

(** [(Number(n) || 0).toFixed(1) + '%'] *)
Definition fmtPct (env : Env) (n : num) : string :=
  toFixed1 env (num_or n (ofZ 0)) +:+ "%".

(** [Math.round(Number(n) || 0).toLocaleString() + ' kbps'] *)
Definition fmtKbps (env : Env) (n : Q) : string :=
  localeInteger env (mathRound n) +:+ " kbps".

(** [Object.keys] of a record, in creation order. *)
Definition recordKeys (r : MeasurementRecord) : list string :=
  ["timestamp"; "date"; "hour"; "day"; "rsrp"; "rsrq"; "sinr"; "signalClass";
   "technology"; "location"; "throughput"; "lat"; "lon"]
  ++ match originalRow r with Some _ => ["originalRow"] | None => [] end.

Fixpoint join (sep : string) (parts : list string) : string :=
  match parts with
  | [] => ""
  | [x] => x
  | x :: rest => x +:+ sep +:+ join sep rest
  end.

Definition summarizeColumns (sampleRow : option MeasurementRecord) : string :=
  match sampleRow with
  | None => "No columns detected."
  | Some r => join ", " (recordKeys r)
  end.

(** The finite values of a field, as [arr.map(x => Number(x[key]))
    .filter(Number.isFinite)] leaves them. *)
Definition finiteValues (arr : list MeasurementRecord)
    (key : MeasurementRecord -> num) : list Q :=
  omap (fun x => match key x with Fin v => Some v | _ => None end) arr.

Definition Qsum (vals : list Q) : Q := fold_left Qplus vals 0%Q.

Definition avg (arr : list MeasurementRecord) (key : MeasurementRecord -> num)
  : Q :=
  let vals := finiteValues arr key in
  match vals with
  | [] => 0%Q
  | _ => (Qsum vals / inject_Z (Z.of_nat (length vals)))%Q
  end.

(** [Array.prototype.sort] with a comparator, as a stable insertion sort:
    [after x y] says the comparator is positive on [(x, y)].  (When the
    comparator is not a consistent order the standard leaves the result to
    the engine; this is then one admissible outcome.) *)
Section Sort.
Context {A : Type} (after : A -> A -> bool).

Fixpoint insertSorted (x : A) (l : list A) : list A :=
  match l with
  | [] => [x]
  | y :: l' => if after x y then y :: insertSorted x l' else x :: l
  end.

Definition sortBy (l : list A) : list A := foldr insertSorted [] l.
End Sort.

(** The value a comparator returns is positive. *)
Definition positive (x : num) : bool := num_lt (ofZ 0) x.

(** [percentile(arr, key, p)]; [None] stands for the [undefined] an index
    outside the array would give. *)
Definition percentile (arr : list MeasurementRecord)
    (key : MeasurementRecord -> num) (p : Z) : option Q :=
  let vals := sortBy (fun a b => Qltb 0 (a - b)) (finiteValues arr key) in
  match vals with
  | [] => Some 0%Q
  | _ =>
      let n := Z.of_nat (length vals) in
      let idx :=
        Z.min (n - 1)
          (Z.max 0 (mathRound (inject_Z p / 100 * inject_Z (n - 1)))) in
      vals !! Z.to_nat idx
  end.

(** A plain object used as a map from strings to arrays of records: its own
    properties in insertion order. *)
Abbreviation Groups := (list (string * list MeasurementRecord)).

Fixpoint ownProperty (m : Groups) (k : string)
  : option (list MeasurementRecord) :=
  match m with
  | [] => None
  | (k', rows) :: rest => if String.eqb k k' then Some rows else ownProperty rest k
  end.

Fixpoint pushTo (m : Groups) (k : string) (r : MeasurementRecord) : Groups :=
  match m with
  | [] => []
  | (k', rows) :: rest =>
      if String.eqb k k' then (k', rows ++ [r])%list :: rest
      else (k', rows) :: pushTo rest k r
  end.

Section Query.
Variable env : Env.

(** The property key of [r[key] ?? 'Unknown'] for [key = 'location']. *)
Definition locationKey (r : MeasurementRecord) : string :=
  match location r with
  | CNull => "Unknown"
  | v => cellToString env v
  end.

(** One round of the reducer of [groupBy]:
    [(m[k] = m[k] || []).push(r)].  When [m] has no own property [k] but
    inherits one, [m[k]] is that inherited value, a function or an object
    without a [push] method, and the call throws a [TypeError]. *)
Definition groupStep (m : Groups) (r : MeasurementRecord) : result Groups :=
  let k := locationKey r in
  match ownProperty m k with
  | Some _ => Ok (pushTo m k r)
  | None =>
      if inheritedKey k
      then Throw "(intermediate value).push is not a function"
      else Ok (m ++ [(k, [r])])%list
  end.

Fixpoint groupByFrom (m : Groups) (arr : list MeasurementRecord)
  : result Groups :=
  match arr with
  | [] => Ok m
  | r :: rest => m' ← groupStep m r; groupByFrom m' rest
  end.

(** [groupBy(arr, 'location')] *)
Definition groupBy (arr : list MeasurementRecord) : result Groups :=
  groupByFrom [] arr.

(** A key that is a canonical array index (an integer below 2^32 - 1
    printed without sign or leading zero). *)
Definition arrayIndex (k : string) : option Z :=
  let n := fst (fst (takeDigits 0 O k)) in
  if str_truthy k && allDigits k && String.eqb (decimal n) k
     && (n <? 2 ^ 32 - 1)
  then Some n else None.

(** [Object.entries]: array-index keys in ascending order, then the other
    keys in insertion order. *)
Definition objectEntries (m : Groups) : Groups :=
  let indexed :=
    omap (fun e => n ← arrayIndex (fst e); Some (n, e)) m in
  let named := List.filter (fun e => negb (bool_decide (is_Some (arrayIndex (fst e))))) m in
  (map snd (sortBy (fun a b => fst b <? fst a) indexed) ++ named)%list.

Definition nl : string := String (ascii_of_N 10) "".

(** The ranking shared by the top-N and bottom-N intents; [descending]
    chooses the comparator [b.mbps - a.mbps] over [a.mbps - b.mbps]. *)
Definition rankSectors (subset : list MeasurementRecord) (descending : bool)
    (k : Z) : result (list (string * Q)) :=
  byLoc ← groupBy subset;
  let rows := map (fun e => (fst e, avg (snd e) throughput))
                  (objectEntries byLoc) in
  let sorted :=
    sortBy (fun a b => if descending then Qltb 0 (snd b - snd a)
                       else Qltb 0 (snd a - snd b)) rows in
  Ok (take (Z.to_nat k) sorted).

Fixpoint rankLines (i : Z) (rows : list (string * Q)) : list string :=
  match rows with
  | [] => []
  | (loc, mbps) :: rest =>
      (decimal i +:+ ". " +:+ loc +:+ ": " +:+ toFixed1 env (Fin mbps)
       +:+ " Mbps") :: rankLines (i + 1) rest
  end.

Definition count (rows : list MeasurementRecord) : string :=
  localeInteger env (Z.of_nat (length rows)).

Definition isClass1 (r : MeasurementRecord) : bool := signalClass r =? 1.

(** [(c1 / subset.length) * 100] *)
Definition class1Share (subset : list MeasurementRecord) : num :=
  let c1 := length (List.filter isClass1 subset) in
  match subset with
  | [] => match c1 with O => NaN | _ => PosInf end
  | _ => Fin (inject_Z (Z.of_nat c1) / inject_Z (Z.of_nat (length subset))
              * 100)
  end.

Definition byTechnology (tech : string) (rows : list MeasurementRecord)
  : list MeasurementRecord :=
  List.filter (fun r => String.eqb (technology r) tech) rows.

(** The memoised [filteredData] of the component. *)
Definition filteredData (st : AppState) : list MeasurementRecord :=
  List.filter (fun item => String.eqb (selectedTech st) "All"
                           || String.eqb (technology item) (selectedTech st))
              (data st).

(** Step 1 of [askLocalAI]: the subset selected by the filters named in
    the (lower-cased) question. *)
Definition techFilter (st : AppState) (q : string)
  : list MeasurementRecord :=
  if includes q " 5g" || startsWith q "5g" || includes q " nr"
  then byTechnology "5G" (data st)
  else if includes q " 4g" || startsWith q "4g" || includes q " lte"
  then byTechnology "4G" (data st)
  else if negb (String.eqb (selectedTech st) "All") then filteredData st
  else data st.

Definition hourFilter (q : string) (subset : list MeasurementRecord)
  : list MeasurementRecord :=
  match regexMatch q hourRangeRe with
  | Some hourRange =>
      let h1 := clampInt (group hourRange 1) 0 23 in
      let h2 := clampInt (group hourRange 2) 0 23 in
      let '(lo, hi) := if h1 <=? h2 then (h1, h2) else (h2, h1) in
      List.filter (fun r => num_ge (hour r) (ofZ lo)
                            && num_le (hour r) (ofZ hi)) subset
  | None =>
      match regexMatch q atHourRe with
      | Some atHour =>
          let h := clampInt (group atHour 1) 0 23 in
          List.filter (fun r => num_eqb (hour r) (ofZ h)) subset
      | None => subset
      end
  end.

Definition dayFilter (q : string) (subset : list MeasurementRecord)
  : list MeasurementRecord :=
  match regexMatch q dayRe with
  | Some dayMatch =>
      let d := clampInt (group dayMatch 1) 1 31 in
      List.filter (fun r => num_eqb (day r) (ofZ d)) subset
  | None => subset
  end.

Definition selectSubset (st : AppState) (q : string)
  : list MeasurementRecord :=
  dayFilter q (hourFilter q (techFilter st q)).

Definition noMatchingRows : string :=
  "No matching rows for those filters. Try a broader question.".

(** [(q.match(re) || [dflt])[1]]: group 1 of the match, or element 1 of
    the one-element array [[dflt]], which is [undefined]. *)
Definition groupOr (m : option (list string)) (dflt : string)
  : option string :=
  match m with
  | Some groups => group groups 1
  | None => [dflt] !! 1%nat
  end.

(** The percentile the percentile intent asks [percentile] for. *)
Definition requestedPercentile (q : string) : Z :=
  clampInt (groupOr (regexMatch q percentileRe) "95") 1 99.

Definition requestedCount (which q : string) : Z :=
  clampInt (groupOr (regexMatch q (countRe which)) "5") 1 50.

(** Step 2 of [askLocalAI]: the intents, tried in order on a subset. *)
Definition dispatch (st : AppState) (q : string)
    (subset : list MeasurementRecord) : result string :=
  if includes q "columns" || includes q "schema" || includes q "headers"
  then Ok ("Detected columns: " +:+ summarizeColumns (data st !! 0%nat))
  else if includes q "count" || includes q "how many" || includes q "rows"
          || includes q "measurements"
  then Ok ("There are " +:+ count subset +:+ " measurements in this selection.")
  else if includes q "average throughput" || includes q "avg throughput"
          || includes q "throughput mean"
  then
    let mbps := avg subset throughput in
    Ok ("Average throughput: " +:+ fmtKbps env (mbps * 1000)
        +:+ " (≈ " +:+ toFixed1 env (Fin mbps) +:+ " Mbps) based on "
        +:+ count subset +:+ " measurements.")
  else if includes q "average rsrp" || includes q "avg rsrp"
  then Ok ("Average RSRP: " +:+ toFixed1 env (Fin (avg subset rsrp)) +:+ " dBm.")
  else if includes q "average rsrq" || includes q "avg rsrq"
  then Ok ("Average RSRQ: " +:+ toFixed1 env (Fin (avg subset rsrq)) +:+ " dB.")
  else if includes q "average sinr" || includes q "avg sinr"
  then Ok ("Average SINR: " +:+ toFixed1 env (Fin (avg subset sinr)) +:+ " dB.")
  else if includes q "class 1"
          && (includes q "percent" || includes q "coverage"
              || includes q "share")
  then
    let c1 := List.filter isClass1 subset in
    Ok ("Class 1 coverage: " +:+ fmtPct env (class1Share subset) +:+ " ("
        +:+ count c1 +:+ " of " +:+ count subset +:+ ").")
  else if bool_decide (is_Some (regexMatch q (sectorsRe "top")))
  then
    let k := requestedCount "top" q in
    rows ← rankSectors subset true k;
    Ok ("Top " +:+ decimal (Z.of_nat (length rows))
        +:+ " sectors by avg throughput:" +:+ nl
        +:+ join nl (rankLines 1 rows))
  else if bool_decide (is_Some (regexMatch q (sectorsRe "bottom")))
  then
    let k := requestedCount "bottom" q in
    rows ← rankSectors subset false k;
    Ok ("Bottom " +:+ decimal (Z.of_nat (length rows))
        +:+ " sectors by avg throughput:" +:+ nl
        +:+ join nl (rankLines 1 rows))
  else if includes q "percentile" && includes q "throughput"
  then
    let p := requestedPercentile q in
    val ← orThrow (percentile subset throughput p)
          "Cannot read properties of undefined (reading 'toFixed')";
    Ok (decimal p +:+ "th percentile throughput ≈ "
        +:+ toFixed1 env (Fin val) +:+ " Mbps ("
        +:+ fmtKbps env (val * 1000) +:+ ").")
  else if includes q "worst rsrp" || includes q "lowest rsrp"
  then
    worst ← orThrow
      (sortBy (fun a b => positive (num_sub (rsrp a) (rsrp b))) subset
         !! 0%nat)
      "Cannot read properties of undefined (reading 'rsrp')";
    Ok ("Worst RSRP: " +:+ numberToString env (rsrp worst) +:+ " dBm at "
        +:+ cellToString env (location worst) +:+ " around "
        +:+ localeDate env (dateParse env (timestamp worst)) +:+ ".")
  else
    let mbps := avg subset throughput in
    Ok (join nl
          ["Here’s a quick summary:";
           "• Rows: " +:+ count subset;
           "• Avg Throughput: " +:+ toFixed1 env (Fin mbps) +:+ " Mbps ("
             +:+ fmtKbps env (mbps * 1000) +:+ ")";
           "• Avg RSRP: " +:+ toFixed1 env (Fin (avg subset rsrp)) +:+ " dBm";
           "• Avg RSRQ: " +:+ toFixed1 env (Fin (avg subset rsrq)) +:+ " dB";
           "• Avg SINR: " +:+ toFixed1 env (Fin (avg subset sinr)) +:+ " dB";
           "• Class 1: " +:+ fmtPct env (class1Share subset)]).

(** [askLocalAI(question)] in a component whose state is [st]. *)
Definition askLocalAI (st : AppState) (question : string) : result string :=
  let q := toLowerCase question in
  let subset := selectSubset st q in
  match subset with
  | [] => Ok noMatchingRows
  | _ => dispatch st q subset
  end.

End Query.

(** No sector of [rows] is named like a property of [Object.prototype]. *)
Definition ownKeysOnly (env : Env) (rows : list MeasurementRecord) : Prop :=
  Forall (fun r => inheritedKey (locationKey env r) = false) rows.

(** ** Aggregations for the charts *)

(** [x / n] for an array length [n] *)
Definition num_div_count (x : num) (n : nat) : num :=
  match n, x with
  | S _, Fin q => Fin (q / inject_Z (Z.of_nat n))
  | O, Fin q =>
      if Qeq_bool q 0 then NaN else if Qltb q 0 then NegInf else PosInf
  | _, other => other
  end.

(** [x * c] for a positive constant [c] *)
Definition num_times (x : num) (c : Q) : num :=
  match x with
  | Fin q => Fin (q * c)
  | other => other
  end.

(** [rows.reduce((sum, item) => sum + item[key], 0)] *)
Definition sumOf (key : MeasurementRecord -> num)
    (rows : list MeasurementRecord) : num :=
  fold_left (fun sum item => num_add sum (key item)) rows (ofZ 0).

(** [total > 0 ? rows.reduce(...) / total : 0] *)
Definition meanOrZero (key : MeasurementRecord -> num)
    (rows : list MeasurementRecord) : num :=
  match rows with
  | [] => ofZ 0
  | _ => num_div_count (sumOf key rows) (length rows)
  end.

(** [total > 0 ? (class1Count / total) * 100 : 0] *)
Definition class1Percent (rows : list MeasurementRecord) : num :=
  match rows with
  | [] => ofZ 0
  | _ =>
      Fin (inject_Z (Z.of_nat (length (List.filter isClass1 rows)))
           / inject_Z (Z.of_nat (length rows)) * 100)
  end.

Module HourBucket.
Record t : Type := make {
  hour : string;
  class1Percentage : num;
  avgRSRP : num;
  avgThroughputKbps : num;
  rawAvgThroughputMbps : num;
  count : nat
}.
End HourBucket.

Definition atHour (h : nat) (rows : list MeasurementRecord)
  : list MeasurementRecord :=
  List.filter (fun item => num_eqb (hour item) (ofZ (Z.of_nat h))) rows.

(** The callback of [Array.from({ length: 24 }, ...)] in [hourlyData]. *)
Definition hourBucket (filtered : list MeasurementRecord) (h : nat)
  : HourBucket.t :=
  let hourData := atHour h filtered in
  let avgThroughputMbps := meanOrZero throughput hourData in
  {| HourBucket.hour := decimal (Z.of_nat h) +:+ ":00";
     HourBucket.class1Percentage := class1Percent hourData;
     HourBucket.avgRSRP := meanOrZero rsrp hourData;
     HourBucket.avgThroughputKbps := num_times avgThroughputMbps 1000;
     HourBucket.rawAvgThroughputMbps := avgThroughputMbps;
     HourBucket.count := length hourData |}.

Definition hourlyData (st : AppState) : list HourBucket.t :=
  map (hourBucket (filteredData st)) (seq 0 24).

Module DayBucket.
Record t : Type := make {
  day : Z;
  date : string;
  class1Percentage : num;
  avgRSRP : num;
  avgThroughputKbps : num;
  class1Count : nat;
  totalMeasurements : nat
}.
End DayBucket.

Definition onDay (dayNumber : Z) (rows : list MeasurementRecord)
  : list MeasurementRecord :=
  List.filter (fun item => num_eqb (day item) (ofZ dayNumber)) rows.

(** The callback of [Array.from({ length: 31 }, ...)] in [dailyData]. *)
Definition dayBucket (filtered : list MeasurementRecord) (dayIdx : nat)
  : DayBucket.t :=
  let dayNumber := Z.of_nat dayIdx + 1 in
  let dayData := onDay dayNumber filtered in
  {| DayBucket.day := dayNumber;
     DayBucket.date := "Aug " +:+ decimal dayNumber;
     DayBucket.class1Percentage := class1Percent dayData;
     DayBucket.avgRSRP := meanOrZero rsrp dayData;
     DayBucket.avgThroughputKbps :=
       match dayData with
       | [] => ofZ 0
       | _ => num_times
                (num_div_count (sumOf throughput dayData) (length dayData))
                1000
       end;
     DayBucket.class1Count := length (List.filter isClass1 dayData);
     DayBucket.totalMeasurements := length dayData |}.

Definition dailyData (st : AppState) : list DayBucket.t :=
  map (dayBucket (filteredData st)) (seq 0 31).

(** One slice of a distribution chart. *)
Record Slice : Type := {
  name : string;
  value : nat;
  color : string
}.

Definition ofClass (c : Z) (rows : list MeasurementRecord)
  : list MeasurementRecord :=
  List.filter (fun item => signalClass item =? c) rows.

Definition signalClassData (st : AppState) : list Slice :=
  let filtered := filteredData st in
  [ {| name := "Class 1 (Excellent)"; value := length (ofClass 1 filtered);
       color := "#10B981" |};
    {| name := "Class 2 (Good)"; value := length (ofClass 2 filtered);
       color := "#3B82F6" |};
    {| name := "Class 3 (Fair)"; value := length (ofClass 3 filtered);
       color := "#F59E0B" |};
    {| name := "Class 4 (Poor)"; value := length (ofClass 4 filtered);
       color := "#EF4444" |} ].

Definition techData (st : AppState) : list Slice :=
  let filtered := filteredData st in
  [ {| name := "5G"; value := length (byTechnology "5G" filtered);
       color := "#8B5CF6" |};
    {| name := "4G"; value := length (byTechnology "4G" filtered);
       color := "#06B6D4" |} ].

(** The numeric KPIs: [totalMeasurements], [class1Count] and
    [avgThroughputKbps]. *)
Definition totalMeasurements (st : AppState) : nat := length (filteredData st).

Definition class1Count (st : AppState) : nat :=
  length (List.filter isClass1 (filteredData st)).

Definition avgThroughputKbps (st : AppState) : num :=
  match filteredData st with
  | [] => ofZ 0
  | filtered =>
      num_times (num_div_count (sumOf throughput filtered) (length filtered))
        1000
  end.

(** ** Map *)

(** The records that get a marker:
    [filteredData.filter(pt => isValidCoordinate(pt.lat, pt.lon))]. *)
Definition markers (st : AppState) : list MeasurementRecord :=
  List.filter (fun pt => isValidCoordinate (Some (CNum (lat pt)))
                                           (Some (CNum (lon pt))))
              (filteredData st).



(** ** Demo data: [generateDriveTestData] *)

(** [Math.min(a, b)] and [Math.max(a, b)] on finite numbers *)
Definition mathMin (a b : Q) : Q := if Qle_bool a b then a else b.
Definition mathMax (a b : Q) : Q := if Qle_bool a b then b else a.

Fixpoint traverse {A B : Type} (f : A -> result B) (l : list A)
  : result (list B) :=
  match l with
  | [] => Ok []
  | a :: rest => b ← f a; bs ← traverse f rest; Ok (b :: bs)
  end.

Section Demo.
Variable env : Env.

(** [new Date(startDate)], [setDate(startDate.getDate() + day)],
    [setHours(hour, 0, 0, 0)]. *)
Definition demoDate (dayIdx h : nat) : Date :=
  let startDate := dateParse env "2025-08-01" in
  let currentDate := newDate env (CDate startDate) in
  let currentDate :=
    match getDate env startDate with
    | Fin d => setDate env currentDate (Qtrunc d + Z.of_nat dayIdx)
    | _ => None
    end in
  setHours env currentDate (Z.of_nat h) 0 0 0.

(** The body of the inner loop; it draws the nine random numbers from
    position [g] on, in the order the source evaluates them. *)
Definition demoRecord (dayIdx h g : nat) : result MeasurementRecord :=
  let currentDate := demoDate dayIdx h in
  let baseSignal := (-75 + random env g * 50)%Q in
  let rsrp :=
    mathMax (-120)
      (mathMin (-50) (baseSignal + (random env (1 + g) - (1 # 2)) * 20))%Q in
  let rsrq :=
    mathMax (-20)
      (mathMin (-3) (-10 + (random env (2 + g) - (1 # 2)) * 10))%Q in
  let sinr :=
    mathMax (-10)
      (mathMin 30 (15 + (random env (3 + g) - (1 # 2)) * 20))%Q in
  let signalClass := classify (Fin rsrp) in
  let lat := (centerLat + (random env (4 + g) - (1 # 2)) * (5 # 100))%Q in
  let lon := (centerLon + (random env (5 + g) - (1 # 2)) * (7 # 100))%Q in
  iso ← orThrow (toISOString currentDate) "Invalid time value";
  Ok {| timestamp := iso;
        date := toDateString env currentDate;
        hour := ofZ (Z.of_nat h);
        day := ofZ (Z.of_nat dayIdx + 1);
        rsrp := round1 (Fin rsrp);
        rsrq := round1 (Fin rsrq);
        sinr := round1 (Fin sinr);
        signalClass := signalClass;
        technology := if Qltb (3 # 10) (random env (6 + g)) then "5G" else "4G";
        location :=
          CStr ("Sector_" +:+ decimal (Qfloor (random env (7 + g) * 50) + 1));
        throughput := round1 (Fin (random env (8 + g) * 100 + 50));
        lat := Fin lat;
        lon := Fin lon;
        originalRow := None |}.

(** [generateDriveTestData()], the generator starting at position [g];
    record number [n] uses the draws [g + 9n], ..., [g + 9n + 8]. *)
Definition generateDriveTestData (g : nat) : result (list MeasurementRecord) :=
  days ← traverse
         (fun dayIdx =>
            traverse
              (fun h => demoRecord dayIdx h (g + 9 * (dayIdx * 24 + h)))
              (seq 0 24))
         (seq 0 31);
  Ok (concat days).

(** The effect that loads the demo data while [dataSource] is
    ['synthetic']. *)
Definition loadDemoData (st : AppState) (g : nat) : AppState :=
  if String.eqb (dataSource st) "synthetic" then
    match generateDriveTestData g with
    | Ok generated =>
        {| data := generated;
           selectedTech := selectedTech st;
           csvFile := csvFile st;
           isLoading := isLoading st;
           dataSource := dataSource st;
           error := None;
           fieldMapping := fieldMapping st |}
    | Throw _ =>
        {| data := [];
           selectedTech := selectedTech st;
           csvFile := csvFile st;
           isLoading := isLoading st;
           dataSource := dataSource st;
           error := Some "Failed to generate demo data";
           fieldMapping := fieldMapping st |}
    end
  else st.

End Demo.

(** ** Notions the further properties are stated with *)

(** The cues of [handleCsvUpload], as tests on a lower-cased header. *)
Definition timestampCue (lower : string) : bool :=
  includes lower "time" || includes lower "date" || includes lower "timestamp".
Definition rsrpCue (lower : string) : bool :=
  includes lower "rsrp" || includes lower "signal" && includes lower "strength".
Definition rsrqCue (lower : string) : bool :=
  includes lower "rsrq" || includes lower "quality".
Definition sinrCue (lower : string) : bool :=
  includes lower "sinr" || includes lower "snr".
Definition technologyCue (lower : string) : bool :=
  includes lower "tech" || includes lower "rat"
  || includes lower "generation" || includes lower "technology".
Definition locationCue (lower : string) : bool :=
  includes lower "location" || includes lower "sector"
  || includes lower "cell" || includes lower "site".
Definition throughputCue (lower : string) : bool :=
  includes lower "throughput" || includes lower "speed"
  || includes lower "rate" || includes lower "kbps" || includes lower "mbps".

(** The first header, in header order, whose lower-cased form passes
    [cue]; the empty string when there is none. *)
Definition firstHeader (cue : string -> bool) (headers : list string) : string :=
  default "" (List.find (fun h => cue (toLowerCase h)) headers).

(** The environment [env] with another stream of random numbers. *)
Definition withRandom (env : Env) (stream : nat -> Q) : Env :=
  {| tzMinutes := tzMinutes env;
     legacyDateParse := legacyDateParse env;
     random := stream;
     localeInteger := localeInteger env;
     localeDate := localeDate env;
     numberToStringOther := numberToStringOther env;
     tzName := tzName env |}.

(** A row gives its throughput and both coordinates in usable form. *)
Definition completeRow (mapping : Mapping.t) (row : Row) : bool :=
  str_truthy (Mapping.throughput mapping)
  && num_truthy (parseFloat (rowGet row (Mapping.throughput mapping)))
  && match mappedCoordinates mapping row with
     | (Some _, Some _) => true
     | _ => false
     end.

(** The row has a time cell that [processCsvData] can use: the column is
    mapped, the cell is truthy and it makes a valid [Date]. *)
Definition usableTimestamp (env : Env) (mapping : Mapping.t) (row : Row)
  : bool :=
  str_truthy (Mapping.timestamp mapping)
  && truthy (rowGet row (Mapping.timestamp mapping))
  && match rowGet row (Mapping.timestamp mapping) with
     | Some v => negb (isNaN (getTime (newDate env v)))
     | None => false
     end.

(** [stored] is what [parseFloat(raw.toFixed(1))] makes of [raw]: [raw]
    itself when it is not finite or at least 1e21 in magnitude, otherwise a
    multiple of a tenth at most 0.05 away from it. *)
Definition roundedFrom (raw stored : num) : Prop :=
  match raw with
  | Fin q =>
      (inject_Z (10 ^ 21) <= Qabs q)%Q /\ stored = raw
      \/ exists n : Z,
           stored = Fin (n # 10) /\ (Qabs ((n # 10) - q) <= 1 # 20)%Q
  | _ => stored = raw
  end.

(** [x] is a finite number between [lo] and [hi]. *)
Definition within (lo hi : Q) (x : num) : Prop :=
  exists q : Q, x = Fin q /\ (lo <= q)%Q /\ (q <= hi)%Q.

(** What the charts take for granted of a record: a whole hour of the day,
    a day of the month, one of the four classes and one of the two
    technologies. *)
Definition chartable (r : MeasurementRecord) : Prop :=
  (exists h : Z, 0 <= h <= 23 /\ hour r = ofZ h)
  /\ (exists d : Z, 1 <= d <= 31 /\ day r = ofZ d)
  /\ 1 <= signalClass r <= 4
  /\ (technology r = "4G" \/ technology r = "5G").

(** The ranges the demo generator keeps its values in. *)
Definition demoRanges (r : MeasurementRecord) : Prop :=
  within (-85) (-50) (rsrp r)
  /\ within (-15) (-5) (rsrq r)
  /\ within 5 25 (sinr r)
  /\ within 50 150 (throughput r)
  /\ within (centerLat - (25 # 1000)) (centerLat + (25 # 1000)) (lat r)
  /\ within (centerLon - (35 # 1000)) (centerLon + (35 # 1000)) (lon r)
  /\ (signalClass r = 1 \/ signalClass r = 2)
  /\ (exists n : Z, 1 <= n <= 50
                    /\ location r = CStr ("Sector_" +:+ decimal n)).

(** The hour and day of the demo records, in the order they are pushed. *)
Definition demoGrid : list (num * num) :=
  flat_map
    (fun dayIdx =>
       map (fun h => (ofZ (Z.of_nat h), ofZ (Z.of_nat dayIdx + 1)))
           (seq 0 24))
    (seq 0 31).

(** The records of [arr] whose sector has the property key [k], in the
    order of [arr]. *)
Definition sectorOf (env : Env) (k : string) (arr : list MeasurementRecord)
  : list MeasurementRecord :=
  List.filter (fun r => String.eqb (locationKey env r) k) arr.

(** The order of a ranking: best first when [descending], worst first
    otherwise. *)
Definition rankedBefore (descending : bool) (a b : string * Q) : Prop :=
  if descending then (snd b <= snd a)%Q else (snd a <= snd b)%Q.

(** The decimal value of a string of digits. *)
Definition digitsValue (s : string) : Z := fst (fst (takeDigits 0 O s)).

(** ** Concrete environments and inputs used in the examples below *)

(** A run in the time zone [tz] minutes east of UTC, whose random generator
    cycles through 0, 0.1, ..., 0.9 and whose locale prints integers
    without grouping. *)
Definition envAt (tz : Z) : Env :=
  {| tzMinutes := tz;
     legacyDateParse := fun _ => None;
     random := fun n => (Z.of_nat (n mod 10) # 10)%Q;
     localeInteger := decimal;
     localeDate := fun d => default "Invalid Date" (toISOString d);
     numberToStringOther := fun _ => "?";
     tzName := "UTC" |}.

Definition scenarioA_headers : list string := ["Lat"; "Lon"; "RSRP"; "Date"].

Definition scenarioA_row : Row :=
  {[ "Lat" := CNum (Fin (-261 # 10));
     "Lon" := CNum (Fin (28 # 1));
     "RSRP" := CNum (Fin (-65 # 1));
     "Date" := CStr "2025-08-01T05:00:00Z" ]}.

(** Scenario A in the time zone [tz]. *)
Definition scenarioA (tz : Z) : result (list MeasurementRecord * nat) :=
  processCsvData (envAt tz) [scenarioA_row] (autoMapping scenarioA_headers) 0.

Definition sampleRecord (loc : string) (tech : string) (h : Z) (mbps : Q)
  : MeasurementRecord :=
  {| timestamp := "2025-08-01T10:00:00.000Z";
     date := "Fri Aug 01 2025";
     hour := ofZ h;
     day := ofZ 1;
     rsrp := ofZ (-80);
     rsrq := ofZ (-10);
     sinr := ofZ 15;
     signalClass := 2;
     technology := tech;
     location := CStr loc;
     throughput := Fin mbps;
     lat := Fin (-261 # 10);
     lon := Fin (28 # 1);
     originalRow := Some 0%nat |}.

Definition stateOf (rows : list MeasurementRecord) : AppState :=
  {| data := rows;
     selectedTech := "All";
     csvFile := None;
     isLoading := false;
     dataSource := "csv";
     error := None;
     fieldMapping := Mapping.empty |}.

(** A row whose RSRP cell is -70.03125 (a binary fraction), under the
    mapping proposed for its header. *)
Definition edgeRsrpRow : Row := {[ "RSRP" := CNum (Fin (-2241 # 32)) ]}.

Definition edgeRsrpRun : result (list MeasurementRecord * nat) :=
  processCsvData (envAt 0) [edgeRsrpRow] (autoMapping ["RSRP"]) 0.

(** A row whose SINR and throughput cells are the number 0, under the
    mapping proposed for its headers. *)
Definition zeroCellsRow : Row :=
  {[ "SINR" := CNum (ofZ 0); "Throughput" := CNum (ofZ 0) ]}.

Definition zeroCellsRun : result (list MeasurementRecord * nat) :=
  processCsvData (envAt 0) [zeroCellsRow] (autoMapping ["SINR"; "Throughput"]) 0.

(** A row without any mapped column. *)
Definition bareRun : result (list MeasurementRecord * nat) :=
  processCsvData (envAt 0) [∅] Mapping.empty 0.

(** A component holding one record, about to ingest a file without rows. *)
Definition loadedState : AppState :=
  {| data := [sampleRecord "A" "5G" 10 80];
     selectedTech := "All";
     csvFile := Some (Complete (Some []));
     isLoading := false;
     dataSource := "synthetic";
     error := None;
     fieldMapping := Mapping.empty |}.

(** Five records with throughputs 90, 60, 30, 10 and 90 Mbps. *)
Definition fiveRecords : list MeasurementRecord :=
  [sampleRecord "A" "5G" 10 90; sampleRecord "B" "5G" 10 60;
   sampleRecord "C" "5G" 10 30; sampleRecord "D" "5G" 10 10;
   sampleRecord "A" "4G" 10 90].

(** A file with one row, whose sector is called [constructor], normalised
    under the mapping proposed for its headers. *)
Definition constructorRow : Row :=
  {[ "Sector" := CStr "constructor"; "Throughput" := CNum (ofZ 80) ]}.

Definition constructorRun : result (list MeasurementRecord * nat) :=
  processCsvData (envAt 0) [constructorRow]
    (autoMapping ["Sector"; "Throughput"]) 0.

(** ** Predicates the properties are stated with *)

(** Validity as section 4.1 of the specification words it, for comparison
    with [isValidCoordinate]: both values parse as finite numbers, the
    latitude lies in [-90, 90], the longitude in [-180, 180], and the pair
    is not the exact sentinel (0, 0). *)
Definition validBySpec (lat lng : jsval) : bool :=
  match parseFloat lat, parseFloat lng with
  | Fin x, Fin y =>
      Qle_bool (-90) x && Qle_bool x 90
      && Qle_bool (-180) y && Qle_bool y 180
      && negb (Qeq_bool x 0 && Qeq_bool y 0)
  | _, _ => false
  end.

(** A record has every field populated: no number is [NaN], the location is
    not [null], and the strings are not empty. *)
Definition populated (r : MeasurementRecord) : Prop :=
  timestamp r <> "" /\ date r <> "" /\ technology r <> ""
  /\ location r <> CNull
  /\ Forall (fun x => isNaN x = false)
       [hour r; day r; rsrp r; rsrq r; sinr r; throughput r; lat r; lon r]
  /\ 1 <= signalClass r <= 4
  /\ is_Some (originalRow r).

(** A row that gives throughput and position, and the headers of its file. *)
Definition surveyHeaders : list string := ["Lat"; "Lon"; "Throughput"].

Definition surveyRow (mbps : Q) : Row :=
  {[ "Lat" := CNum (Fin (-261 # 10));
     "Lon" := CNum (Fin (28 # 1));
     "Throughput" := CNum (Fin mbps) ]}.

(** The component after a file with one such row was chosen and parsed for
    its headers. *)
Definition surveyState : AppState :=
  {| data := [];
     selectedTech := "All";
     csvFile := Some (Complete (Some [surveyRow 42]));
     isLoading := true;
     dataSource := "synthetic";
     error := None;
     fieldMapping := autoMapping surveyHeaders |}.

(** * Properties *)

(** ** Comparisons *)

Lemma Qltb_lt (x y : Q) : Qltb x y = true <-> (x < y)%Q.
Proof.
  unfold Qltb. rewrite negb_true_iff.
  destruct (Qle_bool y x) eqn:E.
  - apply Qle_bool_iff in E. split; [discriminate | intros H; exfalso; lra].
  - split; [intros _ | reflexivity].
    destruct (Qlt_le_dec x y) as [H | H]; [exact H |].
    apply Qle_bool_iff in H. congruence.
Qed.

Lemma Qltb_ge (x y : Q) : Qltb x y = false <-> (y <= x)%Q.
Proof.
  unfold Qltb. rewrite negb_false_iff. apply Qle_bool_iff.
Qed.

Lemma num_ge_fin (x y : Q) : num_ge (Fin x) (Fin y) = Qle_bool y x.
Proof.
  unfold num_ge, num_lt, Qltb. apply negb_involutive.
Qed.

Lemma num_ge_fin_true (x y : Q) : num_ge (Fin x) (Fin y) = true <-> (y <= x)%Q.
Proof. rewrite num_ge_fin. apply Qle_bool_iff. Qed.

Lemma Qeq_bool_false (x y : Q) : Qeq_bool x y = false <-> ~ (x == y)%Q.
Proof.
  split.
  - intros E H. apply Qeq_bool_iff in H. congruence.
  - intros H. destruct (Qeq_bool x y) eqn:E; [| reflexivity].
    apply Qeq_bool_iff in E. contradiction.
Qed.

(** ** Classifier *)

Lemma classify_fin (q : Q) :
  classify (Fin q) =
  if Qle_bool (-70) q then 1
  else if Qle_bool (-85) q then 2
  else if Qle_bool (-100) q then 3
  else 4.
Proof.
  unfold classify, ofZ. rewrite !num_ge_fin. reflexivity.
Qed.

Lemma classify_range (x : num) : 1 <= classify x <= 4.
Proof.
  unfold classify.
  repeat match goal with |- context [if ?b then _ else _] => destruct b end; lia.
Qed.

Ltac split_Qle :=
  repeat match goal with
  | |- context [Qle_bool ?a ?b] =>
      let E := fresh "E" in
      destruct (Qle_bool a b) eqn:E;
      [apply Qle_bool_iff in E | apply not_true_iff_false in E;
                                 rewrite Qle_bool_iff in E]
  end.

Lemma classify_fin_mono (a b : Q) :
  (a <= b)%Q -> classify (Fin b) <= classify (Fin a).
Proof.
  intros H. rewrite !classify_fin. unfold inject_Z in *.
  split_Qle; try lia; exfalso; lra.
Qed.

Lemma classify_mono (a b : num) :
  num_le a b = true -> classify b <= classify a.
Proof.
  destruct a as [| | |x], b as [| | |y]; cbn; try discriminate; try lia;
    intros H.
  - pose proof (classify_range (Fin y)). unfold classify in *. cbn in *. lia.
  - pose proof (classify_range (Fin x)). unfold classify in *. cbn in *. lia.
  - apply classify_fin_mono. unfold num_le in H.
    apply num_ge_fin_true in H. exact H.
Qed.

(** C7: the classification is defined on every number with a class in
    1..4 (in particular on every finite rsrp), a higher rsrp never gets a
    numerically larger class than a lower one, and the boundary values are
    classify(-70.0)=1, classify(-70.1)=2, classify(-85.0)=2,
    classify(-100.0)=3, classify(-100.1)=4. *)
Theorem classify_total_monotone :
  (forall x : num, 1 <= classify x <= 4)
  /\ (forall a b : num, num_le a b = true -> classify b <= classify a)
  /\ classify (Fin (-70 # 1)) = 1
  /\ classify (Fin (-701 # 10)) = 2
  /\ classify (Fin (-85 # 1)) = 2
  /\ classify (Fin (-100 # 1)) = 3
  /\ classify (Fin (-1001 # 10)) = 4.
Proof.
  split; [exact classify_range |].
  split; [exact classify_mono |].
  repeat split; reflexivity.
Qed.

Lemma classify_total_monotone_witness :
  classify (Fin (-60 # 1)) <= classify (Fin (-90 # 1)).
Proof.
  apply (proj1 (proj2 classify_total_monotone)). reflexivity.
Defined.

(** ** CoordinateValidator *)

Lemma isValidCoordinate_fin (x y : Q) (lat lng : jsval) :
  parseFloat lat = Fin x -> parseFloat lng = Fin y ->
  isValidCoordinate lat lng =
  Qle_bool (-90) x && Qle_bool x 90 && Qle_bool (-180) y && Qle_bool y 180
  && negb (Qeq_bool x 0) && negb (Qeq_bool y 0).
Proof.
  intros Hx Hy. unfold isValidCoordinate, num_le. rewrite Hx, Hy. cbn [isNaN negb andb].
  unfold ofZ. rewrite !num_ge_fin. reflexivity.
Qed.

Lemma isValidCoordinate_finite (lat lng : jsval) :
  isValidCoordinate lat lng = true ->
  exists x y, parseFloat lat = Fin x /\ parseFloat lng = Fin y.
Proof.
  unfold isValidCoordinate, num_le.
  destruct (parseFloat lat) as [| | |x], (parseFloat lng) as [| | |y];
    cbn; try discriminate; rewrite ?andb_false_r; try discriminate.
  intros _. eauto.
Qed.

(** C4, amended: a pair is valid exactly when both values parse as finite
    numbers, the latitude lies in [-90, 90], the longitude in [-180, 180],
    and neither coordinate is zero. *)
Theorem isValidCoordinate_iff (lat lng : jsval) :
  isValidCoordinate lat lng = true <->
  exists x y : Q,
    parseFloat lat = Fin x /\ parseFloat lng = Fin y
    /\ (-90 <= x)%Q /\ (x <= 90)%Q /\ (-180 <= y)%Q /\ (y <= 180)%Q
    /\ ~ (x == 0)%Q /\ ~ (y == 0)%Q.
Proof.
  split.
  - intros H. destruct (isValidCoordinate_finite _ _ H) as (x & y & Hx & Hy).
    exists x, y. rewrite (isValidCoordinate_fin x y) in H by assumption.
    repeat (apply andb_prop in H; destruct H as [H ?]).
    repeat match goal with
    | E : Qle_bool _ _ = true |- _ => apply Qle_bool_iff in E
    | E : negb _ = true |- _ => apply negb_true_iff, Qeq_bool_false in E
    end.
    repeat split; assumption.
  - intros (x & y & Hx & Hy & H1 & H2 & H3 & H4 & H5 & H6).
    rewrite (isValidCoordinate_fin x y) by assumption.
    apply Qle_bool_iff in H1, H2, H3, H4.
    apply Qeq_bool_false in H5, H6.
    rewrite H1, H2, H3, H4, H5, H6. reflexivity.
Qed.

(** C4, as the specification words it, fails on the code: latitude 0 with
    longitude 28 is valid by the specification's rule and rejected by
    [isValidCoordinate]. *)
Lemma isValidCoordinate_rejects_single_zero :
  validBySpec (Some (CNum (ofZ 0))) (Some (CNum (ofZ 28))) = true
  /\ isValidCoordinate (Some (CNum (ofZ 0))) (Some (CNum (ofZ 28))) = false.
Proof. split; reflexivity. Qed.

(** What the code accepts, the specification's rule accepts as well. *)
Lemma isValidCoordinate_validBySpec (lat lng : jsval) :
  isValidCoordinate lat lng = true -> validBySpec lat lng = true.
Proof.
  intros H. destruct (isValidCoordinate_finite _ _ H) as (x & y & Hx & Hy).
  rewrite (isValidCoordinate_fin x y) in H by assumption.
  unfold validBySpec. rewrite Hx, Hy.
  rewrite !andb_true_iff in H.
  destruct H as (((((A & B) & C) & D) & E) & _).
  apply negb_true_iff in E.
  rewrite A, B, C, D, E. reflexivity.
Qed.

Lemma isValidCoordinate_accepts (x y : Q) :
  (-90 <= x)%Q -> (x <= 90)%Q -> (-180 <= y)%Q -> (y <= 180)%Q ->
  ~ (x == 0)%Q -> ~ (y == 0)%Q ->
  isValidCoordinate (Some (CNum (Fin x))) (Some (CNum (Fin y))) = true.
Proof.
  intros H1 H2 H3 H4 H5 H6.
  rewrite (isValidCoordinate_fin x y) by reflexivity.
  apply Qle_bool_iff in H1, H2, H3, H4.
  apply Qeq_bool_false in H5, H6.
  rewrite H1, H2, H3, H4, H5, H6. reflexivity.
Qed.


(** ** Dates *)

Section DateFacts.
Variable env : Env.

Lemma base_date : dateParse env "2025-08-01" = Some 1754006400000.
Proof. reflexivity. Qed.

Lemma setHours_valid (t h m s ms : Z) :
  setHours env (Some t) h m s ms
  = Some ((localTime env t / msPerDay) * msPerDay
          + (h * msPerHour + m * msPerMinute + s * msPerSecond + ms)
          - localTZA env).
Proof. reflexivity. Qed.

Lemma setDate_valid (t dt : Z) :
  exists day0 : Z,
    setDate env (Some t) dt
    = Some ((day0 + dt - 1) * msPerDay + localTime env t mod msPerDay
            - localTZA env).
Proof.
  unfold setDate. cbn [mbind option_bind].
  destruct (civilFromDays (localTime env t / msPerDay)) as [[y m] d].
  eexists. reflexivity.
Qed.


Lemma hourOf_range (t : Z) : 0 <= hourOf t <= 23.
Proof. unfold hourOf. pose proof (Z.mod_pos_bound (t / msPerHour) 24). lia. Qed.

(** The synthesised timestamp is always a valid date, and its local hour
    is the row ordinal modulo 24. *)
Lemma fallbackTimestamp_spec (index : nat) :
  exists t : Z,
    fallbackTimestamp env index = Some t
    /\ hourOf (localTime env t) = Z.of_nat index mod 24.
Proof.
  unfold fallbackTimestamp. rewrite base_date, setHours_valid.
  set (h := Z.of_nat index mod 24).
  set (t1 := _ - localTZA env).
  unfold getDate, ofZ.
  destruct (setDate_valid t1 (Qtrunc (inject_Z (dateOf (localTime env t1)))
                              + Z.of_nat index / 24)) as [day0 ->].
  eexists. split; [reflexivity |].
  assert (Hh : 0 <= h < 24) by (apply Z.mod_pos_bound; lia).
  assert (Hl : localTime env t1 mod msPerDay = h * msPerHour).
  { unfold t1, localTime.
    replace (_ - localTZA env + localTZA env)
      with (h * msPerHour + (1754006400000 + localTZA env) / msPerDay * msPerDay)
      by (unfold msPerMinute, msPerSecond; lia).
    rewrite Z.mod_add by (unfold msPerDay; lia).
    apply Z.mod_small. unfold msPerHour, msPerDay. lia. }
  unfold localTime in *. rewrite Hl. unfold hourOf.
  match goal with |- ((?d * msPerDay + _ - _ + _) / _) mod _ = _ =>
    replace (d * msPerDay + h * msPerHour - localTZA env + localTZA env)
      with ((h + d * 24) * msPerHour) by (unfold msPerDay, msPerHour; lia)
  end.
  rewrite Z.div_mul by (unfold msPerHour; lia).
  rewrite Z.mod_add by lia. apply Z.mod_small. exact Hh.
Qed.

Lemma Qtrunc_inject_Z (z : Z) : Qtrunc (inject_Z z) = z.
Proof.
  unfold Qtrunc. destruct (Qle_bool 0 (inject_Z z));
    [apply Qfloor_Z | apply Qceiling_Z].
Qed.

(** In a zone at most a day away from UTC, the synthesised timestamp of
    row [index] is local midnight of 2025-08-01 UTC, moved forward by
    [index / 24] days and [index mod 24] hours. *)
Lemma fallbackTimestamp_value (index : nat) :
  -1440 <= tzMinutes env <= 1440 ->
  fallbackTimestamp env index
  = Some (((1754006400000 + localTZA env) / msPerDay + Z.of_nat index / 24)
            * msPerDay
          + Z.of_nat index mod 24 * msPerHour - localTZA env).
Proof.
  intros Htz. unfold fallbackTimestamp. rewrite base_date, setHours_valid.
  set (h := Z.of_nat index mod 24).
  set (k := Z.of_nat index / 24).
  assert (Hh : 0 <= h < 24) by (apply Z.mod_pos_bound; lia).
  unfold localTime.
  set (day0 := (1754006400000 + localTZA env) / msPerDay).
  assert (Hday : day0 = 20300 \/ day0 = 20301 \/ day0 = 20302).
  { unfold day0, localTZA, msPerDay, msPerMinute.
    pose proof (Z.div_mod (1754006400000 + tzMinutes env * 60000) 86400000
                  ltac:(lia)).
    pose proof (Z.mod_pos_bound (1754006400000 + tzMinutes env * 60000)
                  86400000 ltac:(lia)).
    lia. }
  set (t1 := day0 * msPerDay + _ - localTZA env).
  assert (Hl : t1 + localTZA env = h * msPerHour + day0 * msPerDay)
    by (unfold t1, msPerMinute, msPerSecond; lia).
  assert (Hd : (t1 + localTZA env) / msPerDay = day0).
  { rewrite Hl, Z.div_add by (unfold msPerDay; lia).
    rewrite Z.div_small by (unfold msPerHour, msPerDay; lia). lia. }
  assert (Hm : (t1 + localTZA env) mod msPerDay = h * msPerHour).
  { rewrite Hl, Z.mod_add by (unfold msPerDay; lia).
    apply Z.mod_small. unfold msPerHour, msPerDay. lia. }
  unfold getDate, ofZ, dateOf, localTime. rewrite Hd, Qtrunc_inject_Z.
  unfold setDate, localTime. cbn [mbind option_bind]. rewrite Hd, Hm.
  f_equal.
  destruct Hday as [-> | [-> | ->]]; cbn [civilFromDays]; vm_compute civilFromDays;
    cbn [snd]; vm_compute daysFromCivil; lia.
Qed.

(** For fewer than 2^31 rows that timestamp is well inside the range of
    [Date], so the range check would leave it as it is. *)
Lemma fallbackTimestamp_in_range (index : nat) (t : Z) :
  -1440 <= tzMinutes env <= 1440 ->
  Z.of_nat index < 2 ^ 31 ->
  fallbackTimestamp env index = Some t ->
  timeClip t = Some t.
Proof.
  intros Htz Hi Ht. rewrite (fallbackTimestamp_value index Htz) in Ht.
  injection Ht as <-. unfold timeClip.
  set (h := Z.of_nat index mod 24).
  set (k := Z.of_nat index / 24).
  assert (Hh : 0 <= h < 24) by (apply Z.mod_pos_bound; lia).
  assert (Hk : 0 <= k < 89478486).
  { unfold k. split; [apply Z.div_pos; lia |].
    apply Z.div_lt_upper_bound; lia. }
  set (day0 := (1754006400000 + localTZA env) / msPerDay).
  assert (Hday : 20300 <= day0 <= 20302).
  { unfold day0, localTZA, msPerDay, msPerMinute.
    pose proof (Z.div_mod (1754006400000 + tzMinutes env * 60000) 86400000
                  ltac:(lia)).
    pose proof (Z.mod_pos_bound (1754006400000 + tzMinutes env * 60000)
                  86400000 ltac:(lia)).
    lia. }
  assert (Hz : -86400000 <= localTZA env <= 86400000)
    by (unfold localTZA, msPerMinute; lia).
  destruct (Z.abs _ <=? maxTime) eqn:E; [reflexivity |].
  apply Z.leb_gt in E. unfold maxTime, msPerDay, msPerHour in E. lia.
Qed.


End DateFacts.

(** ** RecordNormalizer *)

Section NormalizerFacts.
Variable env : Env.

Lemma resolveTimestamp_valid (mapping : Mapping.t) (row : Row) (index : nat) :
  exists t : Z, resolveTimestamp env mapping row index = Some t.
Proof.
  destruct (fallbackTimestamp_spec env index) as (t0 & H0 & _).
  unfold resolveTimestamp.
  destruct (str_truthy _ && truthy _); [| eauto].
  destruct (rowGet row _) as [v |]; cbn [getTime isNaN]; [| eauto].
  destruct (newDate env v) as [t |]; cbn [getTime isNaN ofZ]; eauto.
Qed.

(** A mapped, non-empty and parseable timestamp cell is the timestamp of
    the record. *)
Lemma resolveTimestamp_mapped (mapping : Mapping.t) (row : Row) (index : nat)
    (v : cell) (t : Z) :
  str_truthy (Mapping.timestamp mapping) = true ->
  rowGet row (Mapping.timestamp mapping) = Some v ->
  truthy (Some v) = true ->
  newDate env v = Some t ->
  resolveTimestamp env mapping row index = Some t.
Proof.
  intros Hm Hv Ht Hd. unfold resolveTimestamp.
  rewrite Hm, Hv, Ht, Hd. reflexivity.
Qed.

Lemma toISOString_valid (t : Z) : exists iso, toISOString (Some t) = Some iso /\ iso <> "".
Proof.
  unfold toISOString. cbn [mbind option_bind].
  destruct (civilFromDays (t / msPerDay)) as [[y m] d].
  eexists. split; [reflexivity |].
  unfold yearString.
  destruct (_ && _); [| destruct (y <? 0)]; cbn; try discriminate.
  destruct (pad 4 y); discriminate.
Qed.

(** What [processRow] stores in each field. *)
Lemma processRow_inv (mapping : Mapping.t) (row : Row) (index g : nat)
    (r : MeasurementRecord) (g' : nat) :
  processRow env mapping row index g = Ok (r, g') ->
  let ts := resolveTimestamp env mapping row index in
  let thr := resolveThroughput env (Mapping.throughput mapping) row g in
  toISOString ts = Some (timestamp r)
  /\ date r = toDateString env ts
  /\ hour r = getHours env ts
  /\ day r = getDate env ts
  /\ rsrp r = round1 (resolveSignal (Mapping.rsrp mapping) row (ofZ (-80)))
  /\ rsrq r = round1 (resolveSignal (Mapping.rsrq mapping) row (ofZ (-10)))
  /\ sinr r = round1 (resolveSignal (Mapping.sinr mapping) row (ofZ 15))
  /\ signalClass r
     = classify (resolveSignal (Mapping.rsrp mapping) row (ofZ (-80)))
  /\ technology r = resolveTechnology env (Mapping.technology mapping) row
  /\ location r = resolveLocation (Mapping.location mapping) row index
  /\ throughput r = round1 (fst thr)
  /\ resolveCoordinates env mapping row index (snd thr) = (lat r, lon r, g')
  /\ originalRow r = Some index.
Proof.
  intros H. cbv zeta. unfold processRow in H.
  destruct (resolveThroughput env _ row g) as [thr g1].
  destruct (resolveCoordinates env mapping row index g1) as [[la lo] g2] eqn:Ec.
  destruct (toISOString (resolveTimestamp env mapping row index)) as [iso |];
    cbn [orThrow mbind result_bind mret result_ret] in H; [| discriminate].
  injection H as <- <-. cbn [fst snd]. rewrite Ec.
  repeat split; reflexivity.
Qed.

(** The callback never throws. *)
Lemma processRow_total (mapping : Mapping.t) (row : Row) (index g : nat) :
  exists r g', processRow env mapping row index g = Ok (r, g').
Proof.
  destruct (resolveTimestamp_valid mapping row index) as [t Ht].
  destruct (toISOString_valid t) as (iso & Hiso & _).
  unfold processRow. rewrite Ht, Hiso.
  destruct (resolveThroughput env _ row g) as [thr g1].
  destruct (resolveCoordinates env mapping row index g1) as [[la lo] g2].
  eexists _, _. reflexivity.
Qed.

(** [processRows] handles the rows one by one, in order, numbering them
    from [index]. *)
Lemma processRows_spec (mapping : Mapping.t) (rows : list Row) :
  forall index g : nat,
  exists (recs : list MeasurementRecord) (g' : nat),
    processRows env mapping rows index g = Ok (recs, g')
    /\ length recs = length rows
    /\ forall (i : nat) (row : Row),
         rows !! i = Some row ->
         exists (r : MeasurementRecord) (gi gi' : nat),
           recs !! i = Some r
           /\ processRow env mapping row (index + i) gi = Ok (r, gi').
Proof.
  induction rows as [| row rest IH]; intros index g.
  - exists [], g. split; [reflexivity |]. split; [reflexivity |].
    intros i r Hi.
    rewrite lookup_nil in Hi. discriminate.
  - destruct (processRow_total mapping row index g) as (r & g1 & Hr).
    destruct (IH (S index) g1) as (recs & g2 & Hrs & Hlen & Hall).
    exists (r :: recs), g2. cbn [processRows]. rewrite Hr.
    cbn [mbind result_bind]. rewrite Hrs. cbn [mbind result_bind].
    split; [reflexivity |]. split; [cbn; lia |].
    intros [| i] row' Hi.
    + injection Hi as <-. exists r, g, g1. rewrite Nat.add_0_r. split; [reflexivity | exact Hr].
    + destruct (Hall i row' Hi) as (r' & gi & gi' & Hl & Hp).
      exists r', gi, gi'. split; [exact Hl |].
      replace (index + S i)%nat with (S index + i)%nat by lia. exact Hp.
Qed.

End NormalizerFacts.

Section FieldFacts.
Variable env : Env.

Lemma round1_isNaN (x : num) : isNaN (round1 x) = isNaN x.
Proof. destruct x; reflexivity. Qed.

Lemma num_or_isNaN (a d : num) : isNaN d = false -> isNaN (num_or a d) = false.
Proof.
  intros Hd. unfold num_or. destruct (num_truthy a) eqn:E; [| exact Hd].
  destruct a; [discriminate E | reflexivity ..].
Qed.

Lemma resolveSignal_isNaN (column : string) (row : Row) (dflt : num) :
  isNaN dflt = false -> isNaN (resolveSignal column row dflt) = false.
Proof.
  intros Hd. unfold resolveSignal.
  destruct (_ && _); [apply num_or_isNaN |]; exact Hd.
Qed.

Lemma resolveThroughput_isNaN (column : string) (row : Row) (g : nat) :
  isNaN (fst (resolveThroughput env column row g)) = false.
Proof.
  unfold resolveThroughput.
  destruct (_ && _); [| reflexivity].
  destruct (num_truthy (parseFloat (rowGet row column))) eqn:E; [| reflexivity].
  cbn [fst]. destruct (parseFloat (rowGet row column)); [discriminate E | reflexivity ..].
Qed.

(** The mapped coordinates are used only when the validator accepts them. *)
Lemma mappedCoordinates_valid (mapping : Mapping.t) (row : Row) (la lo : num) :
  mappedCoordinates mapping row = (Some la, Some lo) ->
  isValidCoordinate (Some (CNum la)) (Some (CNum lo)) = true.
Proof.
  unfold mappedCoordinates.
  destruct (_ && _ && _ && _); [| discriminate].
  destruct (isValidCoordinate _ _) eqn:E; [| discriminate].
  intros H. injection H as <- <-. exact E.
Qed.

Lemma jitter_range (n : Z) :
  (0 <= inject_Z (n mod 100) / 1000)%Q
  /\ (inject_Z (n mod 100) / 1000 <= 99 # 1000)%Q.
Proof.
  pose proof (Z.mod_pos_bound n 100 ltac:(lia)) as [H0 H1].
  assert (A : (inject_Z 0 <= inject_Z (n mod 100))%Q) by (rewrite <- Zle_Qle; lia).
  assert (B : (inject_Z (n mod 100) <= inject_Z 99)%Q) by (rewrite <- Zle_Qle; lia).
  unfold inject_Z at 1 in A. unfold inject_Z at 2 in B.
  split; apply Qle_shift_div_l || apply Qle_shift_div_r; try reflexivity; lra.
Qed.

(** The synthesised coordinates stay within a tenth of a degree or so of
    the default centre. *)
Lemma fallbackCoordinates_range (index g : nat) :
  random_ok env ->
  exists x y : Q,
    fallbackCoordinates env index g = (Fin x, Fin y)
    /\ (-262291 # 10000 <= x)%Q /\ (x < -260801 # 10000)%Q
    /\ (280123 # 10000 <= y)%Q /\ (y < 281813 # 10000)%Q.
Proof.
  intros Hr. unfold fallbackCoordinates. eexists _, _.
  split; [reflexivity |].
  destruct (Hr g) as [A0 A1], (Hr (S g)) as [B0 B1].
  destruct (jitter_range (Z.of_nat index)) as [J0 J1].
  destruct (jitter_range (Z.of_nat index * 7)) as [K0 K1].
  unfold centerLat, centerLon.
  set (ja := (inject_Z (Z.of_nat index mod 100) / 1000)%Q) in *.
  set (jb := (inject_Z ((Z.of_nat index * 7) mod 100) / 1000)%Q) in *.
  repeat split; lra.
Qed.

Lemma resolveCoordinates_valid (mapping : Mapping.t) (row : Row)
    (index g : nat) (la lo : num) (g' : nat) :
  random_ok env ->
  resolveCoordinates env mapping row index g = (la, lo, g') ->
  isValidCoordinate (Some (CNum la)) (Some (CNum lo)) = true.
Proof.
  intros Hr. unfold resolveCoordinates.
  destruct (mappedCoordinates mapping row) as [[a |] [b |]] eqn:E;
    try (destruct (fallbackCoordinates_range index g Hr)
           as (x & y & -> & X0 & X1 & Y0 & Y1);
         intros H; injection H as <- <- <-;
         apply isValidCoordinate_accepts; try lra; intros Z0; lra).
  intros H. injection H as <- <- <-.
  exact (mappedCoordinates_valid _ _ _ _ E).
Qed.

Lemma resolveCoordinates_isNaN (mapping : Mapping.t) (row : Row)
    (index g : nat) (la lo : num) (g' : nat) :
  resolveCoordinates env mapping row index g = (la, lo, g') ->
  isNaN la = false /\ isNaN lo = false.
Proof.
  unfold resolveCoordinates.
  destruct (mappedCoordinates mapping row) as [[a |] [b |]] eqn:E;
    try (intros H; injection H as <- <- <-; split; reflexivity).
  intros H. injection H as <- <- <-.
  apply mappedCoordinates_valid, isValidCoordinate_finite in E.
  destruct E as (x & y & Hx & Hy). cbn in Hx, Hy. subst. split; reflexivity.
Qed.

Lemma resolveLocation_not_null (column : string) (row : Row) (index : nat) :
  resolveLocation column row index <> CNull.
Proof.
  unfold resolveLocation, sectorLabel.
  destruct (str_truthy column); cbn [andb]; [| discriminate].
  destruct (rowGet row column) as [[] |]; cbn; try discriminate.
  destruct (num_truthy x); discriminate.
  destruct (str_truthy s); discriminate.
  destruct b; discriminate.
Qed.

Lemma resolveTechnology_cases (column : string) (row : Row) :
  resolveTechnology env column row = "4G"
  \/ resolveTechnology env column row = "5G".
Proof.
  unfold resolveTechnology.
  destruct (_ && _); [| auto].
  destruct (rowGet row column); [| auto].
  destruct (_ || _ || _); auto.
Qed.

Lemma toDateString_not_empty (t : Z) : toDateString env (Some t) <> "".
Proof.
  unfold toDateString.
  destruct (civilFromDays (localTime env t / msPerDay)) as [[y m] d].
  destruct (nth _ weekDays ""); discriminate.
Qed.

(** Every record the callback builds is fully populated. *)
Lemma processRow_populated (mapping : Mapping.t) (row : Row) (index g : nat)
    (r : MeasurementRecord) (g' : nat) :
  processRow env mapping row index g = Ok (r, g') -> populated r.
Proof.
  intros H. apply processRow_inv in H. cbv zeta in H.
  destruct H as (Hts & Hdate & Hhour & Hday & Hrsrp & Hrsrq & Hsinr & Hcls
                 & Htech & Hloc & Hthr & Hco & Hrow).
  destruct (resolveTimestamp_valid env mapping row index) as [t Ht].
  rewrite Ht in *.
  destruct (toISOString_valid t) as (iso & Hiso & Hne).
  apply resolveCoordinates_isNaN in Hco. destruct Hco as [Hla Hlo].
  unfold populated. repeat split.
  - congruence.
  - rewrite Hdate. apply toDateString_not_empty.
  - rewrite Htech. destruct (resolveTechnology_cases (Mapping.technology mapping) row) as [-> | ->]; discriminate.
  - rewrite Hloc. apply resolveLocation_not_null.
  - repeat constructor.
    + rewrite Hhour. reflexivity.
    + rewrite Hday. reflexivity.
    + rewrite Hrsrp, round1_isNaN. apply resolveSignal_isNaN. reflexivity.
    + rewrite Hrsrq, round1_isNaN. apply resolveSignal_isNaN. reflexivity.
    + rewrite Hsinr, round1_isNaN. apply resolveSignal_isNaN. reflexivity.
    + rewrite Hthr, round1_isNaN. apply resolveThroughput_isNaN.
    + exact Hla.
    + exact Hlo.
  - rewrite Hcls. apply classify_range.
  - rewrite Hcls. apply classify_range.
  - rewrite Hrow. eauto.
Qed.

End FieldFacts.

(** ** Normalisation of a whole file *)

Section FileFacts.
Variable env : Env.

Lemma processCsvData_lookup (rows : list Row) (mapping : Mapping.t) (g : nat)
    (recs : list MeasurementRecord) (g' : nat) (i : nat)
    (r : MeasurementRecord) :
  processCsvData env rows mapping g = Ok (recs, g') ->
  recs !! i = Some r ->
  exists (row : Row) (gi gi' : nat),
    rows !! i = Some row
    /\ processRow env mapping row i gi = Ok (r, gi').
Proof.
  intros Hrun Hr. unfold processCsvData in Hrun.
  destruct (processRows_spec env mapping rows 0 g)
    as (recs' & g2 & Hrun' & Hlen & Hall).
  rewrite Hrun in Hrun'. injection Hrun' as <- <-.
  assert (Hi : (i < length rows)%nat).
  { rewrite <- Hlen. eapply lookup_lt_Some, Hr. }
  destruct (lookup_lt_is_Some_2 rows i Hi) as [row Hrow].
  destruct (Hall i row Hrow) as (r' & gi & gi' & Hr' & Hp).
  rewrite Hr in Hr'. injection Hr' as <-.
  exists row, gi, gi'. split; [exact Hrow | exact Hp].
Qed.

End FileFacts.

(** C8: normalising N rows under any field mapping succeeds and yields
    exactly N records; the i-th record is the one built from the i-th row
    and carries its ordinal, and every record has all its fields populated
    (no null, no NaN).  No row is dropped. *)
Theorem processCsvData_keeps_every_row (env : Env) (rows : list Row)
    (mapping : Mapping.t) (g : nat) :
  exists (recs : list MeasurementRecord) (g' : nat),
    processCsvData env rows mapping g = Ok (recs, g')
    /\ length recs = length rows
    /\ (forall (i : nat) (row : Row),
          rows !! i = Some row ->
          exists (r : MeasurementRecord) (gi gi' : nat),
            recs !! i = Some r
            /\ processRow env mapping row i gi = Ok (r, gi')
            /\ originalRow r = Some i)
    /\ Forall populated recs.
Proof.
  destruct (processRows_spec env mapping rows 0 g)
    as (recs & g' & Hrun & Hlen & Hall).
  exists recs, g'. split; [exact Hrun |]. split; [exact Hlen |]. split.
  - intros i row Hrow. destruct (Hall i row Hrow) as (r & gi & gi' & Hr & Hp).
    exists r, gi, gi'. split; [exact Hr |]. split; [exact Hp |].
    apply processRow_inv in Hp. cbv zeta in Hp. apply Hp.
  - apply Forall_lookup_2. intros i r Hr.
    destruct (processCsvData_lookup env rows mapping g recs g' i r Hrun Hr)
      as (row & gi & gi' & _ & Hp).
    exact (processRow_populated env _ _ _ _ _ _ Hp).
Qed.

Lemma random_ok_envAt (tz : Z) : random_ok (envAt tz).
Proof.
  intros n. cbn [random envAt].
  pose proof (Nat.mod_upper_bound n 10 ltac:(lia)).
  unfold Qle, Qlt. cbn. lia.
Qed.

(** C9: with [Math.random] ranging over [0, 1), every record produced by
    normalisation, whether its coordinates were read from the mapped
    columns or synthesised around the default centre, has stored
    coordinates that [isValidCoordinate] accepts, and that are valid by the
    specification's rule as well. *)
Theorem processCsvData_coordinates_valid (env : Env) (rows : list Row)
    (mapping : Mapping.t) (g : nat) (recs : list MeasurementRecord) (g' : nat)
    (i : nat) (r : MeasurementRecord) :
  random_ok env ->
  processCsvData env rows mapping g = Ok (recs, g') ->
  recs !! i = Some r ->
  isValidCoordinate (Some (CNum (lat r))) (Some (CNum (lon r))) = true
  /\ validBySpec (Some (CNum (lat r))) (Some (CNum (lon r))) = true.
Proof.
  intros Hrand Hrun Hr.
  destruct (processCsvData_lookup env rows mapping g recs g' i r Hrun Hr)
    as (row & gi & gi' & _ & Hp).
  apply processRow_inv in Hp. cbv zeta in Hp.
  destruct Hp as (_ & _ & _ & _ & _ & _ & _ & _ & _ & _ & _ & Hco & _).
  pose proof (resolveCoordinates_valid env _ _ _ _ _ _ _ Hrand Hco) as Hv.
  split; [exact Hv | exact (isValidCoordinate_validBySpec _ _ Hv)].
Qed.

Lemma processCsvData_coordinates_valid_witness :
  exists (recs : list MeasurementRecord) (g' : nat) (r : MeasurementRecord),
    bareRun = Ok (recs, g')
    /\ recs !! 0%nat = Some r
    /\ isValidCoordinate (Some (CNum (lat r))) (Some (CNum (lon r))) = true.
Proof.
  eexists _, _, _.
  split; [vm_compute; reflexivity |].
  split; [reflexivity |].
  eapply proj1.
  eapply (processCsvData_coordinates_valid (envAt 0) [∅] Mapping.empty 0)
    with (i := 0%nat).
  - apply random_ok_envAt.
  - vm_compute. reflexivity.
  - reflexivity.
Defined.

(** ** Rounding to one decimal and the class thresholds *)

Lemma Qfloor_upper (x : Q) (z : Z) : (x < inject_Z (z + 1))%Q -> Qfloor x <= z.
Proof.
  intros H. pose proof (Qfloor_le x) as Hf.
  assert (Hlt : (inject_Z (Qfloor x) < inject_Z (z + 1))%Q) by lra.
  rewrite <- Zlt_Qlt in Hlt. lia.
Qed.

Lemma Qfloor_lower (x : Q) (z : Z) : (inject_Z z <= x)%Q -> z <= Qfloor x.
Proof.
  intros H. apply Qfloor_resp_le in H. rewrite Qfloor_Z in H. exact H.
Qed.

Lemma tenths_le (t n : Z) : t * 10 <= n -> (inject_Z t <= n # 10)%Q.
Proof. unfold Qle. cbn. lia. Qed.

Lemma tenths_ge (t n : Z) : n <= t * 10 -> (n # 10 <= inject_Z t)%Q.
Proof. unfold Qle. cbn. lia. Qed.

(** Rounding to one decimal never crosses an integer from above... *)
Lemma roundTenth_ge (t : Z) (q : Q) :
  (inject_Z t <= q)%Q -> (inject_Z t <= roundTenth q)%Q.
Proof.
  intros H. unfold roundTenth.
  destruct (Qle_bool _ (Qabs q)); [exact H |].
  destruct (Qltb q 0) eqn:E.
  - apply Qltb_lt in E. apply tenths_le.
    rewrite (Qabs_neg q) by lra.
    enough (Qfloor (- q * 10 + (1 # 2)) <= - (t * 10)) by lia.
    apply Qfloor_upper. rewrite inject_Z_plus, inject_Z_opp, inject_Z_mult.
    change (inject_Z 10) with 10%Q. change (inject_Z 1) with 1%Q. lra.
  - apply Qltb_ge in E. apply tenths_le.
    rewrite (Qabs_pos q) by lra.
    apply Qfloor_lower. rewrite inject_Z_mult.
    change (inject_Z 10) with 10%Q. lra.
Qed.

(** ... nor from below. *)
Lemma roundTenth_le (t : Z) (q : Q) :
  (q <= inject_Z t)%Q -> (roundTenth q <= inject_Z t)%Q.
Proof.
  intros H. unfold roundTenth.
  destruct (Qle_bool _ (Qabs q)); [exact H |].
  destruct (Qltb q 0) eqn:E.
  - apply Qltb_lt in E. apply tenths_ge.
    rewrite (Qabs_neg q) by lra.
    enough (- (t * 10) <= Qfloor (- q * 10 + (1 # 2))) by lia.
    apply Qfloor_lower. rewrite inject_Z_opp, inject_Z_mult.
    change (inject_Z 10) with 10%Q. lra.
  - apply Qltb_ge in E. apply tenths_ge.
    rewrite (Qabs_pos q) by lra.
    apply Qfloor_upper. rewrite inject_Z_plus, inject_Z_mult.
    change (inject_Z 10) with 10%Q. change (inject_Z 1) with 1%Q. lra.
Qed.

(** The class of the rounded value is the class of the value, or the next
    better one when rounding lands exactly on a threshold. *)
Lemma classify_round1 (x : num) :
  classify (round1 x) = classify x \/ classify (round1 x) = classify x - 1.
Proof.
  destruct x as [| | |q]; try (left; reflexivity).
  cbn [round1]. rewrite !classify_fin.
  pose proof (roundTenth_ge (-70) q) as G1.
  pose proof (roundTenth_ge (-85) q) as G2.
  pose proof (roundTenth_ge (-100) q) as G3.
  pose proof (roundTenth_le (-70) q) as L1.
  pose proof (roundTenth_le (-85) q) as L2.
  pose proof (roundTenth_le (-100) q) as L3.
  change (inject_Z (-70)) with (-70)%Q in *.
  change (inject_Z (-85)) with (-85)%Q in *.
  change (inject_Z (-100)) with (-100)%Q in *.
  set (rq := roundTenth q) in *.
  split_Qle;
    repeat match goal with
    | H : (?a <= ?b)%Q -> _ |- _ =>
        first [specialize (H ltac:(lra)) | clear H]
    end;
    first [left; reflexivity | right; reflexivity | exfalso; lra].
Qed.

(** C3, amended: the stored signalClass is the class of the resolved rsrp
    before it is rounded to one decimal for storage; the class of the
    stored (rounded) rsrp is that class or the next better one. *)
Theorem signalClass_of_resolved_rsrp (env : Env) (rows : list Row)
    (mapping : Mapping.t) (g : nat) (recs : list MeasurementRecord) (g' : nat)
    (i : nat) (r : MeasurementRecord) :
  processCsvData env rows mapping g = Ok (recs, g') ->
  recs !! i = Some r ->
  exists row : Row,
    rows !! i = Some row
    /\ rsrp r = round1 (resolveSignal (Mapping.rsrp mapping) row (ofZ (-80)))
    /\ signalClass r
       = classify (resolveSignal (Mapping.rsrp mapping) row (ofZ (-80)))
    /\ (classify (rsrp r) = signalClass r
        \/ classify (rsrp r) = signalClass r - 1).
Proof.
  intros Hrun Hr.
  destruct (processCsvData_lookup env rows mapping g recs g' i r Hrun Hr)
    as (row & gi & gi' & Hrow & Hp).
  apply processRow_inv in Hp. cbv zeta in Hp.
  destruct Hp as (_ & _ & _ & _ & Hrsrp & _ & _ & Hcls & _).
  exists row. rewrite Hrsrp, Hcls.
  repeat split; [exact Hrow |]. apply classify_round1.
Qed.

Lemma signalClass_of_resolved_rsrp_witness :
  exists (recs : list MeasurementRecord) (g' : nat) (r : MeasurementRecord),
    edgeRsrpRun = Ok (recs, g')
    /\ recs !! 0%nat = Some r
    /\ exists row : Row,
         [edgeRsrpRow] !! 0%nat = Some row
         /\ rsrp r
            = round1 (resolveSignal (Mapping.rsrp (autoMapping ["RSRP"])) row
                        (ofZ (-80)))
         /\ signalClass r
            = classify (resolveSignal (Mapping.rsrp (autoMapping ["RSRP"])) row
                          (ofZ (-80)))
         /\ (classify (rsrp r) = signalClass r
             \/ classify (rsrp r) = signalClass r - 1).
Proof.
  eexists _, _, _.
  split; [vm_compute; reflexivity |].
  split; [reflexivity |].
  eapply (signalClass_of_resolved_rsrp (envAt 0) [edgeRsrpRow]
            (autoMapping ["RSRP"]) 0) with (i := 0%nat).
  - vm_compute. reflexivity.
  - reflexivity.
Defined.

(** C3, as the specification words it, fails on the code: a cell of
    -70.03125 dBm is classified before rounding (class 2) and stored after
    rounding as -70.0, which the rule puts in class 1. *)
Lemma signalClass_differs_from_class_of_stored_rsrp :
  exists (r : MeasurementRecord) (g' : nat),
    edgeRsrpRun = Ok ([r], g')
    /\ rsrp r = Fin (-700 # 10)
    /\ signalClass r = 2
    /\ classify (rsrp r) = 1.
Proof.
  eexists _, _. split; [vm_compute; reflexivity |].
  repeat split; reflexivity.
Qed.

(** C5: a mapped cell holding the number 0 is not kept.  Normalising a row
    whose SINR and throughput cells are 0 stores the default 15 for SINR and
    a random value (here 0 * 100 + 50) for the throughput. *)
Theorem zero_cells_are_replaced :
  parseFloat (rowGet zeroCellsRow "SINR") = Fin 0
  /\ parseFloat (rowGet zeroCellsRow "Throughput") = Fin 0
  /\ autoMapping ["SINR"; "Throughput"]
     = Mapping.make "" "" "" "SINR" "" "" "Throughput" "" ""
  /\ exists (r : MeasurementRecord) (g' : nat),
       zeroCellsRun = Ok ([r], g')
       /\ sinr r = Fin (150 # 10)
       /\ throughput r = Fin (500 # 10).
Proof.
  split; [reflexivity |]. split; [reflexivity |]. split; [reflexivity |].
  eexists _, _. split; [vm_compute; reflexivity |].
  split; reflexivity.
Qed.

(** The defect behind C5 in general: whenever the mapped cell parses to
    zero, [parseFloat(cell) || default] yields the default. *)
Lemma resolveSignal_zero (column : string) (row : Row) (dflt : num) (q : Q) :
  parseFloat (rowGet row column) = Fin q -> (q == 0)%Q ->
  resolveSignal column row dflt = dflt.
Proof.
  intros Hp Hq. unfold resolveSignal, num_or. rewrite Hp. cbn [num_truthy].
  apply Qeq_bool_iff in Hq. rewrite Hq. cbn [negb].
  destruct (_ && _); reflexivity.
Qed.

(** A mapped cell that parses to a non-zero number is kept. *)
Lemma resolveSignal_nonzero (column : string) (row : Row) (dflt : num) (q : Q) :
  str_truthy column = true ->
  parseFloat (rowGet row column) = Fin q -> ~ (q == 0)%Q ->
  resolveSignal column row dflt = Fin q.
Proof.
  intros Hc Hp Hq. unfold resolveSignal, num_or. rewrite Hc, Hp. cbn [num_truthy].
  apply Qeq_bool_false in Hq. rewrite Hq. cbn [negb andb].
  destruct (rowGet row column); [reflexivity | discriminate Hp].
Qed.

(** ** The hour of a record *)

Lemma scenarioA_mapping :
  autoMapping scenarioA_headers
  = Mapping.make "Date" "RSRP" "" "" "" "" "" "Lat" "Lon".
Proof. reflexivity. Qed.

(** Scenario A in any time zone: class, coordinates, and the local hour of
    05:00 UTC. *)
Lemma scenarioA_record (tz : Z) :
  exists (r : MeasurementRecord) (g' : nat),
    scenarioA tz = Ok ([r], g')
    /\ signalClass r = 1
    /\ lat r = Fin (-261 # 10)
    /\ lon r = Fin (28 # 1)
    /\ hour r = ofZ (hourOf (1754024400000 + tz * msPerMinute)).
Proof.
  unfold scenarioA, processCsvData. rewrite scenarioA_mapping.
  set (mapping := Mapping.make _ _ _ _ _ _ _ _ _).
  destruct (processRow_total (envAt tz) mapping scenarioA_row 0 0)
    as (r & g1 & Hp).
  exists r, g1. cbn [processRows]. rewrite Hp. split; [reflexivity |].
  apply processRow_inv in Hp. cbv zeta in Hp.
  destruct Hp as (_ & _ & Hhour & _ & _ & _ & _ & Hcls & _ & _ & _ & Hco & _).
  split; [rewrite Hcls; reflexivity |].
  unfold resolveCoordinates in Hco.
  change (mappedCoordinates mapping scenarioA_row)
    with (Some (Fin (-261 # 10)), Some (Fin (28 # 1))) in Hco.
  injection Hco as Hla Hlo _. split; [congruence |]. split; [congruence |].
  rewrite Hhour.
  rewrite (resolveTimestamp_mapped (envAt tz) mapping scenarioA_row 0
             (CStr "2025-08-01T05:00:00Z") 1754024400000);
    reflexivity.
Qed.

(** C6, amended: for a record whose mapped timestamp cell is present and
    parseable, the hour field is the hour of that instant in the local time
    zone of the run, that is the UTC hour shifted by the zone offset, and so
    the UTC hour when the offset is zero.  Scenario A yields signalClass 1,
    lat -26.1 and lon 28.0 in every zone, the local hour of 05:00 UTC, and
    hour 5 when the local zone is UTC. *)
Theorem hour_is_local_hour :
  (forall (env : Env) (rows : list Row) (mapping : Mapping.t) (g : nat)
          (recs : list MeasurementRecord) (g' : nat) (i : nat)
          (r : MeasurementRecord) (row : Row) (v : cell) (t : Z),
      processCsvData env rows mapping g = Ok (recs, g') ->
      recs !! i = Some r ->
      rows !! i = Some row ->
      str_truthy (Mapping.timestamp mapping) = true ->
      rowGet row (Mapping.timestamp mapping) = Some v ->
      truthy (Some v) = true ->
      newDate env v = Some t ->
      hour r = ofZ (hourOf (t + tzMinutes env * msPerMinute))
      /\ (tzMinutes env = 0 -> hour r = getUTCHours (Some t)))
  /\ (forall tz : Z,
        exists (r : MeasurementRecord) (g' : nat),
          scenarioA tz = Ok ([r], g')
          /\ signalClass r = 1
          /\ lat r = Fin (-261 # 10)
          /\ lon r = Fin (28 # 1)
          /\ hour r = ofZ (hourOf (1754024400000 + tz * msPerMinute)))
  /\ (exists (r : MeasurementRecord) (g' : nat),
        scenarioA 0 = Ok ([r], g')
        /\ signalClass r = 1
        /\ lat r = Fin (-261 # 10)
        /\ lon r = Fin (28 # 1)
        /\ hour r = ofZ 5).
Proof.
  split; [| split].
  - intros env rows mapping g recs g' i r row v t Hrun Hr Hrow Hm Hv Ht Hd.
    destruct (processCsvData_lookup env rows mapping g recs g' i r Hrun Hr)
      as (row' & gi & gi' & Hrow' & Hp).
    assert (row' = row) by congruence. subst row'.
    apply processRow_inv in Hp. cbv zeta in Hp.
    destruct Hp as (_ & _ & Hhour & _).
    rewrite (resolveTimestamp_mapped env mapping row i v t Hm Hv Ht Hd) in Hhour.
    split; [exact Hhour |].
    intros Htz. rewrite Hhour.
    unfold getHours, getUTCHours, localTime, localTZA.
    rewrite Htz, Z.mul_0_l, Z.add_0_r. reflexivity.
  - exact scenarioA_record.
  - destruct (scenarioA_record 0) as (r & g' & H). exists r, g'. exact H.
Qed.

Lemma hour_is_local_hour_witness :
  exists (recs : list MeasurementRecord) (g' : nat) (r : MeasurementRecord),
    scenarioA 120 = Ok (recs, g')
    /\ recs !! 0%nat = Some r
    /\ hour r = ofZ (hourOf (1754024400000 + 120 * msPerMinute)).
Proof.
  eexists _, _, _.
  split; [vm_compute; reflexivity |].
  split; [reflexivity |].
  eapply proj1.
  eapply (proj1 hour_is_local_hour (envAt 120) [scenarioA_row]
            (autoMapping scenarioA_headers) 0%nat)
    with (i := 0%nat) (row := scenarioA_row)
         (v := CStr "2025-08-01T05:00:00Z").
  - vm_compute. reflexivity.
  - reflexivity.
  - reflexivity.
  - vm_compute. reflexivity.
  - vm_compute. reflexivity.
  - reflexivity.
  - vm_compute. reflexivity.
Defined.

(** C6, as the specification words it, fails on the code: in a zone two
    hours east of UTC, Scenario A stores hour 7, while the UTC hour of the
    stored timestamp is 5. *)
Lemma hour_differs_from_UTC_hour :
  exists (r : MeasurementRecord) (g' : nat),
    scenarioA 120 = Ok ([r], g')
    /\ timestamp r = "2025-08-01T05:00:00.000Z"
    /\ getUTCHours (dateParse (envAt 120) (timestamp r)) = ofZ 5
    /\ hour r = ofZ 7.
Proof.
  eexists _, _. split; [vm_compute; reflexivity |].
  repeat split; reflexivity.
Qed.

(** ** Ingestion *)

(** C2, amended: when ingestion fails because the raw row source is empty,
    the error is surfaced in the component's error state and the dataset is
    replaced by the empty dataset; the data source label and the field
    mapping are left as they were. *)
Theorem applyCsvData_empty_source (env : Env) (st : AppState) (g : nat)
    (results : option (list Row)) :
  csvFile st = Some (Complete results) ->
  results = None \/ results = Some [] ->
  let st' := applyCsvData env st g in
  error st' = Some "Failed to process CSV: No data found in CSV file"
  /\ data st' = []
  /\ isLoading st' = false
  /\ dataSource st' = dataSource st
  /\ selectedTech st' = selectedTech st
  /\ fieldMapping st' = fieldMapping st.
Proof.
  intros Hfile Hempty. unfold applyCsvData. rewrite Hfile.
  destruct Hempty as [-> | ->]; cbn; repeat split; reflexivity.
Qed.

Lemma applyCsvData_empty_source_witness :
  error (applyCsvData (envAt 0) loadedState 0)
  = Some "Failed to process CSV: No data found in CSV file"
  /\ data (applyCsvData (envAt 0) loadedState 0) = [].
Proof.
  destruct (applyCsvData_empty_source (envAt 0) loadedState 0 (Some [])
              eq_refl (or_intror eq_refl)) as (He & Hd & _).
  split; [exact He | exact Hd].
Defined.

(** C2, as the specification words it, fails on the code: a component that
    holds a record and ingests a file without rows ends up with no data. *)
Lemma applyCsvData_empty_source_clears_data :
  csvFile loadedState = Some (Complete (Some []))
  /\ data loadedState <> []
  /\ data (applyCsvData (envAt 0) loadedState 0) = []
  /\ data (applyCsvData (envAt 0) loadedState 0) <> data loadedState.
Proof.
  split; [reflexivity |]. split; [discriminate |].
  split; [reflexivity |]. discriminate.
Qed.

(** Ingestion of a file with rows always succeeds and replaces the dataset
    with one record per row. *)
Lemma applyCsvData_rows (env : Env) (st : AppState) (g : nat)
    (row : Row) (rows : list Row) :
  csvFile st = Some (Complete (Some (row :: rows))) ->
  let st' := applyCsvData env st g in
  error st' = None
  /\ dataSource st' = "csv"
  /\ length (data st') = S (length rows).
Proof.
  intros Hfile. unfold applyCsvData, ingest. rewrite Hfile.
  destruct (processRows_spec env (fieldMapping st) (row :: rows) 0 g)
    as (recs & g' & Hrun & Hlen & _).
  unfold processCsvData. rewrite Hrun. cbn [mbind result_bind].
  destruct recs as [| r recs]; [discriminate Hlen |].
  cbn. repeat split. exact Hlen.
Qed.

(** ** Query engine: parameters of the intents *)

Lemma clampInt_range (n : option string) (lo hi : Z) :
  lo <= hi -> lo <= clampInt n lo hi <= hi.
Proof. unfold clampInt. lia. Qed.

(** Without a captured number, [clampInt] receives [undefined], reads it as
    0 and returns the lower bound. *)
Lemma clampInt_undefined (lo hi : Z) :
  0 <= lo <= hi -> clampInt None lo hi = lo.
Proof. unfold clampInt. cbn [toNumber toInt32]. lia. Qed.

(** Any percentile the question names is clamped to [1, 99]. *)
Lemma requestedPercentile_range (q : string) : 1 <= requestedPercentile q <= 99.
Proof. apply clampInt_range. lia. Qed.

(** The defect behind C1 in general: a question without "Nth percentile"
    asks for the 1st percentile, not the 95th. *)
Lemma requestedPercentile_default (q : string) :
  regexMatch q percentileRe = None -> requestedPercentile q = 1.
Proof.
  intros H. unfold requestedPercentile. rewrite H. reflexivity.
Qed.

(** C1: the question "throughput percentile" matches the percentile intent
    and names no percentile; the engine then reports the 1st percentile
    (10 Mbps on the five-record dataset), not the 95th (90 Mbps). *)
Theorem percentile_without_number_is_first :
  includes "throughput percentile" "percentile" = true
  /\ includes "throughput percentile" "throughput" = true
  /\ regexMatch "throughput percentile" percentileRe = None
  /\ requestedPercentile "throughput percentile" = 1
  /\ askLocalAI (envAt 0) (stateOf fiveRecords) "throughput percentile"
     = Ok "1th percentile throughput ≈ 10.0 Mbps (10000 kbps)."
  /\ percentile fiveRecords throughput 1 = Some (10 # 1)%Q
  /\ percentile fiveRecords throughput 95 = Some (90 # 1)%Q.
Proof.
  repeat split; vm_compute; reflexivity.
Qed.

(** Scenarios B and C of the specification (the code always writes
    "measurements", also for one). *)
Example scenarioB :
  askLocalAI (envAt 0) (stateOf [sampleRecord "S" "5G" 10 80])
    "average throughput on 5g between 8 and 12"
  = Ok "Average throughput: 80000 kbps (≈ 80.0 Mbps) based on 1 measurements.".
Proof. vm_compute. reflexivity. Qed.

Example scenarioC :
  askLocalAI (envAt 0)
    (stateOf [sampleRecord "A" "5G" 10 90; sampleRecord "B" "5G" 10 60;
              sampleRecord "C" "5G" 10 30; sampleRecord "D" "5G" 10 10])
    "top 3 sectors by throughput"
  = Ok (join (nl)
          ["Top 3 sectors by avg throughput:"; "1. A: 90.0 Mbps";
           "2. B: 60.0 Mbps"; "3. C: 30.0 Mbps"]).
Proof. vm_compute. reflexivity. Qed.

(** When the question does name a percentile, that number is used. *)
Lemma percentile_with_number :
  askLocalAI (envAt 0) (stateOf fiveRecords)
    "What is the 95th percentile of throughput?"
  = Ok "95th percentile throughput ≈ 90.0 Mbps (90000 kbps).".
Proof. vm_compute. reflexivity. Qed.

(** ** Query engine: exceptions *)

(** C10: the engine can raise.  With a sector called [constructor] in the
    dataset (here the dataset that normalising a one-row file gives), a
    top-N question makes [groupBy] look up [m["constructor"]] on an empty
    object, find the inherited function and call [push] on it. *)
Theorem askLocalAI_throws_on_inherited_key :
  exists (r : MeasurementRecord) (g' : nat),
    constructorRun = Ok ([r], g')
    /\ location r = CStr "constructor"
    /\ selectSubset (stateOf [r]) "top 3 sectors by throughput" = [r]
    /\ askLocalAI (envAt 0) (stateOf [r]) "top 3 sectors by throughput"
       = Throw "(intermediate value).push is not a function".
Proof.
  eexists _, _. split; [vm_compute; reflexivity |].
  repeat split; vm_compute; reflexivity.
Qed.

Section QueryFacts.
Variable env : Env.

(** An empty filtered subset gets the fixed message, whatever the
    question; no intent is dispatched. *)
Lemma askLocalAI_no_rows (st : AppState) (question : string) :
  selectSubset st (toLowerCase question) = [] ->
  askLocalAI env st question = Ok noMatchingRows.
Proof. intros H. unfold askLocalAI. rewrite H. reflexivity. Qed.

Lemma askLocalAI_some_rows (st : AppState) (question : string) :
  selectSubset st (toLowerCase question) <> [] ->
  askLocalAI env st question
  = dispatch env st (toLowerCase question)
      (selectSubset st (toLowerCase question)).
Proof.
  intros H. unfold askLocalAI.
  destruct (selectSubset st (toLowerCase question)); [contradiction | reflexivity].
Qed.

Lemma insertSorted_length {A : Type} (after : A -> A -> bool) (x : A)
    (l : list A) :
  length (insertSorted after x l) = S (length l).
Proof.
  induction l as [| y l IH]; cbn; [reflexivity |].
  destruct (after x y); cbn; [rewrite IH |]; reflexivity.
Qed.

Lemma sortBy_length {A : Type} (after : A -> A -> bool) (l : list A) :
  length (sortBy after l) = length l.
Proof.
  unfold sortBy. induction l as [| x l IH]; cbn [foldr]; [reflexivity |].
  rewrite insertSorted_length, IH. reflexivity.
Qed.

(** The index [percentile] computes is always inside the sorted array. *)
Lemma percentile_defined (arr : list MeasurementRecord)
    (key : MeasurementRecord -> num) (p : Z) :
  is_Some (percentile arr key p).
Proof.
  unfold percentile.
  pose proof (sortBy_length (fun a b => Qltb 0 (a - b)) (finiteValues arr key))
    as Hlen.
  destruct (sortBy _ (finiteValues arr key)) as [| v vals] eqn:E; [eauto |].
  rewrite <- E. apply lookup_lt_is_Some_2.
  rewrite E. cbn [length] in *. lia.
Qed.

Lemma groupByFrom_ok (arr : list MeasurementRecord) :
  ownKeysOnly env arr ->
  forall m : Groups, exists m' : Groups, groupByFrom env m arr = Ok m'.
Proof.
  unfold ownKeysOnly.
  induction 1 as [| r arr Hr _ IH]; intros m; cbn [groupByFrom]; [eauto |].
  unfold groupStep. rewrite Hr.
  destruct (ownProperty m (locationKey env r)); cbn [mbind result_bind]; apply IH.
Qed.

Lemma rankSectors_ok (subset : list MeasurementRecord) (descending : bool)
    (k : Z) :
  ownKeysOnly env subset ->
  exists rows, rankSectors env subset descending k = Ok rows.
Proof.
  intros H. unfold rankSectors, groupBy.
  destruct (groupByFrom_ok subset H []) as [m ->].
  cbn [mbind result_bind]. eauto.
Qed.

(** On a non-empty subset without a sector named like a property of
    [Object.prototype], every intent produces a text. *)
Lemma dispatch_answers (st : AppState) (q : string)
    (subset : list MeasurementRecord) :
  subset <> [] -> ownKeysOnly env subset ->
  exists answer : string, dispatch env st q subset = Ok answer.
Proof.
  intros Hne Hown. unfold dispatch.
  repeat match goal with
  | |- exists a, (if ?c then _ else _) = Ok a => destruct c
  end; try (eexists; reflexivity).
  - destruct (rankSectors_ok subset true (requestedCount "top" q) Hown)
      as [rows ->]. cbn [mbind result_bind]. eauto.
  - destruct (rankSectors_ok subset false (requestedCount "bottom" q) Hown)
      as [rows ->]. cbn [mbind result_bind]. eauto.
  - destruct (percentile_defined subset throughput (requestedPercentile q))
      as [val ->]. cbn [orThrow mbind result_bind]. eauto.
  - pose proof (sortBy_length
                  (fun a b => positive (num_sub (rsrp a) (rsrp b))) subset)
      as Hlen.
    destruct (sortBy _ subset) as [| worst rest].
    + destruct subset; [contradiction | discriminate Hlen].
    + cbn [lookup list_lookup orThrow mbind result_bind]. eauto.
Qed.

Lemma filter_sublist {A : Type} (f : A -> bool) (P : A -> Prop) (l : list A) :
  Forall P l -> Forall P (List.filter f l).
Proof.
  induction 1 as [| x l Hx _ IH]; cbn; [constructor |].
  destruct (f x); [constructor |]; assumption.
Qed.

Lemma selectSubset_Forall (P : MeasurementRecord -> Prop) (st : AppState)
    (q : string) :
  Forall P (data st) -> Forall P (selectSubset st q).
Proof.
  intros H. unfold selectSubset, dayFilter, hourFilter, techFilter,
    byTechnology, filteredData.
  repeat match goal with
  | |- context [match ?c with _ => _ end] => destruct c
  | |- Forall P (List.filter _ _) => apply filter_sublist
  end; assumption.
Qed.

(** The engine answers every question with a text, provided no sector of
    the dataset is named like a property of [Object.prototype]. *)
Lemma askLocalAI_answers (st : AppState) (question : string) :
  ownKeysOnly env (data st) ->
  exists answer : string, askLocalAI env st question = Ok answer.
Proof.
  intros Hown.
  destruct (selectSubset st (toLowerCase question)) as [| r rest] eqn:E.
  - rewrite askLocalAI_no_rows by exact E. eauto.
  - rewrite askLocalAI_some_rows by (rewrite E; discriminate).
    apply dispatch_answers; [rewrite E; discriminate |].
    apply selectSubset_Forall. exact Hown.
Qed.

End QueryFacts.

(** * Further properties *)

(** ** ColumnMapper *)

Lemma hasHeader_In (headers : list string) (pattern : string) :
  hasHeader headers pattern = true <-> In pattern headers.
Proof.
  unfold hasHeader. rewrite existsb_exists. split.
  - intros (h & Hin & Heq). apply String.eqb_eq in Heq. subst. exact Hin.
  - intros Hin. exists pattern. split; [exact Hin | apply String.eqb_refl].
Qed.

Lemma find_header (headers patterns : list string) :
  (forall c, List.find (hasHeader headers) patterns = Some c ->
             In c headers /\ In c patterns)
  /\ (List.find (hasHeader headers) patterns = None <->
      forall p, In p patterns -> ~ In p headers).
Proof.
  split.
  - intros c H. apply find_some in H. destruct H as [Hp Hh].
    apply hasHeader_In in Hh. auto.
  - split.
    + intros H p Hp Hh. apply hasHeader_In in Hh.
      pose proof (find_none _ _ H p Hp). congruence.
    + intros H. destruct (List.find _ patterns) as [c |] eqn:E; [| reflexivity].
      apply find_some in E. destruct E as [Hp Hh].
      apply hasHeader_In in Hh. destruct (H c Hp Hh).
Qed.


(** The fold of [handleCsvUpload] on one field: once set, a field is never
    changed; while empty, it takes the first header that carries a cue. *)
Lemma pick_first (cue : string -> bool) (headers : list string) :
  cue (toLowerCase "") = false ->
  forall current : string,
    fold_left
      (fun cur h => if negb (str_truthy cur) && cue (toLowerCase h) then h
                    else cur)
      headers current
    = if str_truthy current then current else firstHeader cue headers.
Proof.
  intros Hempty. unfold firstHeader.
  induction headers as [| h rest IH]; intros current; cbn [fold_left List.find].
  - destruct current; reflexivity.
  - rewrite IH. destruct (str_truthy current) eqn:Ec; cbn [negb andb].
    + rewrite Ec. reflexivity.
    + destruct (cue (toLowerCase h)) eqn:Eh.
      * destruct h as [| a h']; [congruence | reflexivity].
      * rewrite Ec. reflexivity.
Qed.

Lemma autoMapHeader_fold (headers : list string) :
  forall m : Mapping.t,
    let pick cue :=
      fold_left
        (fun cur h => if negb (str_truthy cur) && cue (toLowerCase h) then h
                      else cur) headers in
    let m' := fold_left autoMapHeader headers m in
    Mapping.timestamp m' = pick timestampCue (Mapping.timestamp m)
    /\ Mapping.rsrp m' = pick rsrpCue (Mapping.rsrp m)
    /\ Mapping.rsrq m' = pick rsrqCue (Mapping.rsrq m)
    /\ Mapping.sinr m' = pick sinrCue (Mapping.sinr m)
    /\ Mapping.technology m' = pick technologyCue (Mapping.technology m)
    /\ Mapping.location m' = pick locationCue (Mapping.location m)
    /\ Mapping.throughput m' = pick throughputCue (Mapping.throughput m)
    /\ Mapping.latitude m' = Mapping.latitude m
    /\ Mapping.longitude m' = Mapping.longitude m.
Proof.
  induction headers as [| h rest IH]; intros m; cbn zeta.
  - repeat split; reflexivity.
  - cbn [fold_left]. specialize (IH (autoMapHeader m h)). cbn zeta in IH.
    exact IH.
Qed.

Lemma autoMapping_fields (headers : list string) :
  let m := autoMapping headers in
  Mapping.timestamp m = firstHeader timestampCue headers
  /\ Mapping.rsrp m = firstHeader rsrpCue headers
  /\ Mapping.rsrq m = firstHeader rsrqCue headers
  /\ Mapping.sinr m = firstHeader sinrCue headers
  /\ Mapping.technology m = firstHeader technologyCue headers
  /\ Mapping.location m = firstHeader locationCue headers
  /\ Mapping.throughput m = firstHeader throughputCue headers
  /\ Mapping.latitude m = default "" (fst (detectCoordinateColumns headers))
  /\ Mapping.longitude m = default "" (snd (detectCoordinateColumns headers)).
Proof.
  cbn zeta. unfold autoMapping.
  destruct (detectCoordinateColumns headers) as [latCol lngCol]. cbn [fst snd].
  match goal with |- context [fold_left autoMapHeader headers ?s] =>
    pose proof (autoMapHeader_fold headers s) as H
  end.
  cbn zeta in H. cbn [Mapping.timestamp Mapping.rsrp Mapping.rsrq
    Mapping.sinr Mapping.technology Mapping.location Mapping.throughput
    Mapping.latitude Mapping.longitude] in H.
  destruct H as (H1 & H2 & H3 & H4 & H5 & H6 & H7 & H8 & H9).
  rewrite H1, H2, H3, H4, H5, H6, H7, H8, H9.
  rewrite !pick_first by reflexivity. cbn [str_truthy].
  repeat split; reflexivity.
Qed.

(** X2: the proposed mapping gives each of the seven cue-detected fields
    the first header, in header order, whose lower-cased name carries one of
    the field's cues (and leaves it empty when there is none); latitude and
    longitude are the columns [detectCoordinateColumns] reports. *)
Theorem autoMapping_first_header_wins (headers : list string) :
  let m := autoMapping headers in
  Mapping.timestamp m = firstHeader timestampCue headers
  /\ Mapping.rsrp m = firstHeader rsrpCue headers
  /\ Mapping.rsrq m = firstHeader rsrqCue headers
  /\ Mapping.sinr m = firstHeader sinrCue headers
  /\ Mapping.technology m = firstHeader technologyCue headers
  /\ Mapping.location m = firstHeader locationCue headers
  /\ Mapping.throughput m = firstHeader throughputCue headers
  /\ Mapping.latitude m = default "" (fst (detectCoordinateColumns headers))
  /\ Mapping.longitude m = default "" (snd (detectCoordinateColumns headers)).
Proof. exact (autoMapping_fields headers). Qed.

Lemma firstHeader_In (cue : string -> bool) (headers : list string) :
  firstHeader cue headers = "" \/ In (firstHeader cue headers) headers.
Proof.
  unfold firstHeader. destruct (List.find _ headers) as [h |] eqn:E.
  - right. apply find_some in E. apply E.
  - left. reflexivity.
Qed.

Lemma default_In (o : option string) (headers : list string) :
  (forall c, o = Some c -> In c headers) ->
  default "" o = "" \/ In (default "" o) headers.
Proof. destruct o as [c |]; cbn; auto. Qed.

(** X3: the proposed mapping never points at a column the file does not
    have: each of its nine fields is empty or one of the headers. *)
Theorem autoMapping_names_headers (headers : list string) :
  let m := autoMapping headers in
  Forall (fun column => column = "" \/ In column headers)
    [Mapping.timestamp m; Mapping.rsrp m; Mapping.rsrq m; Mapping.sinr m;
     Mapping.technology m; Mapping.location m; Mapping.throughput m;
     Mapping.latitude m; Mapping.longitude m].
Proof.
  cbn zeta.
  destruct (autoMapping_fields headers)
    as (-> & -> & -> & -> & -> & -> & -> & -> & ->).
  destruct (find_header headers latPatterns) as [A _].
  destruct (find_header headers lngPatterns) as [C _].
  unfold detectCoordinateColumns. cbn [fst snd].
  repeat match goal with
  | |- Forall _ (firstHeader _ _ :: _) =>
      constructor; [apply firstHeader_In |]
  end.
  constructor; [apply default_In; intros c Hc; apply (A c Hc) |].
  constructor; [apply default_In; intros c Hc; apply (C c Hc) |].
  constructor.
Qed.

Lemma startsWith_prefix (p q : string) :
  forall s : string,
    startsWith s (p +:+ q) = true -> startsWith s p = true.
Proof.
  induction p as [| a p IH]; intros s; [destruct s; reflexivity |].
  destruct s as [| b s]; simpl; [discriminate |].
  destruct (Ascii.eqb a b); [apply IH | discriminate].
Qed.

Lemma startsWith_rate_rat (s : string) :
  startsWith s "rate" = true -> startsWith s "rat" = true.
Proof. apply (startsWith_prefix "rat" "e"). Qed.

Lemma includes_rate_rat (s : string) :
  includes s "rate" = true -> includes s "rat" = true.
Proof.
  induction s as [| a s IH].
  - cbn. discriminate.
  - cbn [includes]. rewrite !orb_true_iff. intros [H | H].
    + left. apply startsWith_rate_rat. exact H.
    + right. apply IH. exact H.
Qed.

Lemma firstHeader_found (cue : string -> bool) (headers : list string)
    (h : string) :
  cue (toLowerCase "") = false ->
  In h headers -> cue (toLowerCase h) = true ->
  firstHeader cue headers <> "".
Proof.
  intros Hempty Hin Hcue. unfold firstHeader.
  destruct (List.find _ headers) as [h' |] eqn:E.
  - apply find_some in E. destruct E as [_ E]. cbn. intros ->. congruence.
  - pose proof (find_none _ _ E h Hin) as Hn. cbn in Hn. congruence.
Qed.

(** X4: the cue "rat" of the technology field is part of the cue "rate" of
    the throughput field: whenever some header contains "rate" (in any
    letter case), the proposal maps the technology field as well as the
    throughput field to a column. *)
Theorem autoMapping_rate_is_technology (headers : list string) (h : string) :
  In h headers ->
  includes (toLowerCase h) "rate" = true ->
  Mapping.throughput (autoMapping headers) <> ""
  /\ Mapping.technology (autoMapping headers) <> "".
Proof.
  intros Hin Hrate.
  destruct (autoMapping_fields headers)
    as (_ & _ & _ & _ & -> & _ & -> & _).
  split.
  - apply (firstHeader_found throughputCue headers h); [reflexivity | exact Hin |].
    unfold throughputCue. rewrite Hrate. rewrite !orb_true_r. reflexivity.
  - apply (firstHeader_found technologyCue headers h); [reflexivity | exact Hin |].
    unfold technologyCue. rewrite (includes_rate_rat _ Hrate).
    rewrite !orb_true_r. reflexivity.
Qed.

Lemma autoMapping_rate_is_technology_witness :
  Mapping.throughput (autoMapping ["Data Rate"]) <> ""
  /\ Mapping.technology (autoMapping ["Data Rate"]) <> "".
Proof.
  apply (autoMapping_rate_is_technology ["Data Rate"] "Data Rate").
  - left. reflexivity.
  - reflexivity.
Defined.

(** ** RecordNormalizer: synthesised fields, rounding, random numbers *)

Lemma resolveTimestamp_fallback (env : Env) (mapping : Mapping.t) (row : Row)
    (index : nat) :
  usableTimestamp env mapping row = false ->
  resolveTimestamp env mapping row index = fallbackTimestamp env index.
Proof.
  unfold usableTimestamp, resolveTimestamp.
  destruct (str_truthy _ && truthy _); [| reflexivity].
  cbn [andb]. destruct (rowGet row _) as [v |]; [| reflexivity].
  destruct (isNaN (getTime (newDate env v))); [reflexivity | discriminate].
Qed.



Lemma tenth_as_product (n : Z) : (n # 10 == inject_Z n * (1 # 10))%Q.
Proof. unfold Qeq. cbn. lia. Qed.

Lemma roundTenth_near (q : Q) :
  Qle_bool (inject_Z (10 ^ 21)) (Qabs q) = false ->
  exists n : Z,
    roundTenth q = (n # 10)%Q /\ (Qabs ((n # 10) - q) <= 1 # 20)%Q.
Proof.
  intros Hsmall. unfold roundTenth. rewrite Hsmall.
  set (f := Qfloor (Qabs q * 10 + (1 # 2))).
  pose proof (Qfloor_le (Qabs q * 10 + (1 # 2))) as Hlo.
  pose proof (Qlt_floor (Qabs q * 10 + (1 # 2))) as Hhi.
  fold f in Hlo, Hhi. rewrite inject_Z_plus in Hhi.
  change (inject_Z 1) with 1%Q in Hhi.
  destruct (Qltb q 0) eqn:E.
  - apply Qltb_lt in E. exists (- f). split; [reflexivity |].
    rewrite (Qabs_neg q) in Hlo, Hhi by lra.
    apply Qabs_Qle_condition. rewrite tenth_as_product, inject_Z_opp.
    split; lra.
  - apply Qltb_ge in E. exists f. split; [reflexivity |].
    rewrite (Qabs_pos q) in Hlo, Hhi by lra.
    apply Qabs_Qle_condition. rewrite tenth_as_product.
    split; lra.
Qed.

Lemma round1_roundedFrom (x : num) : roundedFrom x (round1 x).
Proof.
  destruct x as [| | | q]; cbn [roundedFrom round1]; try reflexivity.
  destruct (Qle_bool (inject_Z (10 ^ 21)) (Qabs q)) eqn:E.
  - left. split; [apply Qle_bool_iff; exact E |].
    unfold roundTenth. rewrite E. reflexivity.
  - right. destruct (roundTenth_near q E) as (n & -> & Hn). eauto.
Qed.

(** X6: the four measured values of a record are stored as
    [parseFloat(x.toFixed(1))] of the value resolved from the row: a
    multiple of a tenth at most 0.05 away from it (the value itself from
    1e21 on and when infinite). *)
Theorem stored_values_are_rounded (env : Env) (rows : list Row)
    (mapping : Mapping.t) (g : nat) (recs : list MeasurementRecord) (g' : nat)
    (i : nat) (r : MeasurementRecord) (row : Row) :
  processCsvData env rows mapping g = Ok (recs, g') ->
  recs !! i = Some r ->
  rows !! i = Some row ->
  roundedFrom (resolveSignal (Mapping.rsrp mapping) row (ofZ (-80))) (rsrp r)
  /\ roundedFrom (resolveSignal (Mapping.rsrq mapping) row (ofZ (-10)))
       (rsrq r)
  /\ roundedFrom (resolveSignal (Mapping.sinr mapping) row (ofZ 15)) (sinr r)
  /\ exists gi : nat,
       roundedFrom
         (fst (resolveThroughput env (Mapping.throughput mapping) row gi))
         (throughput r).
Proof.
  intros Hrun Hr Hrow.
  destruct (processCsvData_lookup env rows mapping g recs g' i r Hrun Hr)
    as (row' & gi & gi' & Hrow' & Hp).
  assert (row' = row) by congruence. subst row'.
  apply processRow_inv in Hp. cbv zeta in Hp.
  destruct Hp as (_ & _ & _ & _ & -> & -> & -> & _ & _ & _ & -> & _).
  repeat split; try apply round1_roundedFrom.
  exists gi. apply round1_roundedFrom.
Qed.

Lemma stored_values_are_rounded_witness :
  exists (recs : list MeasurementRecord) (g' : nat) (r : MeasurementRecord),
    processCsvData (envAt 0) [edgeRsrpRow] (autoMapping ["RSRP"]) 0
    = Ok (recs, g')
    /\ recs !! 0%nat = Some r
    /\ roundedFrom
         (resolveSignal (Mapping.rsrp (autoMapping ["RSRP"])) edgeRsrpRow
            (ofZ (-80)))
         (rsrp r).
Proof.
  eexists _, _, _.
  split; [vm_compute; reflexivity |].
  split; [reflexivity |].
  pose proof (stored_values_are_rounded (envAt 0) [edgeRsrpRow]
                (autoMapping ["RSRP"]) 0) as H.
  edestruct H with (i := 0%nat) (row := edgeRsrpRow) as [Hrsrp _].
  - vm_compute. reflexivity.
  - reflexivity.
  - reflexivity.
  - exact Hrsrp.
Defined.

Lemma withRandom_resolveTimestamp (env : Env) (stream : nat -> Q)
    (mapping : Mapping.t) (row : Row) (index : nat) :
  resolveTimestamp (withRandom env stream) mapping row index
  = resolveTimestamp env mapping row index.
Proof. reflexivity. Qed.

Lemma withRandom_getHours (env : Env) (stream : nat -> Q) (d : Date) :
  getHours (withRandom env stream) d = getHours env d.
Proof. reflexivity. Qed.

Lemma withRandom_getDate (env : Env) (stream : nat -> Q) (d : Date) :
  getDate (withRandom env stream) d = getDate env d.
Proof. reflexivity. Qed.

Lemma withRandom_toDateString (env : Env) (stream : nat -> Q) (d : Date) :
  toDateString (withRandom env stream) d = toDateString env d.
Proof. reflexivity. Qed.

Lemma withRandom_resolveTechnology (env : Env) (stream : nat -> Q)
    (column : string) (row : Row) :
  resolveTechnology (withRandom env stream) column row
  = resolveTechnology env column row.
Proof. reflexivity. Qed.

Lemma withRandom_processRow (env : Env) (stream : nat -> Q)
    (mapping : Mapping.t) (row : Row) (index g : nat) :
  completeRow mapping row = true ->
  processRow (withRandom env stream) mapping row index g
  = processRow env mapping row index g
  /\ exists r : MeasurementRecord,
       processRow env mapping row index g = Ok (r, g).
Proof.
  unfold completeRow. intros H.
  apply andb_prop in H as [H Hc]. apply andb_prop in H as [Hm Hv].
  assert (Hd : defined (rowGet row (Mapping.throughput mapping)) = true).
  { destruct (rowGet row (Mapping.throughput mapping)); [reflexivity |].
    discriminate Hv. }
  destruct (resolveTimestamp_valid env mapping row index) as [t Ht].
  destruct (toISOString_valid t) as (iso & Hiso & _).
  unfold processRow.
  rewrite withRandom_resolveTimestamp, withRandom_getHours,
    withRandom_getDate, withRandom_toDateString,
    withRandom_resolveTechnology.
  unfold resolveThroughput, resolveCoordinates.
  rewrite Hm, Hd, Hv, Ht, Hiso. cbn [andb].
  destruct (mappedCoordinates mapping row) as [[la |] [lo |]];
    try discriminate Hc.
  cbn [orThrow mbind result_bind mret result_ret].
  split; [reflexivity | eexists; reflexivity].
Qed.

Lemma withRandom_processRows (env : Env) (stream : nat -> Q)
    (mapping : Mapping.t) (rows : list Row) :
  Forall (fun row => completeRow mapping row = true) rows ->
  forall index g : nat,
    processRows (withRandom env stream) mapping rows index g
    = processRows env mapping rows index g
    /\ exists recs : list MeasurementRecord,
         processRows env mapping rows index g = Ok (recs, g).
Proof.
  induction 1 as [| row rest Hrow _ IH]; intros index g.
  - split; [reflexivity | eexists; reflexivity].
  - destruct (withRandom_processRow env stream mapping row index g Hrow)
      as (E1 & r & Hr).
    destruct (IH (S index) g) as (E2 & recs & Hrs).
    cbn [processRows]. rewrite E1, Hr. cbn [mbind result_bind].
    rewrite E2, Hrs. cbn [mbind result_bind].
    split; [reflexivity | eexists; reflexivity].
Qed.

(** X7: when every row gives a usable throughput and a valid coordinate
    pair, normalisation draws no random number: it succeeds, leaves the
    generator where it was, and gives the same records whatever stream
    [Math.random] would have produced. *)
Theorem complete_rows_draw_no_random_numbers (env : Env) (stream : nat -> Q)
    (rows : list Row) (mapping : Mapping.t) (g : nat) :
  Forall (fun row => completeRow mapping row = true) rows ->
  processCsvData (withRandom env stream) rows mapping g
  = processCsvData env rows mapping g
  /\ exists recs : list MeasurementRecord,
       processCsvData env rows mapping g = Ok (recs, g).
Proof.
  intros H. exact (withRandom_processRows env stream mapping rows H 0%nat g).
Qed.

Lemma complete_rows_draw_no_random_numbers_witness :
  Forall (fun row => completeRow (autoMapping surveyHeaders) row = true)
    [surveyRow 42; surveyRow 7]
  /\ exists recs : list MeasurementRecord,
       processCsvData (envAt 0) [surveyRow 42; surveyRow 7]
         (autoMapping surveyHeaders) 5 = Ok (recs, 5%nat).
Proof.
  assert (H : Forall
                (fun row => completeRow (autoMapping surveyHeaders) row = true)
                [surveyRow 42; surveyRow 7]).
  { constructor; [vm_compute; reflexivity |].
    constructor; [vm_compute; reflexivity | constructor]. }
  split; [exact H |].
  exact (proj2 (complete_rows_draw_no_random_numbers (envAt 0) (fun _ => 0%Q)
                  [surveyRow 42; surveyRow 7] (autoMapping surveyHeaders)
                  5%nat H)).
Defined.

(** ** Aggregations: the charts account for every record *)

Lemma num_eqb_ofZ (a b : Z) : num_eqb (ofZ a) (ofZ b) = (a =? b).
Proof.
  unfold ofZ, num_eqb, Qeq_bool, inject_Z. cbn [Qnum Qden].
  rewrite !Z.mul_1_r. reflexivity.
Qed.

Lemma day_of_month_range (doy : Z) :
  1 <= doy - (153 * ((5 * doy + 2) / 153) + 2) / 5 + 1 <= 31.
Proof.
  pose proof (Z.div_mod (5 * doy + 2) 153 ltac:(lia)) as E1.
  pose proof (Z.mod_pos_bound (5 * doy + 2) 153 ltac:(lia)) as B1.
  set (mp := (5 * doy + 2) / 153) in *.
  pose proof (Z.div_mod (153 * mp + 2) 5 ltac:(lia)) as E2.
  pose proof (Z.mod_pos_bound (153 * mp + 2) 5 ltac:(lia)) as B2.
  lia.
Qed.

Lemma dateOf_range (t : Z) : 1 <= dateOf t <= 31.
Proof.
  unfold dateOf, civilFromDays. cbv zeta. cbn [snd].
  apply day_of_month_range.
Qed.

Lemma sum_list_zero {A : Type} (l : list A) :
  sum_list (map (fun _ => 0%nat) l) = 0%nat.
Proof. induction l as [| a l IH]; [reflexivity | exact IH]. Qed.

Lemma sum_list_plus {A : Type} (f g : A -> nat) (l : list A) :
  sum_list (map (fun a => (f a + g a)%nat) l)
  = (sum_list (map f l) + sum_list (map g l))%nat.
Proof.
  induction l as [| a l IH]; [reflexivity |].
  cbn [map sum_list_with id]. rewrite IH. lia.
Qed.

Lemma indicator_sum (i s n : nat) :
  sum_list (map (fun j => if bool_decide (j = i) then 1%nat else 0%nat)
                (seq s n))
  = if bool_decide (s <= i < s + n)%nat then 1%nat else 0%nat.
Proof.
  revert s. induction n as [| n IH]; intros s.
  - cbn [seq map sum_list_with id]. rewrite bool_decide_eq_false_2 by lia. reflexivity.
  - cbn [seq map sum_list_with id]. rewrite IH.
    repeat case_bool_decide; lia.
Qed.

(** Tests that single out one bucket below [n] for every element split the
    list into buckets whose sizes add up to its length. *)
Lemma buckets_partition {A : Type} (p : nat -> A -> bool) (n : nat)
    (l : list A) :
  Forall (fun x => exists i : nat,
            (i < n)%nat
            /\ forall j : nat, (j < n)%nat -> p j x = bool_decide (j = i)) l ->
  sum_list (map (fun j => length (List.filter (p j) l)) (seq 0 n)) = length l.
Proof.
  induction 1 as [| x l (i & Hi & Hp) _ IH].
  - cbn [List.filter length]. apply sum_list_zero.
  - transitivity
      (sum_list
         (map (fun j => ((if bool_decide (j = i) then 1 else 0)
                         + length (List.filter (p j) l))%nat) (seq 0 n))).
    + f_equal. apply map_ext_in. intros j Hj. apply in_seq in Hj.
      cbn [List.filter]. rewrite (Hp j) by lia.
      case_bool_decide; reflexivity.
    + rewrite sum_list_plus, IH, indicator_sum.
      rewrite bool_decide_eq_true_2 by lia. reflexivity.
Qed.

Lemma filteredData_Forall (P : MeasurementRecord -> Prop) (st : AppState) :
  Forall P (data st) -> Forall P (filteredData st).
Proof. apply filter_sublist. Qed.

Lemma hourly_counts (rows : list MeasurementRecord) :
  Forall chartable rows ->
  sum_list (map (fun h => length (atHour h rows)) (seq 0 24)) = length rows.
Proof.
  intros H. apply (buckets_partition
                     (fun h item => num_eqb (hour item) (ofZ (Z.of_nat h)))).
  eapply Forall_impl; [exact H |].
  intros r ((h & Hh & ->) & _). exists (Z.to_nat h). split; [lia |].
  intros j _. rewrite num_eqb_ofZ.
  destruct (Z.eqb_spec h (Z.of_nat j)); case_bool_decide; lia.
Qed.

Lemma daily_counts (rows : list MeasurementRecord) :
  Forall chartable rows ->
  sum_list (map (fun dayIdx => length (onDay (Z.of_nat dayIdx + 1) rows))
                (seq 0 31))
  = length rows.
Proof.
  intros H. apply (buckets_partition
                     (fun dayIdx item =>
                        num_eqb (day item) (ofZ (Z.of_nat dayIdx + 1)))).
  eapply Forall_impl; [exact H |].
  intros r (_ & (d & Hd & ->) & _). exists (Z.to_nat (d - 1)). split; [lia |].
  intros j _. rewrite num_eqb_ofZ.
  destruct (Z.eqb_spec d (Z.of_nat j + 1)); case_bool_decide; lia.
Qed.

Lemma class_counts (rows : list MeasurementRecord) :
  Forall chartable rows ->
  (length (ofClass 1 rows) + length (ofClass 2 rows)
   + length (ofClass 3 rows) + length (ofClass 4 rows))%nat
  = length rows.
Proof.
  induction 1 as [| r rows (_ & _ & Hc & _) _ IH]; [reflexivity |].
  unfold ofClass in *. cbn [List.filter].
  assert (Hcases : signalClass r = 1 \/ signalClass r = 2
                   \/ signalClass r = 3 \/ signalClass r = 4) by lia.
  destruct Hcases as [-> | [-> | [-> | ->]]]; cbn [Z.eqb Pos.eqb length]; lia.
Qed.

Lemma technology_counts (rows : list MeasurementRecord) :
  Forall chartable rows ->
  (length (byTechnology "5G" rows) + length (byTechnology "4G" rows))%nat
  = length rows.
Proof.
  induction 1 as [| r rows (_ & _ & _ & Ht) _ IH]; [reflexivity |].
  unfold byTechnology in *. cbn [List.filter].
  destruct Ht as [-> | ->]; cbn [length]; simpl String.eqb; cbn [length]; lia.
Qed.

(** X8: when every record has a whole hour in 0..23, a day in 1..31, a
    class in 1..4 and technology 4G or 5G, each chart accounts for every
    record of the current selection exactly once: the 24 hourly counts, the
    31 daily totals, the four class slices and the two technology slices
    each add up to [totalMeasurements]. *)
Theorem charts_account_for_every_record (st : AppState) :
  Forall chartable (data st) ->
  sum_list (map HourBucket.count (hourlyData st)) = totalMeasurements st
  /\ sum_list (map DayBucket.totalMeasurements (dailyData st))
     = totalMeasurements st
  /\ sum_list (map value (signalClassData st)) = totalMeasurements st
  /\ sum_list (map value (techData st)) = totalMeasurements st.
Proof.
  intros H. apply filteredData_Forall in H.
  unfold hourlyData, dailyData, signalClassData, techData, totalMeasurements.
  rewrite !map_map. cbn [HourBucket.count hourBucket
                         DayBucket.totalMeasurements dayBucket].
  split; [apply hourly_counts, H |].
  split; [apply daily_counts, H |].
  cbn [map value sum_list_with id].
  pose proof (class_counts _ H). pose proof (technology_counts _ H).
  split; lia.
Qed.

Lemma charts_account_for_every_record_witness :
  Forall chartable (data (stateOf fiveRecords))
  /\ sum_list (map HourBucket.count (hourlyData (stateOf fiveRecords)))
     = totalMeasurements (stateOf fiveRecords).
Proof.
  assert (H : Forall chartable (data (stateOf fiveRecords))).
  { repeat (apply List.Forall_cons || apply List.Forall_nil);
      (split; [exists 10; split; [lia | reflexivity] |]);
      (split; [exists 1; split; [lia | reflexivity] |]);
      (split; [cbn; lia |]); cbn; auto. }
  split; [exact H |].
  exact (proj1 (charts_account_for_every_record (stateOf fiveRecords) H)).
Defined.

Section ChartFacts.
Variable env : Env.

Lemma processRow_chartable (mapping : Mapping.t) (row : Row) (index g : nat)
    (r : MeasurementRecord) (g' : nat) :
  processRow env mapping row index g = Ok (r, g') -> chartable r.
Proof.
  intros H. apply processRow_inv in H. cbv zeta in H.
  destruct H as (_ & _ & Hhour & Hday & _ & _ & _ & Hcls & Htech & _).
  destruct (resolveTimestamp_valid env mapping row index) as [t Ht].
  rewrite Ht in *. cbn [getHours getDate] in *.
  split; [eexists; split; [apply hourOf_range | exact Hhour] |].
  split; [eexists; split; [apply dateOf_range | exact Hday] |].
  split; [rewrite Hcls; apply classify_range |].
  rewrite Htech. apply resolveTechnology_cases.
Qed.

Lemma processCsvData_Forall (P : MeasurementRecord -> Prop)
    (rows : list Row) (mapping : Mapping.t) (g : nat)
    (recs : list MeasurementRecord) (g' : nat) :
  (forall row index gi r gi',
      processRow env mapping row index gi = Ok (r, gi') -> P r) ->
  processCsvData env rows mapping g = Ok (recs, g') ->
  Forall P recs.
Proof.
  intros HP Hrun. apply Forall_lookup_2. intros i r Hr.
  destruct (processCsvData_lookup env rows mapping g recs g' i r Hrun Hr)
    as (row & gi & gi' & _ & Hp).
  exact (HP _ _ _ _ _ Hp).
Qed.

End ChartFacts.

(** X9: every record that normalisation produces is fit for the charts,
    whatever the row held: its hour is a whole number in 0..23 and its day
    one in 1..31 (those of the timestamp in local time), its class is in
    1..4 and its technology is 4G or 5G. *)
Theorem normalised_records_are_chartable (env : Env) (rows : list Row)
    (mapping : Mapping.t) (g : nat) (recs : list MeasurementRecord)
    (g' : nat) :
  processCsvData env rows mapping g = Ok (recs, g') ->
  Forall chartable recs.
Proof.
  apply processCsvData_Forall. apply processRow_chartable.
Qed.

Lemma normalised_records_are_chartable_witness :
  exists (recs : list MeasurementRecord) (g' : nat),
    processCsvData (envAt 0) [surveyRow 42; surveyRow 7]
      (autoMapping surveyHeaders) 0 = Ok (recs, g')
    /\ Forall chartable recs.
Proof.
  eexists _, _.
  split; [vm_compute; reflexivity |].
  eapply (normalised_records_are_chartable (envAt 0)
            [surveyRow 42; surveyRow 7] (autoMapping surveyHeaders) 0).
  vm_compute. reflexivity.
Defined.

(** ** Map: markers and centre *)

Lemma filter_all {A : Type} (f : A -> bool) (l : list A) :
  Forall (fun x => f x = true) l -> List.filter f l = l.
Proof.
  induction 1 as [| x l Hx _ IH]; [reflexivity |].
  cbn [List.filter]. rewrite Hx, IH. reflexivity.
Qed.

Lemma filter_passes {A : Type} (f : A -> bool) (l : list A) :
  Forall (fun x => f x = true) (List.filter f l).
Proof.
  induction l as [| x l IH]; [constructor |].
  cbn [List.filter]. destruct (f x) eqn:E; [constructor |]; assumption.
Qed.

(** X10: with [Math.random] in [0, 1), every record of a normalised file
    that passes the technology selector gets a marker on the map: the
    validity filter of the marker layer removes nothing. *)
Theorem every_normalised_record_gets_a_marker (env : Env) (rows : list Row)
    (mapping : Mapping.t) (g : nat) (recs : list MeasurementRecord)
    (g' : nat) (st : AppState) :
  random_ok env ->
  processCsvData env rows mapping g = Ok (recs, g') ->
  data st = recs ->
  markers st = filteredData st.
Proof.
  intros Hr Hrun Hdata. unfold markers. apply filter_all.
  apply filteredData_Forall. rewrite Hdata.
  eapply processCsvData_Forall; [| exact Hrun].
  intros row index gi r gi' Hp. apply processRow_inv in Hp. cbv zeta in Hp.
  destruct Hp as (_ & _ & _ & _ & _ & _ & _ & _ & _ & _ & _ & Hco & _).
  exact (resolveCoordinates_valid env _ _ _ _ _ _ _ Hr Hco).
Qed.

Lemma every_normalised_record_gets_a_marker_witness :
  exists (recs : list MeasurementRecord) (g' : nat),
    processCsvData (envAt 0) [∅; surveyRow 7] (autoMapping surveyHeaders) 0
    = Ok (recs, g')
    /\ markers (stateOf recs) = filteredData (stateOf recs).
Proof.
  eexists _, _.
  split; [vm_compute; reflexivity |].
  eapply (every_normalised_record_gets_a_marker (envAt 0) [∅; surveyRow 7]
            (autoMapping surveyHeaders) 0).
  - apply random_ok_envAt.
  - vm_compute. reflexivity.
  - reflexivity.
Defined.





(** ** Aggregations: the values of a bucket *)





(** ** Demo data *)

Lemma Ok_inj {A : Type} (a b : A) : Ok a = Ok b -> a = b.
Proof. intros H. injection H as ->. reflexivity. Qed.

Lemma traverse_total {A B : Type} (f : A -> result B) (l : list A) :
  (forall a : A, exists b : B, f a = Ok b) ->
  exists bs : list B,
    traverse f l = Ok bs /\ Forall2 (fun a b => f a = Ok b) l bs.
Proof.
  intros Hf. induction l as [| a l (bs & Hbs & Hall)].
  - exists []. split; [reflexivity | constructor].
  - destruct (Hf a) as [b Hb]. exists (b :: bs).
    cbn [traverse]. rewrite Hb, Hbs. split; [reflexivity |].
    constructor; assumption.
Qed.

Lemma Forall2_map_eq {A B C : Type} (R : A -> B -> Prop) (k : B -> C)
    (k' : A -> C) (l : list A) (bs : list B) :
  (forall a b, R a b -> k b = k' a) ->
  Forall2 R l bs -> map k bs = map k' l.
Proof.
  intros Hk. induction 1 as [| a b l bs Hab _ IH]; [reflexivity |].
  cbn [map]. rewrite (Hk a b Hab), IH. reflexivity.
Qed.

Lemma Forall2_Forall_r {A B : Type} (R : A -> B -> Prop) (P : B -> Prop)
    (l : list A) (bs : list B) :
  (forall a b, R a b -> P b) -> Forall2 R l bs -> Forall P bs.
Proof.
  intros HP. induction 1 as [| a b l bs Hab _ IH]; constructor; eauto.
Qed.

Lemma concat_map_map {A B : Type} (k : A -> B) (ls : list (list A)) :
  map k (concat ls) = concat (map (map k) ls).
Proof.
  induction ls as [| l ls IH]; [reflexivity |].
  cbn [concat map]. rewrite map_app, IH. reflexivity.
Qed.

Section DemoFacts.
Variable env : Env.

Lemma demoDate_valid (dayIdx h : nat) :
  exists t : Z, demoDate env dayIdx h = Some t.
Proof.
  unfold demoDate. rewrite base_date. cbn [newDate getDate]. unfold ofZ.
  destruct (setDate_valid env 1754006400000
              (Qtrunc (inject_Z (dateOf (localTime env 1754006400000)))
               + Z.of_nat dayIdx)) as [day0 ->].
  rewrite setHours_valid. eauto.
Qed.

Lemma demoRecord_total (dayIdx h g : nat) :
  exists r : MeasurementRecord, demoRecord env dayIdx h g = Ok r.
Proof.
  destruct (demoDate_valid dayIdx h) as [t Ht].
  destruct (toISOString_valid t) as (iso & Hiso & _).
  unfold demoRecord. rewrite Ht, Hiso.
  cbn [orThrow mbind result_bind]. eauto.
Qed.

Lemma demoRecord_cell (dayIdx h g : nat) (r : MeasurementRecord) :
  demoRecord env dayIdx h g = Ok r ->
  (hour r, day r) = (ofZ (Z.of_nat h), ofZ (Z.of_nat dayIdx + 1)).
Proof.
  unfold demoRecord.
  destruct (toISOString (demoDate env dayIdx h));
    cbn [orThrow mbind result_bind]; [| discriminate].
  intros H. apply Ok_inj in H. subst r. reflexivity.
Qed.

Lemma clamp_within (lo a b x : Q) :
  (lo <= a)%Q -> (a <= b)%Q -> (a <= x)%Q ->
  (a <= mathMax lo (mathMin b x))%Q /\ (mathMax lo (mathMin b x) <= b)%Q.
Proof.
  intros H1 H2 H3. unfold mathMax, mathMin.
  destruct (Qle_bool b x) eqn:E1;
    [apply Qle_bool_iff in E1
    | apply not_true_iff_false in E1; rewrite Qle_bool_iff in E1];
    split_Qle; split; lra.
Qed.

Lemma clamp_upper (lo b x hi : Q) :
  (lo <= hi)%Q -> (x <= hi)%Q -> (mathMax lo (mathMin b x) <= hi)%Q.
Proof.
  intros H1 H2. unfold mathMax, mathMin.
  destruct (Qle_bool b x) eqn:E1;
    [apply Qle_bool_iff in E1
    | apply not_true_iff_false in E1; rewrite Qle_bool_iff in E1];
    split_Qle; lra.
Qed.

Lemma round1_within (lo hi : Z) (q : Q) :
  (inject_Z lo <= q)%Q -> (q <= inject_Z hi)%Q ->
  within (inject_Z lo) (inject_Z hi) (round1 (Fin q)).
Proof.
  intros H1 H2. exists (roundTenth q). split; [reflexivity |].
  split; [apply roundTenth_ge | apply roundTenth_le]; assumption.
Qed.

Lemma demoRecord_ranges (dayIdx h g : nat) (r : MeasurementRecord) :
  random_ok env ->
  demoRecord env dayIdx h g = Ok r ->
  demoRanges r /\ (technology r = "4G" \/ technology r = "5G").
Proof.
  intros Hr. unfold demoRecord.
  destruct (toISOString (demoDate env dayIdx h));
    cbn [orThrow mbind result_bind]; [| discriminate].
  intros H. apply Ok_inj in H. subst r.
  pose proof (Hr g) as [A0 A1]. pose proof (Hr (1 + g)%nat) as [B0 B1].
  pose proof (Hr (2 + g)%nat) as [C0 C1]. pose proof (Hr (3 + g)%nat) as [D0 D1].
  pose proof (Hr (4 + g)%nat) as [E0 E1]. pose proof (Hr (5 + g)%nat) as [F0 F1].
  pose proof (Hr (7 + g)%nat) as [G0 G1]. pose proof (Hr (8 + g)%nat) as [I0 I1].
  unfold demoRanges.
  cbn [rsrp rsrq sinr throughput lat lon signalClass location technology].
  set (x := (-75 + random env g * 50 + (random env (1 + g) - (1 # 2)) * 20)%Q).
  destruct (clamp_within (-120) (-85) (-50) x) as [X0 X1];
    try (unfold x; lra).
  split; [| destruct (Qltb _ _); auto].
  split; [apply (round1_within (-85) (-50)); assumption |].
  split.
  { set (y := (-10 + (random env (2 + g) - (1 # 2)) * 10)%Q).
    destruct (clamp_within (-20) (-15) (-3) y) as [Y0 Y1];
      try (unfold y; lra).
    apply (round1_within (-15) (-5)); [exact Y0 |].
    apply clamp_upper; unfold inject_Z; [| unfold y]; lra. }
  split.
  { set (y := (15 + (random env (3 + g) - (1 # 2)) * 20)%Q).
    destruct (clamp_within (-10) 5 30 y) as [Y0 Y1];
      try (unfold y; lra).
    apply (round1_within 5 25); [exact Y0 |].
    apply clamp_upper; unfold inject_Z; [| unfold y]; lra. }
  split; [apply (round1_within 50 150); unfold inject_Z; lra |].
  split; [eexists; split; [reflexivity |]; unfold centerLat; split; lra |].
  split; [eexists; split; [reflexivity |]; unfold centerLon; split; lra |].
  split.
  { rewrite classify_fin.
    apply Qle_bool_iff in X0. change (Qle_bool (-85) _) with
      (Qle_bool (-85) (mathMax (-120) (mathMin (-50) x))).
    destruct (Qle_bool (-70) _); [left; reflexivity |].
    rewrite X0. right. reflexivity. }
  { exists (Qfloor (random env (7 + g) * 50) + 1). split; [| reflexivity].
    pose proof (Qfloor_lower (random env (7 + g) * 50) 0
                  ltac:(unfold inject_Z; lra)).
    pose proof (Qfloor_upper (random env (7 + g) * 50) 49
                  ltac:(change (inject_Z (49 + 1)) with 50%Q; lra)).
    lia. }
Qed.

Lemma generateDriveTestData_days (g : nat) :
  exists days : list (list MeasurementRecord),
    generateDriveTestData env g = Ok (concat days)
    /\ Forall2
         (fun dayIdx recs =>
            Forall2
              (fun h r =>
                 demoRecord env dayIdx h (g + 9 * (dayIdx * 24 + h)) = Ok r)
              (seq 0 24) recs)
         (seq 0 31) days.
Proof.
  destruct (traverse_total
              (fun dayIdx =>
                 traverse
                   (fun h => demoRecord env dayIdx h
                               (g + 9 * (dayIdx * 24 + h)))
                   (seq 0 24))
              (seq 0 31)) as (days & Hdays & Hall).
  { intros dayIdx.
    destruct (traverse_total
                (fun h => demoRecord env dayIdx h (g + 9 * (dayIdx * 24 + h)))
                (seq 0 24)) as (recs & Hrecs & _); [| eauto].
    intros h. apply demoRecord_total. }
  exists days. unfold generateDriveTestData. rewrite Hdays.
  split; [reflexivity |].
  eapply Forall2_impl; [exact Hall |].
  intros dayIdx recs Hrecs. cbv beta in Hrecs.
  destruct (traverse_total
              (fun h => demoRecord env dayIdx h (g + 9 * (dayIdx * 24 + h)))
              (seq 0 24)) as (recs' & Hrecs' & Hall');
    [intros h; apply demoRecord_total |].
  congruence.
Qed.

Lemma generateDriveTestData_grid (g : nat) :
  exists recs : list MeasurementRecord,
    generateDriveTestData env g = Ok recs
    /\ map (fun r => (hour r, day r)) recs = demoGrid.
Proof.
  destruct (generateDriveTestData_days g) as (days & Hrun & Hall).
  exists (concat days). split; [exact Hrun |].
  rewrite concat_map_map. unfold demoGrid. rewrite flat_map_concat_map.
  f_equal.
  apply (Forall2_map_eq _ _ _ _ _ (fun dayIdx recs Hrecs =>
           Forall2_map_eq _ _ _ _ _
             (fun h r Hr => demoRecord_cell dayIdx h _ r Hr) Hrecs) Hall).
Qed.

Lemma generateDriveTestData_Forall (P : MeasurementRecord -> Prop) (g : nat)
    (recs : list MeasurementRecord) :
  (forall dayIdx h gi r, demoRecord env dayIdx h gi = Ok r -> P r) ->
  generateDriveTestData env g = Ok recs ->
  Forall P recs.
Proof.
  intros HP Hrun.
  destruct (generateDriveTestData_days g) as (days & Hrun' & Hall).
  rewrite Hrun in Hrun'. injection Hrun' as ->.
  apply List.Forall_concat.
  eapply Forall2_Forall_r; [| exact Hall].
  intros dayIdx day Hday.
  eapply Forall2_Forall_r; [| exact Hday].
  intros h r Hr. exact (HP _ _ _ _ Hr).
Qed.

End DemoFacts.

Lemma demoGrid_chartable (recs : list MeasurementRecord) :
  map (fun r => (hour r, day r)) recs = demoGrid ->
  Forall (fun r => (exists h : Z, 0 <= h <= 23 /\ hour r = ofZ h)
                   /\ (exists d : Z, 1 <= d <= 31 /\ day r = ofZ d)) recs.
Proof.
  intros H.
  assert (G : Forall (fun p : num * num =>
                        (exists h : Z, 0 <= h <= 23 /\ fst p = ofZ h)
                        /\ (exists d : Z, 1 <= d <= 31 /\ snd p = ofZ d))
                     demoGrid).
  { unfold demoGrid. apply List.Forall_flat_map, List.Forall_forall.
    intros dayIdx Hd. apply in_seq in Hd.
    apply List.Forall_map, List.Forall_forall. intros h Hh. apply in_seq in Hh.
    cbn [fst snd]. split; eexists; (split; [| reflexivity]); lia. }
  rewrite <- H in G. apply List.Forall_map in G. exact G.
Qed.

(** X13: the demo generator never fails, whatever [Math.random] returns
    and in every time zone: it yields 744 records, one for each hour 0..23
    of each day 1..31, day by day, none of which carries an
    [originalRow]. *)
Theorem generateDriveTestData_grid_of_744 (env : Env) (g : nat) :
  exists recs : list MeasurementRecord,
    generateDriveTestData env g = Ok recs
    /\ length recs = 744%nat
    /\ map (fun r => (hour r, day r)) recs = demoGrid
    /\ Forall (fun r => originalRow r = None) recs.
Proof.
  destruct (generateDriveTestData_grid env g) as (recs & Hrun & Hgrid).
  exists recs. split; [exact Hrun |].
  split; [| split; [exact Hgrid |]].
  - rewrite <- (length_map (fun r => (hour r, day r))), Hgrid.
    vm_compute. reflexivity.
  - eapply generateDriveTestData_Forall; [| exact Hrun].
    intros dayIdx h gi r. unfold demoRecord.
    destruct (toISOString (demoDate env dayIdx h));
      cbn [orThrow mbind result_bind]; [| discriminate].
    intros H. apply Ok_inj in H. subst r. reflexivity.
Qed.

(** X14: with [Math.random] in [0, 1), every demo record has rsrp in
    [-85, -50] and therefore class 1 or 2 (the demo data never shows class
    3 or 4), rsrq in [-15, -5], sinr in [5, 25], throughput in [50, 150], a
    position within 0.025 degrees of latitude and 0.035 of longitude of the
    default centre, a sector label Sector_1 .. Sector_50, and is fit for the
    charts. *)
Theorem demo_records_in_range (env : Env) (g : nat)
    (recs : list MeasurementRecord) :
  random_ok env ->
  generateDriveTestData env g = Ok recs ->
  Forall (fun r => demoRanges r /\ chartable r) recs.
Proof.
  intros Hr Hrun.
  destruct (generateDriveTestData_grid env g) as (recs' & Hrun' & Hgrid).
  rewrite Hrun in Hrun'. injection Hrun' as <-.
  apply demoGrid_chartable in Hgrid.
  pose proof (generateDriveTestData_Forall env _ g recs
                (fun dayIdx h gi r => demoRecord_ranges env dayIdx h gi r Hr)
                Hrun) as Hranges.
  apply List.Forall_forall. intros r Hin.
  pose proof (proj1 (List.Forall_forall _ _) Hgrid r Hin) as (Hh & Hd).
  pose proof (proj1 (List.Forall_forall _ _) Hranges r Hin) as (Hrange & Htech).
  split; [exact Hrange |].
  unfold chartable. repeat split; try assumption;
    destruct Hrange as (_ & _ & _ & _ & _ & _ & [-> | ->] & _); lia.
Qed.

Lemma demo_records_in_range_witness :
  exists recs : list MeasurementRecord,
    generateDriveTestData (envAt 0) 0 = Ok recs
    /\ Forall (fun r => demoRanges r /\ chartable r) recs.
Proof.
  eexists.
  split; [vm_compute; reflexivity |].
  eapply (demo_records_in_range (envAt 0) 0).
  - apply random_ok_envAt.
  - vm_compute. reflexivity.
Defined.

Lemma filteredData_all (st : AppState) :
  selectedTech st = "All" -> filteredData st = data st.
Proof.
  intros H. unfold filteredData. rewrite H. apply filter_all.
  apply List.Forall_forall. intros r _. reflexivity.
Qed.

Lemma filter_map_length {A B : Type} (k : A -> B) (f : B -> bool)
    (l : list A) :
  length (List.filter (fun a => f (k a)) l)
  = length (List.filter f (map k l)).
Proof.
  induction l as [| a l IH]; [reflexivity |].
  cbn [List.filter map]. destruct (f (k a)); cbn [length]; rewrite IH;
    reflexivity.
Qed.

(** X15: while the data source is the demo generator and the technology
    selector shows All, loading the demo data never ends in the error
    state, and every hourly bucket of the chart holds 31 records (one per
    day) and every daily bucket 24 (one per hour). *)
Theorem demo_buckets_are_full (env : Env) (st : AppState) (g : nat) :
  dataSource st = "synthetic" ->
  selectedTech st = "All" ->
  let st' := loadDemoData env st g in
  error st' = None
  /\ map HourBucket.count (hourlyData st') = replicate 24 31%nat
  /\ map DayBucket.totalMeasurements (dailyData st') = replicate 31 24%nat.
Proof.
  intros Hsrc Htech. cbv zeta. unfold loadDemoData. rewrite Hsrc.
  cbn [String.eqb Ascii.eqb Bool.eqb].
  destruct (generateDriveTestData_grid env g) as (recs & -> & Hgrid).
  split; [reflexivity |].
  unfold hourlyData, dailyData. rewrite filteredData_all by exact Htech.
  cbn [data]. rewrite !map_map.
  cbn [HourBucket.count hourBucket DayBucket.totalMeasurements dayBucket].
  unfold atHour, onDay.
  split.
  - transitivity
      (map (fun h => length (List.filter
                               (fun p => num_eqb (fst p) (ofZ (Z.of_nat h)))
                               demoGrid)) (seq 0 24));
      [| vm_compute; reflexivity].
    apply map_ext. intros h. rewrite <- Hgrid.
    apply (filter_map_length (fun r => (hour r, day r))
             (fun p => num_eqb (fst p) (ofZ (Z.of_nat h)))).
  - transitivity
      (map (fun d => length (List.filter
                               (fun p => num_eqb (snd p) (ofZ (Z.of_nat d + 1)))
                               demoGrid)) (seq 0 31));
      [| vm_compute; reflexivity].
    apply map_ext. intros d. rewrite <- Hgrid.
    apply (filter_map_length (fun r => (hour r, day r))
             (fun p => num_eqb (snd p) (ofZ (Z.of_nat d + 1)))).
Qed.

Lemma demo_buckets_are_full_witness :
  dataSource loadedState = "synthetic"
  /\ selectedTech loadedState = "All"
  /\ error (loadDemoData (envAt 0) loadedState 0) = None.
Proof.
  split; [reflexivity |]. split; [reflexivity |].
  exact (proj1 (demo_buckets_are_full (envAt 0) loadedState 0
                  eq_refl eq_refl)).
Defined.

(** ** Query helpers: [avg], [percentile], [groupBy] and the rankings *)




Section SortFacts.
Context {A : Type} (after : A -> A -> bool) (R : A -> A -> Prop).
Hypothesis R_trans : forall x y z : A, R x y -> R y z -> R x z.
Hypothesis after_true : forall x y : A, after x y = true -> R y x.
Hypothesis after_false : forall x y : A, after x y = false -> R x y.

Lemma insertSorted_In (x z : A) (l : list A) :
  In z (insertSorted after x l) <-> z = x \/ In z l.
Proof.
  induction l as [| y l IH]; cbn [insertSorted In]; [intuition congruence |].
  destruct (after x y); cbn [In]; [rewrite IH |]; intuition congruence.
Qed.

Lemma sortBy_In (z : A) (l : list A) : In z (sortBy after l) <-> In z l.
Proof.
  unfold sortBy. induction l as [| x l IH]; cbn [foldr In]; [tauto |].
  rewrite insertSorted_In, IH. intuition congruence.
Qed.

Lemma insertSorted_sorted (x : A) (l : list A) :
  StronglySorted R l -> StronglySorted R (insertSorted after x l).
Proof.
  induction 1 as [| y l Hs IH Hy]; cbn [insertSorted].
  - repeat constructor.
  - destruct (after x y) eqn:E.
    + constructor; [exact IH |].
      apply List.Forall_forall. intros z Hz.
      apply insertSorted_In in Hz. destruct Hz as [-> | Hz].
      * apply after_true, E.
      * exact (proj1 (List.Forall_forall _ _) Hy z Hz).
    + pose proof (after_false _ _ E) as Hxy.
      constructor; [constructor; assumption |].
      constructor; [exact Hxy |].
      eapply Forall_impl; [exact Hy |].
      intros z Hz. exact (R_trans _ _ _ Hxy Hz).
Qed.

Lemma sortBy_sorted (l : list A) : StronglySorted R (sortBy after l).
Proof.
  unfold sortBy. induction l as [| x l IH]; cbn [foldr]; [constructor |].
  apply insertSorted_sorted, IH.
Qed.

Lemma sorted_lookup (l : list A) :
  StronglySorted R l ->
  forall (i j : nat) (a b : A),
    (i < j)%nat -> l !! i = Some a -> l !! j = Some b -> R a b.
Proof.
  induction 1 as [| y l Hs IH Hy]; intros i j a b Hij Ha Hb.
  - rewrite lookup_nil in Ha. discriminate.
  - destruct j as [| j]; [lia |]. cbn in Hb.
    destruct i as [| i]; cbn in Ha.
    + injection Ha as <-.
      apply (proj1 (List.Forall_forall _ _) Hy).
      apply list_elem_of_In. eapply list_elem_of_lookup_2, Hb.
    + apply (IH i j); [lia | assumption ..].
Qed.

Lemma sorted_take (n : nat) (l : list A) :
  StronglySorted R l -> StronglySorted R (take n l).
Proof.
  intros H. revert n. induction H as [| y l Hs IH Hy]; intros [| n];
    cbn [take]; try constructor; [apply IH |].
  apply List.Forall_forall. intros z Hz.
  apply (proj1 (List.Forall_forall _ _) Hy).
  apply list_elem_of_In. apply list_elem_of_In, elem_of_take in Hz.
  destruct Hz as (i & Hi & _). eapply list_elem_of_lookup_2, Hi.
Qed.

End SortFacts.

Lemma ascending_true (a b : Q) : Qltb 0 (a - b) = true -> (b <= a)%Q.
Proof. intros H. apply Qltb_lt in H. lra. Qed.

Lemma ascending_false (a b : Q) : Qltb 0 (a - b) = false -> (a <= b)%Q.
Proof. intros H. apply Qltb_ge in H. lra. Qed.

Lemma mathRound_mono (x y : Q) : (x <= y)%Q -> mathRound x <= mathRound y.
Proof. intros H. unfold mathRound. apply Qfloor_resp_le. lra. Qed.

Lemma percentile_index (n p : Z) :
  1 <= n ->
  let idx (p : Z) :=
    Z.min (n - 1) (Z.max 0 (mathRound (inject_Z p / 100 * inject_Z (n - 1)))) in
  0 <= idx p <= n - 1
  /\ (p <= 0 -> idx p = 0)
  /\ (100 <= p -> idx p = n - 1)
  /\ forall p' : Z, p <= p' -> idx p <= idx p'.
Proof.
  intros Hn idx. unfold idx.
  assert (HN : (0 <= inject_Z (n - 1))%Q)
    by (change 0%Q with (inject_Z 0); rewrite <- Zle_Qle; lia).
  unfold Qdiv. change (/ 100)%Q with (1 # 100)%Q.
  split; [lia |]. split; [| split].
  - intros Hp.
    assert (Hq : (inject_Z p <= 0)%Q)
      by (change 0%Q with (inject_Z 0); rewrite <- Zle_Qle; lia).
    assert (Hx : (inject_Z p * (1 # 100) * inject_Z (n - 1) <= 0)%Q).
    { assert (H0 : (inject_Z p * (1 # 100) * inject_Z (n - 1)
                    <= 0 * inject_Z (n - 1))%Q)
        by (apply Qmult_le_compat_r; [lra | exact HN]).
      lra. }
    pose proof (mathRound_mono _ _ Hx) as Hr.
    change (mathRound 0) with 0 in Hr. lia.
  - intros Hp.
    assert (Hq : (100 <= inject_Z p)%Q)
      by (change 100%Q with (inject_Z 100); rewrite <- Zle_Qle; lia).
    assert (Hx : (inject_Z (n - 1) <= inject_Z p * (1 # 100) * inject_Z (n - 1))%Q).
    { assert (H1 : (1 * inject_Z (n - 1)
                    <= inject_Z p * (1 # 100) * inject_Z (n - 1))%Q)
        by (apply Qmult_le_compat_r; [lra | exact HN]).
      lra. }
    pose proof (mathRound_mono _ _ Hx) as Hr.
    assert (Hself : mathRound (inject_Z (n - 1)) = n - 1).
    { unfold mathRound. apply Z.le_antisymm.
      - apply Qfloor_upper. rewrite inject_Z_plus.
        change (inject_Z 1) with 1%Q. lra.
      - apply Qfloor_lower. lra. }
    lia.
  - intros p' Hpp.
    assert (Hq : (inject_Z p <= inject_Z p')%Q) by (rewrite <- Zle_Qle; lia).
    assert (Hx : (inject_Z p * (1 # 100) * inject_Z (n - 1)
                  <= inject_Z p' * (1 # 100) * inject_Z (n - 1))%Q)
      by (apply Qmult_le_compat_r; [lra | exact HN]).
    pose proof (mathRound_mono _ _ Hx). lia.
Qed.

(** X17: on an array with at least one finite value, [percentile] returns
    one of those values; it does not decrease when [p] grows, it is the
    smallest value for [p <= 0] and the largest for [p >= 100]. *)
Theorem percentile_is_an_order_statistic (arr : list MeasurementRecord)
    (key : MeasurementRecord -> num) (p : Z) :
  finiteValues arr key <> [] ->
  exists v : Q,
    percentile arr key p = Some v
    /\ In v (finiteValues arr key)
    /\ (forall (p' : Z) (v' : Q),
          p <= p' -> percentile arr key p' = Some v' -> (v <= v')%Q)
    /\ (p <= 0 -> Forall (fun w => (v <= w)%Q) (finiteValues arr key))
    /\ (100 <= p -> Forall (fun w => (w <= v)%Q) (finiteValues arr key)).
Proof.
  intros Hne. unfold percentile.
  set (after := fun a b : Q => Qltb 0 (a - b)).
  pose proof (sortBy_sorted after Qle Qle_trans ascending_true ascending_false
                (finiteValues arr key)) as Hsorted.
  pose proof (sortBy_length after (finiteValues arr key)) as Hlen.
  pose proof (fun z => sortBy_In after z (finiteValues arr key)) as Hin.
  set (vals := sortBy after (finiteValues arr key)) in *.
  assert (Hn : 1 <= Z.of_nat (length vals)).
  { rewrite Hlen. destruct (finiteValues arr key); [contradiction | cbn; lia]. }
  pose (idx := fun p : Z =>
                 Z.min (Z.of_nat (length vals) - 1)
                   (Z.max 0 (mathRound (inject_Z p / 100
                                        * inject_Z (Z.of_nat (length vals) - 1))))).
  assert (Hidx : 0 <= idx p <= Z.of_nat (length vals) - 1
                 /\ (p <= 0 -> idx p = 0)
                 /\ (100 <= p -> idx p = Z.of_nat (length vals) - 1)
                 /\ forall p' : Z, p <= p' -> idx p <= idx p')
    by exact (percentile_index (Z.of_nat (length vals)) p Hn).
  destruct Hidx as (Hrange & Hlow & Hhigh & Hmono).
  assert (Hshape : forall p0 : Z,
             match vals with
             | [] => Some 0%Q
             | _ :: _ => vals !! Z.to_nat (idx p0)
             end = vals !! Z.to_nat (idx p0)).
  { intros p0. destruct vals; [cbn in Hn; lia | reflexivity]. }
  change (exists v : Q,
             match vals with
             | [] => Some 0%Q
             | _ :: _ => vals !! Z.to_nat (idx p)
             end = Some v
             /\ In v (finiteValues arr key)
             /\ (forall (p' : Z) (v' : Q),
                   p <= p' ->
                   match vals with
                   | [] => Some 0%Q
                   | _ :: _ => vals !! Z.to_nat (idx p')
                   end = Some v' -> (v <= v')%Q)
             /\ (p <= 0 -> Forall (fun w => (v <= w)%Q) (finiteValues arr key))
             /\ (100 <= p
                 -> Forall (fun w => (w <= v)%Q) (finiteValues arr key))).
  rewrite Hshape.
  destruct (lookup_lt_is_Some_2 vals (Z.to_nat (idx p)) ltac:(lia)) as [v Hv].
  assert (Hle : forall (i j : nat) (a b : Q),
             (i <= j)%nat -> vals !! i = Some a -> vals !! j = Some b ->
             (a <= b)%Q).
  { intros i j a b Hij Ha Hb.
    destruct (Nat.eq_dec i j) as [-> | Hneq].
    - rewrite Ha in Hb. injection Hb as <-. apply Qle_refl.
    - apply (sorted_lookup Qle vals Hsorted i j); [lia | assumption ..]. }
  exists v. split; [exact Hv |].
  split; [apply Hin, list_elem_of_In; eapply list_elem_of_lookup_2, Hv |].
  split; [| split].
  - intros p' v' Hpp Hv'. rewrite Hshape in Hv'.
    apply (Hle (Z.to_nat (idx p)) (Z.to_nat (idx p'))); [| assumption ..].
    pose proof (Hmono p' Hpp). lia.
  - intros Hp. apply List.Forall_forall. intros w Hw.
    apply Hin, list_elem_of_In, list_elem_of_lookup_1 in Hw.
    destruct Hw as [j Hj].
    apply (Hle (Z.to_nat (idx p)) j); [| assumption ..].
    rewrite (Hlow Hp). lia.
  - intros Hp. apply List.Forall_forall. intros w Hw.
    apply Hin, list_elem_of_In, list_elem_of_lookup_1 in Hw.
    destruct Hw as [j Hj].
    apply (Hle j (Z.to_nat (idx p))); [| assumption ..].
    apply lookup_lt_Some in Hj. rewrite (Hhigh Hp). lia.
Qed.

Lemma percentile_is_an_order_statistic_witness :
  finiteValues fiveRecords throughput <> []
  /\ exists v : Q,
       percentile fiveRecords throughput 50 = Some v
       /\ In v (finiteValues fiveRecords throughput).
Proof.
  assert (Hne : finiteValues fiveRecords throughput <> []) by discriminate.
  split; [exact Hne |].
  destruct (percentile_is_an_order_statistic fiveRecords throughput 50 Hne)
    as (v & Hv & Hin & _).
  exists v. split; assumption.
Defined.

Lemma ownProperty_In (m : Groups) (k : string) (rs : list MeasurementRecord) :
  ownProperty m k = Some rs -> In (k, rs) m.
Proof.
  induction m as [| [k' rows] m IH]; cbn [ownProperty In]; [discriminate |].
  destruct (String.eqb_spec k k') as [-> | Hne].
  - intros H. injection H as ->. left. reflexivity.
  - intros H. right. exact (IH H).
Qed.

Lemma ownProperty_None (m : Groups) (k : string) :
  ownProperty m k = None -> ~ In k (map fst m).
Proof.
  induction m as [| [k' rows] m IH]; cbn [ownProperty map In fst]; [tauto |].
  destruct (String.eqb_spec k k') as [-> | Hne]; [discriminate |].
  intros H [E | Hin]; [congruence | exact (IH H Hin)].
Qed.

Lemma ownProperty_unique (m : Groups) (k : string)
    (rs : list MeasurementRecord) :
  NoDup (map fst m) -> In (k, rs) m -> ownProperty m k = Some rs.
Proof.
  induction m as [| [k' rows] m IH]; cbn [ownProperty map In fst];
    [tauto |].
  intros Hnd [E | Hin].
  - injection E as -> ->. rewrite String.eqb_refl. reflexivity.
  - apply NoDup_cons in Hnd as [Hk Hnd].
    destruct (String.eqb_spec k k') as [-> | Hne]; [| exact (IH Hnd Hin)].
    exfalso. apply Hk. apply list_elem_of_In.
    change k' with (fst (k', rs)). apply in_map, Hin.
Qed.

Lemma ownProperty_pushTo (m : Groups) (k k' : string) (r : MeasurementRecord) :
  ownProperty (pushTo m k r) k'
  = if String.eqb k' k
    then option_map (fun rs => rs ++ [r])%list (ownProperty m k)
    else ownProperty m k'.
Proof.
  induction m as [| [ke rows] m IH]; cbn [pushTo ownProperty option_map].
  - destruct (String.eqb k' k); reflexivity.
  - destruct (String.eqb_spec k ke) as [-> | Hne]; cbn [ownProperty].
    + destruct (String.eqb_spec k' ke) as [-> | Hne']; reflexivity.
    + rewrite IH.
      destruct (String.eqb_spec k' ke) as [-> | Hne'];
        [| reflexivity].
      destruct (String.eqb_spec ke k) as [-> | _]; [contradiction |].
      reflexivity.
Qed.

Lemma ownProperty_app (m : Groups) (k k' : string)
    (rs : list MeasurementRecord) :
  ownProperty (m ++ [(k, rs)]) k'
  = match ownProperty m k' with
    | Some found => Some found
    | None => if String.eqb k' k then Some rs else None
    end.
Proof.
  induction m as [| [ke rows] m IH]; cbn [app ownProperty]; [reflexivity |].
  destruct (String.eqb k' ke); [reflexivity | exact IH].
Qed.

Lemma pushTo_keys (m : Groups) (k : string) (r : MeasurementRecord) :
  map fst (pushTo m k r) = map fst m.
Proof.
  induction m as [| [ke rows] m IH]; cbn [pushTo map fst]; [reflexivity |].
  destruct (String.eqb k ke); cbn [map fst]; [reflexivity |].
  rewrite IH. reflexivity.
Qed.


Section GroupFacts.
Variable env : Env.

Lemma groupByFrom_lookup (arr : list MeasurementRecord) :
  forall m m' : Groups,
    groupByFrom env m arr = Ok m' ->
    forall k : string,
      ownProperty m' k
      = match ownProperty m k, sectorOf env k arr with
        | Some rs, found => Some (rs ++ found)%list
        | None, [] => None
        | None, found => Some found
        end.
Proof.
  induction arr as [| r arr IH]; intros m m' Hrun k.
  - cbn [groupByFrom] in Hrun. apply Ok_inj in Hrun. subst m'.
    cbn [sectorOf List.filter].
    destruct (ownProperty m k); [rewrite app_nil_r |]; reflexivity.
  - cbn [groupByFrom] in Hrun. unfold groupStep in Hrun.
    unfold sectorOf. cbn [List.filter]. fold (sectorOf env k arr).
    destruct (ownProperty m (locationKey env r)) as [rs0 |] eqn:Eown;
      cbn [mbind result_bind] in Hrun.
    + rewrite (IH _ _ Hrun k), ownProperty_pushTo.
      rewrite (String.eqb_sym (locationKey env r) k).
      destruct (String.eqb_spec k (locationKey env r)) as [-> | Hne].
      * rewrite Eown. cbn [option_map]. rewrite <- app_assoc. reflexivity.
      * reflexivity.
    + destruct (inheritedKey (locationKey env r));
        cbn [mbind result_bind] in Hrun; [discriminate |].
      rewrite (IH _ _ Hrun k), ownProperty_app.
      rewrite (String.eqb_sym (locationKey env r) k).
      destruct (String.eqb_spec k (locationKey env r)) as [-> | Hne].
      * rewrite Eown. reflexivity.
      * destruct (ownProperty m k); reflexivity.
Qed.

Lemma groupByFrom_keys (arr : list MeasurementRecord) :
  forall m m' : Groups,
    groupByFrom env m arr = Ok m' ->
    NoDup (map fst m) ->
    Forall (fun k => inheritedKey k = false) (map fst m) ->
    NoDup (map fst m')
    /\ Forall (fun k => inheritedKey k = false) (map fst m')
    /\ ownKeysOnly env arr.
Proof.
  unfold ownKeysOnly.
  induction arr as [| r arr IH]; intros m m' Hrun Hnd Hown.
  - cbn [groupByFrom] in Hrun. apply Ok_inj in Hrun. subst m'.
    repeat split; try assumption. constructor.
  - cbn [groupByFrom] in Hrun. unfold groupStep in Hrun.
    destruct (ownProperty m (locationKey env r)) as [rs0 |] eqn:Eown;
      cbn [mbind result_bind] in Hrun.
    + destruct (IH _ _ Hrun) as (H1 & H2 & H3);
        try (rewrite pushTo_keys; assumption).
      repeat split; try assumption. constructor; [| exact H3].
      apply ownProperty_In in Eown.
      apply (proj1 (List.Forall_forall _ _) Hown).
      change (locationKey env r) with (fst (locationKey env r, rs0)).
      apply in_map, Eown.
    + destruct (inheritedKey (locationKey env r)) eqn:Einh;
        cbn [mbind result_bind] in Hrun; [discriminate |].
      destruct (IH _ _ Hrun) as (H1 & H2 & H3).
      * rewrite map_app. cbn [map fst]. apply NoDup_app.
        split; [exact Hnd |]. split; [| apply NoDup_singleton].
        intros k Hk Hk'. apply list_elem_of_In in Hk.
        apply list_elem_of_In in Hk'. destruct Hk' as [<- | []].
        exact (ownProperty_None _ _ Eown Hk).
      * rewrite map_app. apply List.Forall_app. split; [exact Hown |].
        repeat constructor. exact Einh.
      * repeat split; try assumption. constructor; assumption.
Qed.

Lemma groupBy_invariants (arr : list MeasurementRecord) (m : Groups) :
  groupBy env arr = Ok m ->
  NoDup (map fst m)
  /\ ownKeysOnly env arr
  /\ forall k : string,
       ownProperty m k
       = match sectorOf env k arr with [] => None | found => Some found end.
Proof.
  intros Hrun. unfold groupBy in Hrun.
  destruct (groupByFrom_keys arr [] m Hrun) as (H1 & _ & H3);
    [constructor | constructor |].
  split; [exact H1 |]. split; [exact H3 |].
  intros k. rewrite (groupByFrom_lookup arr [] m Hrun k). reflexivity.
Qed.

End GroupFacts.

(** X18: [groupBy] returns an object exactly when no record's sector is
    named like a property of [Object.prototype]; with such a sector it
    throws, wherever the record stands in the array. *)
Theorem groupBy_returns_iff_own_keys (env : Env)
    (arr : list MeasurementRecord) :
  (exists m : Groups, groupBy env arr = Ok m) <-> ownKeysOnly env arr.
Proof.
  split.
  - intros [m Hrun]. exact (proj1 (proj2 (groupBy_invariants env arr m Hrun))).
  - intros H. exact (groupByFrom_ok env arr H []).
Qed.

(** X19: the object [groupBy] returns has one property per sector that
    occurs, and the value of property [k] is the list of the records of
    sector [k], in their order in the array; a sector that does not occur
    has no property. *)
Theorem groupBy_groups (env : Env) (arr : list MeasurementRecord)
    (m : Groups) :
  groupBy env arr = Ok m ->
  NoDup (map fst m)
  /\ forall k : string,
       ownProperty m k
       = match sectorOf env k arr with [] => None | found => Some found end.
Proof.
  intros Hrun. destruct (groupBy_invariants env arr m Hrun) as (H1 & _ & H3).
  split; assumption.
Qed.

Lemma groupBy_groups_witness :
  exists m : Groups,
    groupBy (envAt 0) fiveRecords = Ok m
    /\ ownProperty m "A" = Some (sectorOf (envAt 0) "A" fiveRecords).
Proof.
  eexists. split; [vm_compute; reflexivity |].
  refine (proj2 (groupBy_groups (envAt 0) fiveRecords _ _) "A").
  vm_compute. reflexivity.
Defined.

Lemma objectEntries_In (m : Groups) (e : string * list MeasurementRecord) :
  In e (objectEntries m) -> In e m.
Proof.
  unfold objectEntries. intros H. apply in_app_or in H as [H | H].
  - apply in_map_iff in H as ([n e'] & He & H). cbn [snd] in He. subst e'.
    apply sortBy_In, list_elem_of_In, list_elem_of_omap in H.
    destruct H as (y & Hy & Hf). apply list_elem_of_In in Hy.
    destruct (arrayIndex (fst y)); cbn in Hf; [| discriminate].
    injection Hf as _ <-. exact Hy.
  - apply filter_In in H. exact (proj1 H).
Qed.

Lemma rankedBefore_trans (descending : bool) (x y z : string * Q) :
  rankedBefore descending x y -> rankedBefore descending y z ->
  rankedBefore descending x z.
Proof. unfold rankedBefore. destruct descending; intros; lra. Qed.

(** X20: a ranking of sectors has at most [k] lines, shows the better mean
    first for "top" and the worse mean first for "bottom", and every line
    names a sector that occurs in the selection together with the mean
    throughput of that sector's records. *)
Theorem rankSectors_ranking (env : Env) (subset : list MeasurementRecord)
    (descending : bool) (k : Z) (rows : list (string * Q)) :
  rankSectors env subset descending k = Ok rows ->
  (length rows <= Z.to_nat k)%nat
  /\ StronglySorted (rankedBefore descending) rows
  /\ Forall (fun line =>
               sectorOf env (fst line) subset <> []
               /\ snd line = avg (sectorOf env (fst line) subset) throughput)
            rows.
Proof.
  unfold rankSectors.
  destruct (groupBy env subset) as [byLoc | msg] eqn:Hgroup;
    cbn [mbind result_bind]; [| discriminate].
  intros H. apply Ok_inj in H. subst rows.
  destruct (groupBy_invariants env subset byLoc Hgroup) as (Hnd & _ & Hlook).
  set (after := fun a b : string * Q =>
                  if descending then Qltb 0 (snd b - snd a)
                  else Qltb 0 (snd a - snd b)).
  set (lines := map (fun e => (fst e, avg (snd e) throughput))
                    (objectEntries byLoc)).
  split; [apply firstn_le_length |].
  split.
  - apply sorted_take, (sortBy_sorted after).
    + apply rankedBefore_trans.
    + intros x y. unfold after, rankedBefore.
      destruct descending; intros E; apply Qltb_lt in E; lra.
    + intros x y. unfold after, rankedBefore.
      destruct descending; intros E; apply Qltb_ge in E; lra.
  - apply List.Forall_forall. intros line Hline.
    apply list_elem_of_In, elem_of_take in Hline.
    destruct Hline as (i & Hi & _).
    apply list_elem_of_lookup_2, list_elem_of_In, sortBy_In in Hi.
    unfold lines in Hi. apply in_map_iff in Hi as ([loc rs] & <- & He).
    cbn [fst snd].
    apply objectEntries_In, (ownProperty_unique _ _ _ Hnd) in He.
    rewrite Hlook in He.
    destruct (sectorOf env loc subset) as [| r found]; [discriminate |].
    injection He as <-. split; [discriminate | reflexivity].
Qed.

Lemma rankSectors_ranking_witness :
  exists rows : list (string * Q),
    rankSectors (envAt 0) fiveRecords true 3 = Ok rows
    /\ (length rows <= Z.to_nat 3)%nat
    /\ StronglySorted (rankedBefore true) rows.
Proof.
  eexists. split; [vm_compute; reflexivity |].
  pose proof (rankSectors_ranking (envAt 0) fiveRecords true 3) as H.
  edestruct H as (Hlen & Hsorted & _).
  - vm_compute. reflexivity.
  - split; [exact Hlen | exact Hsorted].
Defined.

Lemma filter_is_sublist {A : Type} (f : A -> bool) (l : list A) :
  sublist (List.filter f l) l.
Proof.
  induction l as [| x l IH]; cbn [List.filter]; [constructor |].
  destruct (f x); constructor; exact IH.
Qed.

Lemma hourFilter_sublist (q : string) (l : list MeasurementRecord) :
  sublist (hourFilter q l) l.
Proof.
  unfold hourFilter.
  repeat match goal with
  | |- context [match ?c with _ => _ end] => destruct c
  end; try apply filter_is_sublist; reflexivity.
Qed.

Lemma dayFilter_sublist (q : string) (l : list MeasurementRecord) :
  sublist (dayFilter q l) l.
Proof.
  unfold dayFilter. destruct (regexMatch q dayRe);
    [apply filter_is_sublist | reflexivity].
Qed.

Lemma sublist_Forall_keeps {A : Type} (P : A -> Prop) (l k : list A) :
  sublist l k -> Forall P k -> Forall P l.
Proof.
  induction 1 as [| x l k _ IH | x l k _ IH]; intros Hk.
  - constructor.
  - apply Forall_cons in Hk as [Hx Hk]. constructor; [exact Hx | exact (IH Hk)].
  - apply Forall_cons in Hk as [_ Hk]. exact (IH Hk).
Qed.

Lemma byTechnology_Forall (tech : string) (rows : list MeasurementRecord) :
  Forall (fun r => technology r = tech) (byTechnology tech rows).
Proof.
  unfold byTechnology. eapply Forall_impl; [apply filter_passes |].
  intros r Hr. cbv beta in Hr. apply String.eqb_eq in Hr. exact Hr.
Qed.

Lemma techFilter_sublist (st : AppState) (q : string) :
  sublist (techFilter st q) (data st).
Proof.
  unfold techFilter, byTechnology, filteredData.
  repeat match goal with
  | |- context [if ?c then _ else _] => destruct c
  end; try apply filter_is_sublist; reflexivity.
Qed.

Lemma selectSubset_sublist (st : AppState) (q : string) :
  sublist (selectSubset st q) (data st).
Proof.
  unfold selectSubset.
  etransitivity; [apply dayFilter_sublist |].
  etransitivity; [apply hourFilter_sublist | apply techFilter_sublist].
Qed.

(** X21: the rows a question is answered from are always rows of the
    dataset, in dataset order.  A technology named in the question
    overrides the selector: with a 5G cue (" 5g", a leading "5g", " nr")
    they are all 5G, whatever the selector shows and even when the question
    names 4G as well; otherwise with a 4G cue (" 4g", a leading "4g",
    " lte") they are all 4G; without a cue they all have the selector's
    technology unless it shows All. *)
Theorem question_technology_overrides_selector (st : AppState) (q : string) :
  let cue5 := includes q " 5g" || startsWith q "5g" || includes q " nr" in
  let cue4 := includes q " 4g" || startsWith q "4g" || includes q " lte" in
  sublist (selectSubset st q) (data st)
  /\ (cue5 = true ->
      Forall (fun r => technology r = "5G") (selectSubset st q))
  /\ (cue5 = false -> cue4 = true ->
      Forall (fun r => technology r = "4G") (selectSubset st q))
  /\ (cue5 = false -> cue4 = false -> selectedTech st <> "All" ->
      Forall (fun r => technology r = selectedTech st) (selectSubset st q)).
Proof.
  cbv zeta.
  assert (Hsub : sublist (selectSubset st q) (techFilter st q)).
  { unfold selectSubset. etransitivity;
      [apply dayFilter_sublist | apply hourFilter_sublist]. }
  split.
  - apply selectSubset_sublist.
  - split; [| split].
    + intros H5. apply (sublist_Forall_keeps _ _ _ Hsub).
      unfold techFilter. rewrite H5. apply byTechnology_Forall.
    + intros H5 H4. apply (sublist_Forall_keeps _ _ _ Hsub).
      unfold techFilter. rewrite H5, H4. apply byTechnology_Forall.
    + intros H5 H4 Hsel. apply (sublist_Forall_keeps _ _ _ Hsub).
      unfold techFilter. rewrite H5, H4.
      destruct (String.eqb_spec (selectedTech st) "All") as [E | _];
        [contradiction |].
      cbn [negb]. unfold filteredData.
      eapply Forall_impl; [apply filter_passes |].
      intros r Hr. cbv beta in Hr.
      destruct (String.eqb_spec (selectedTech st) "All") as [E | _];
        [contradiction |].
      cbn [orb] in Hr. apply String.eqb_eq in Hr. exact Hr.
Qed.

(** ** Query engine: when it throws *)

Lemma groupByFrom_throws (env : Env) (arr : list MeasurementRecord) :
  forall (m : Groups) (message : string),
    groupByFrom env m arr = Throw message ->
    message = "(intermediate value).push is not a function"
    /\ exists r : MeasurementRecord,
         In r arr /\ inheritedKey (locationKey env r) = true.
Proof.
  induction arr as [| r arr IH]; intros m message Hrun;
    cbn [groupByFrom] in Hrun; [discriminate |].
  unfold groupStep in Hrun.
  destruct (ownProperty m (locationKey env r)); cbn [mbind result_bind] in Hrun.
  - destruct (IH _ _ Hrun) as (Hm & r' & Hin & Hr').
    split; [exact Hm |]. exists r'. split; [right; exact Hin | exact Hr'].
  - destruct (inheritedKey (locationKey env r)) eqn:E;
      cbn [mbind result_bind] in Hrun.
    + injection Hrun as <-. split; [reflexivity |].
      exists r. split; [left; reflexivity | exact E].
    + destruct (IH _ _ Hrun) as (Hm & r' & Hin & Hr').
      split; [exact Hm |]. exists r'. split; [right; exact Hin | exact Hr'].
Qed.

Lemma rankSectors_throws (env : Env) (subset : list MeasurementRecord)
    (descending : bool) (k : Z) (A : Type) (cont : list (string * Q) -> result A)
    (message : string) :
  (forall rows, exists a, cont rows = Ok a) ->
  (rows ← rankSectors env subset descending k; cont rows) = Throw message ->
  message = "(intermediate value).push is not a function"
  /\ exists r : MeasurementRecord,
       In r subset /\ inheritedKey (locationKey env r) = true.
Proof.
  intros Hcont. unfold rankSectors, groupBy.
  destruct (groupByFrom env [] subset) as [byLoc | msg] eqn:G;
    cbn [mbind result_bind].
  - match goal with |- cont ?rows = _ -> _ => destruct (Hcont rows) as [a ->] end.
    discriminate.
  - intros H. injection H as <-. exact (groupByFrom_throws env subset [] msg G).
Qed.

(** X22: the query engine throws only while it ranks sectors: when
    [askLocalAI] throws, the question is one that reaches the top-N or the
    bottom-N intent, one of the selected rows has a sector named like a
    property of [Object.prototype], and the exception is the [TypeError] of
    [groupBy].  The percentile and worst-RSRP intents never read past the
    rows they are given. *)
Theorem askLocalAI_throws_only_while_ranking (env : Env) (st : AppState)
    (question message : string) :
  askLocalAI env st question = Throw message ->
  let q := toLowerCase question in
  (is_Some (regexMatch q (sectorsRe "top"))
   \/ is_Some (regexMatch q (sectorsRe "bottom")))
  /\ (exists r : MeasurementRecord,
        In r (selectSubset st q)
        /\ inheritedKey (locationKey env r) = true)
  /\ message = "(intermediate value).push is not a function".
Proof.
  intros H. cbv zeta.
  destruct (selectSubset st (toLowerCase question)) as [| r0 rest] eqn:E.
  - rewrite (askLocalAI_no_rows env) in H by exact E. discriminate.
  - rewrite (askLocalAI_some_rows env) in H by (rewrite E; discriminate).
    rewrite E in H. unfold dispatch in H.
    repeat match type of H with
    | (if ?c then _ else _) = _ => destruct c eqn:?
    end; try discriminate.
    + apply rankSectors_throws in H; [| eauto].
      destruct H as (Hm & Hr). split; [| split; assumption].
      left. eapply bool_decide_eq_true_1. eassumption.
    + apply rankSectors_throws in H; [| eauto].
      destruct H as (Hm & Hr). split; [| split; assumption].
      right. eapply bool_decide_eq_true_1. eassumption.
    + destruct (percentile_defined (r0 :: rest) throughput
                  (requestedPercentile (toLowerCase question))) as [val Hval].
      rewrite Hval in H. discriminate.
    + pose proof (sortBy_length
                    (fun a b => positive (num_sub (rsrp a) (rsrp b)))
                    (r0 :: rest)) as Hlen.
      destruct (sortBy _ (r0 :: rest)) as [| worst others];
        [discriminate Hlen | discriminate H].
Qed.

Lemma askLocalAI_throws_only_while_ranking_witness :
  exists r : MeasurementRecord,
    askLocalAI (envAt 0) (stateOf [sampleRecord "toString" "5G" 10 80])
      "Top 3 sectors by throughput"
    = Throw "(intermediate value).push is not a function"
    /\ In r (selectSubset (stateOf [sampleRecord "toString" "5G" 10 80])
               (toLowerCase "Top 3 sectors by throughput"))
    /\ inheritedKey (locationKey (envAt 0) r) = true.
Proof.
  assert (H : askLocalAI (envAt 0)
                (stateOf [sampleRecord "toString" "5G" 10 80])
                "Top 3 sectors by throughput"
              = Throw "(intermediate value).push is not a function")
    by (vm_compute; reflexivity).
  destruct (askLocalAI_throws_only_while_ranking _ _ _ _ H)
    as (_ & (r & Hin & Hr) & _).
  exists r. split; [exact H |]. split; assumption.
Defined.

(** ** Ingestion: the outcomes of [applyCsvData] *)

(** X23: with a file chosen, [applyCsvData] always ends with the loading
    flag cleared, and it ends without an error exactly when the parser
    reports at least one row; then the data source is "csv" and the dataset
    is non-empty and fit for the charts.  Every error leaves the data
    source as it was, and the error "No valid data could be processed from
    CSV" never occurs. *)
Theorem applyCsvData_outcomes (env : Env) (st : AppState) (g : nat)
    (file : CsvFile) :
  csvFile st = Some file ->
  let st' := applyCsvData env st g in
  isLoading st' = false
  /\ (error st' = None
      <-> exists (row : Row) (rows : list Row),
            file = Complete (Some (row :: rows)))
  /\ (error st' = None ->
      dataSource st' = "csv" /\ data st' <> []
      /\ Forall chartable (data st'))
  /\ (error st' <> None -> dataSource st' = dataSource st)
  /\ error st'
     <> Some "Failed to process CSV: No valid data could be processed from CSV".
Proof.
  intros Hfile. cbv zeta. unfold applyCsvData. rewrite Hfile.
  destruct file as [[[| row rows] |] | message]; cbn [ingest].
  - repeat split; try discriminate; try (intros; congruence).
    intros (row & rows & H). discriminate.
  - unfold ingest.
    destruct (processRows_spec env (fieldMapping st) (row :: rows) 0 g)
      as (recs & g' & Hrun & Hlen & _).
    unfold processCsvData. rewrite Hrun. cbn [mbind result_bind].
    destruct recs as [| r recs]; [discriminate Hlen |].
    cbn [isLoading error dataSource data].
    split; [reflexivity |].
    split; [split; [intros _; eauto | reflexivity] |].
    split; [| split; [intros H; exfalso; apply H; reflexivity | discriminate]].
    intros _. split; [reflexivity |]. split; [discriminate |].
    apply (processCsvData_Forall env chartable (row :: rows) (fieldMapping st)
             g (r :: recs) g'); [apply processRow_chartable | exact Hrun].
  - repeat split; try discriminate; try (intros; congruence).
    intros (row & rows & H). discriminate.
  - cbn [isLoading error dataSource data].
    repeat split; try discriminate; try (intros; congruence).
    intros (row & rows & H). discriminate.
Qed.

Lemma applyCsvData_outcomes_witness :
  csvFile surveyState = Some (Complete (Some [surveyRow 42]))
  /\ isLoading (applyCsvData (envAt 0) surveyState 0) = false
  /\ error (applyCsvData (envAt 0) surveyState 0) = None.
Proof.
  split; [reflexivity |].
  destruct (applyCsvData_outcomes (envAt 0) surveyState 0
              (Complete (Some [surveyRow 42])) eq_refl)
    as (Hloading & Herror & _).
  split; [exact Hloading |]. apply Herror. eauto.
Defined.

(** ** RecordNormalizer: the synthesised day and the time zone *)

Lemma august_day (k : Z) :
  0 <= k <= 30 -> snd (civilFromDays (20301 + k)) = k + 1.
Proof.
  intros Hk. rewrite <- (Z2Nat.id k) by lia.
  assert (Hn : (Z.to_nat k < 31)%nat) by lia.
  revert Hn. generalize (Z.to_nat k). intros n Hn.
  do 31 (destruct n as [| n]; [vm_compute; reflexivity |]). lia.
Qed.

Lemma fallbackTimestamp_day (env : Env) (index : nat) :
  -1440 <= tzMinutes env <= 1440 ->
  getDate env (fallbackTimestamp env index)
  = ofZ (snd (civilFromDays ((1754006400000 + localTZA env) / msPerDay
                             + Z.of_nat index / 24))).
Proof.
  intros Htz. rewrite (fallbackTimestamp_value env index Htz).
  cbn [getDate]. unfold dateOf, localTime. do 3 f_equal.
  pose proof (Z.mod_pos_bound (Z.of_nat index) 24 ltac:(lia)) as Hh.
  set (d := (1754006400000 + localTZA env) / msPerDay + Z.of_nat index / 24).
  replace (d * msPerDay + Z.of_nat index mod 24 * msPerHour - localTZA env
           + localTZA env)
    with (Z.of_nat index mod 24 * msPerHour + d * msPerDay) by lia.
  rewrite Z.div_add by (unfold msPerDay; lia).
  rewrite Z.div_small by (unfold msPerHour, msPerDay; lia). lia.
Qed.

(** X24: the day of a row without a usable time cell depends on the time
    zone of the browser.  In a zone at or east of UTC (less than a day
    ahead) row [i] of the first 744 gets day [i / 24 + 1]; in a zone west
    of UTC the synthesised date starts on 31 July, so the first 24 rows get
    day 31 and row [i] after them gets day [i / 24]. *)
Theorem synthesised_day_depends_on_zone (env : Env) (rows : list Row)
    (mapping : Mapping.t) (g : nat) (recs : list MeasurementRecord) (g' : nat)
    (i : nat) (r : MeasurementRecord) (row : Row) :
  processCsvData env rows mapping g = Ok (recs, g') ->
  recs !! i = Some r ->
  rows !! i = Some row ->
  usableTimestamp env mapping row = false ->
  (i < 744)%nat ->
  (0 <= tzMinutes env < 1440 -> day r = ofZ (Z.of_nat i / 24 + 1))
  /\ (-1440 <= tzMinutes env < 0 ->
      day r = ofZ (if Z.of_nat i <? 24 then 31 else Z.of_nat i / 24)).
Proof.
  intros Hrun Hr Hrow Hts Hi.
  destruct (processCsvData_lookup env rows mapping g recs g' i r Hrun Hr)
    as (row' & gi & gi' & Hrow' & Hp).
  assert (row' = row) by congruence. subst row'.
  apply processRow_inv in Hp. cbv zeta in Hp.
  destruct Hp as (_ & _ & _ & Hday & _).
  rewrite (resolveTimestamp_fallback _ _ _ _ Hts) in Hday.
  assert (Hk : 0 <= Z.of_nat i / 24 <= 30).
  { split; [apply Z.div_pos; lia |].
    apply Z.lt_succ_r, Z.div_lt_upper_bound; lia. }
  split; intros Htz; rewrite Hday, fallbackTimestamp_day by lia; f_equal.
  - replace ((1754006400000 + localTZA env) / msPerDay) with 20301.
    + apply august_day, Hk.
    + unfold localTZA, msPerMinute, msPerDay.
      apply Z.div_unique with (r := tzMinutes env * 60000); lia.
  - replace ((1754006400000 + localTZA env) / msPerDay) with 20300.
    + destruct (Z.ltb_spec (Z.of_nat i) 24) as [Hlt | Hge].
      * rewrite Z.div_small by lia. vm_compute. reflexivity.
      * replace (20300 + Z.of_nat i / 24)
          with (20301 + (Z.of_nat i / 24 - 1)) by lia.
        assert (1 <= Z.of_nat i / 24)
          by (apply Z.div_le_lower_bound; lia).
        rewrite august_day by lia. lia.
    + unfold localTZA, msPerMinute, msPerDay.
      apply Z.div_unique with (r := 86400000 + tzMinutes env * 60000); lia.
Qed.

Lemma synthesised_day_depends_on_zone_witness :
  exists (recs : list MeasurementRecord) (g' : nat) (r : MeasurementRecord),
    processCsvData (envAt (-300)) (replicate 30 ∅) Mapping.empty 0
    = Ok (recs, g')
    /\ recs !! 5%nat = Some r
    /\ day r = ofZ 31.
Proof.
  eexists _, _, _.
  split; [vm_compute; reflexivity |].
  split; [reflexivity |].
  pose proof (synthesised_day_depends_on_zone (envAt (-300))
                (replicate 30 ∅) Mapping.empty 0) as H.
  edestruct H with (i := 5%nat) (row := (∅ : Row)) as [_ Hwest].
  - vm_compute. reflexivity.
  - reflexivity.
  - reflexivity.
  - reflexivity.
  - lia.
  - apply Hwest. cbn. lia.
Defined.

(** ** From the headers to the map: detected coordinate columns *)

Lemma patterns_not_empty :
  Forall (fun p => str_truthy p = true) (latPatterns ++ lngPatterns)%list.
Proof. apply List.Forall_forall. vm_compute. intuition (subst; reflexivity). Qed.

Lemma isValidCoordinate_parsed (lat lng : jsval) :
  isValidCoordinate (Some (CNum (parseFloat lat))) (Some (CNum (parseFloat lng)))
  = isValidCoordinate lat lng.
Proof. reflexivity. Qed.

Lemma isValidCoordinate_defined (lat lng : jsval) :
  isValidCoordinate lat lng = true -> defined lat = true /\ defined lng = true.
Proof.
  intros H. apply isValidCoordinate_finite in H.
  destruct H as (x & y & Hx & Hy).
  destruct lat, lng; try discriminate; split; reflexivity.
Qed.

(** X25: when [detectCoordinateColumns] finds a latitude and a longitude
    column among the headers and a row holds a pair that
    [isValidCoordinate] accepts in those columns, the record that
    normalisation under the proposed mapping makes of the row keeps that
    position as parsed, neither rounded nor moved. *)
Theorem detected_coordinates_are_kept (env : Env) (headers : list string)
    (rows : list Row) (g : nat) (recs : list MeasurementRecord) (g' : nat)
    (i : nat) (r : MeasurementRecord) (row : Row) (latCol lngCol : string) :
  detectCoordinateColumns headers = (Some latCol, Some lngCol) ->
  processCsvData env rows (autoMapping headers) g = Ok (recs, g') ->
  recs !! i = Some r ->
  rows !! i = Some row ->
  isValidCoordinate (rowGet row latCol) (rowGet row lngCol) = true ->
  lat r = parseFloat (rowGet row latCol)
  /\ lon r = parseFloat (rowGet row lngCol).
Proof.
  intros Hdetect Hrun Hr Hrow Hvalid.
  destruct (autoMapping_fields headers)
    as (_ & _ & _ & _ & _ & _ & _ & Hlat & Hlng).
  rewrite Hdetect in Hlat, Hlng.
  change (Mapping.latitude (autoMapping headers) = latCol) in Hlat.
  change (Mapping.longitude (autoMapping headers) = lngCol) in Hlng.
  assert (Hne : str_truthy latCol = true /\ str_truthy lngCol = true).
  { unfold detectCoordinateColumns in Hdetect. injection Hdetect as H1 H2.
    apply (proj1 (find_header headers latPatterns)) in H1 as [_ H1].
    apply (proj1 (find_header headers lngPatterns)) in H2 as [_ H2].
    pose proof (proj1 (List.Forall_forall _ _) patterns_not_empty) as Hp.
    split; apply Hp, in_or_app; [left | right]; assumption. }
  destruct Hne as [Hne1 Hne2].
  destruct (isValidCoordinate_defined _ _ Hvalid) as [Hd1 Hd2].
  destruct (processCsvData_lookup env rows (autoMapping headers) g recs g' i r
              Hrun Hr) as (row' & gi & gi' & Hrow' & Hp).
  assert (row' = row) by congruence. subst row'.
  apply processRow_inv in Hp. cbv zeta in Hp.
  destruct Hp as (_ & _ & _ & _ & _ & _ & _ & _ & _ & _ & _ & Hco & _).
  unfold resolveCoordinates, mappedCoordinates in Hco.
  rewrite Hlat, Hlng, Hne1, Hne2, Hd1, Hd2 in Hco. cbn [andb] in Hco.
  rewrite isValidCoordinate_parsed, Hvalid in Hco.
  injection Hco as <- <- _. split; reflexivity.
Qed.

Lemma detected_coordinates_are_kept_witness :
  exists (recs : list MeasurementRecord) (g' : nat) (r : MeasurementRecord),
    processCsvData (envAt 0) [scenarioA_row] (autoMapping scenarioA_headers) 0
    = Ok (recs, g')
    /\ recs !! 0%nat = Some r
    /\ lat r = parseFloat (rowGet scenarioA_row "Lat")
    /\ lon r = parseFloat (rowGet scenarioA_row "Lon").
Proof.
  eexists _, _, _.
  split; [vm_compute; reflexivity |].
  split; [reflexivity |].
  eapply (detected_coordinates_are_kept (envAt 0) scenarioA_headers
            [scenarioA_row] 0) with (i := 0%nat).
  - vm_compute. reflexivity.
  - vm_compute. reflexivity.
  - reflexivity.
  - reflexivity.
  - vm_compute. reflexivity.
Defined.

(** ** Rounding through the string: [parseFloat(x.toFixed(1))] *)

Ltac read_digit :=
  cbn [NilEmpty.string_of_uint];
  match goal with
  | |- context [takeDigits ?a ?n (String ?c ?s +:+ ?rest)] =>
      let v := eval vm_compute in (digitVal c) in
      change (takeDigits a n (String c s +:+ rest))
        with (takeDigits (10 * a + v) (S n) (s +:+ rest))
  end.

Lemma takeDigits_uint (u : Decimal.uint) :
  forall (acc : Z) (n : nat) (rest : string),
    takeDigits acc n (NilEmpty.string_of_uint u +:+ rest)
    = takeDigits
        (acc * 10 ^ Z.of_N (DecimalPos.Unsigned.usize u)
         + Z.of_N (DecimalPos.Unsigned.of_lu (Decimal.rev u)))
        (n + Decimal.nb_digits u) rest.
Proof.
  induction u as [| u IH | u IH | u IH | u IH | u IH | u IH | u IH | u IH
                  | u IH | u IH]; intros acc n rest.
  1: { cbn. f_equal; lia. }
  all: read_digit; unfold Decimal.rev;
    cbn [Decimal.revapp DecimalPos.Unsigned.usize Decimal.nb_digits];
    rewrite (DecimalPos.Unsigned.of_lu_revapp u);
    cbn [DecimalPos.Unsigned.of_lu];
    rewrite IH;
    rewrite N2Z.inj_add, N2Z.inj_mul, N2Z.inj_pow, N2Z.inj_succ,
      Z.pow_succ_r by lia;
    f_equal; [| lia].
  all: rewrite ?N2Z.inj_add, ?N2Z.inj_mul; cbn [Z.of_N]; ring.
Qed.

Lemma to_uint_nonnil (n : N) : N.to_uint n <> Decimal.Nil.
Proof.
  destruct n; [discriminate | apply DecimalPos.Unsigned.to_uint_nonnil].
Qed.

(** The decimal print of a natural number is the text of its digits, the
    most significant first, and there is at least one. *)
Lemma decimal_digits (k : Z) :
  0 <= k ->
  exists u : Decimal.uint,
    u <> Decimal.Nil
    /\ decimal k = NilEmpty.string_of_uint u
    /\ Z.of_N (DecimalPos.Unsigned.of_lu (Decimal.rev u)) = k.
Proof.
  intros Hk. exists (N.to_uint (Z.to_N k)).
  split; [apply to_uint_nonnil |]. split.
  - unfold decimal, NilZero.string_of_uint.
    destruct (N.to_uint (Z.to_N k)) eqn:E; try reflexivity.
    exfalso. exact (to_uint_nonnil _ E).
  - rewrite <- DecimalPos.Unsigned.of_uint_alt.
    change (Pos.of_uint (N.to_uint (Z.to_N k)))
      with (N.of_uint (N.to_uint (Z.to_N k))).
    rewrite DecimalN.Unsigned.of_to. lia.
Qed.

Lemma takeDigits_decimal (k : Z) (n : nat) (rest : string) :
  0 <= k ->
  (forall (a : Z) (m : nat), takeDigits a m rest = (a, m, rest)) ->
  exists len : nat,
    (0 < len)%nat
    /\ takeDigits 0 n (decimal k +:+ rest) = (k, (n + len)%nat, rest).
Proof.
  intros Hk Hrest. destruct (decimal_digits k Hk) as (u & Hu & -> & Hval).
  exists (Decimal.nb_digits u). split; [destruct u; cbn; try lia; contradiction |].
  rewrite takeDigits_uint, Hrest, Hval. reflexivity.
Qed.

Lemma decimal_head (k : Z) :
  0 <= k ->
  exists (c : ascii) (s : string),
    decimal k = String c s
    /\ In c ["0"; "1"; "2"; "3"; "4"; "5"; "6"; "7"; "8"; "9"]%char.
Proof.
  intros Hk. destruct (decimal_digits k Hk) as (u & Hu & -> & _).
  destruct u; [contradiction | ..]; cbn [NilEmpty.string_of_uint];
    eexists _, _; (split; [reflexivity |]); cbn; tauto.
Qed.

Lemma decimal_digit (b : Z) :
  0 <= b <= 9 ->
  forall a : Z, takeDigits a 0 (decimal b) = (10 * a + b, 1%nat, "").
Proof.
  intros Hb a.
  assert (H : b = 0 \/ b = 1 \/ b = 2 \/ b = 3 \/ b = 4 \/ b = 5 \/ b = 6
              \/ b = 7 \/ b = 8 \/ b = 9) by lia.
  repeat destruct H as [-> | H]; try subst b; reflexivity.
Qed.

(** [parseFloat] reads [a.b], with or without a minus sign, as the number
    of tenths [10 a + b]. *)
Lemma parseFloatStr_fixed (negative : bool) (a b : Z) :
  0 <= a -> 0 <= b <= 9 ->
  parseFloatStr ((if negative then "-" else "")
                 +:+ decimal a +:+ "." +:+ decimal b)
  = Fin (inject_Z ((if negative then -1 else 1) * (10 * a + b)) * (1 # 10)).
Proof.
  intros Ha Hb.
  set (rest := "." +:+ decimal b).
  destruct (takeDigits_decimal a 0 rest Ha) as (len & Hlen & Htake);
    [reflexivity |].
  destruct (decimal_head a Ha) as (c & s & Hdec & Hc).
  assert (Hsign : takeSign (skipSpaces ((if negative then "-" else "")
                                        +:+ decimal a +:+ rest))
                  = (if negative then -1 else 1, decimal a +:+ rest)).
  { destruct negative; [reflexivity |].
    rewrite Hdec. cbn in Hc.
    repeat destruct Hc as [<- | Hc]; try contradiction; reflexivity. }
  assert (Hinf : startsWith (decimal a +:+ rest) "Infinity" = false).
  { rewrite Hdec. cbn in Hc.
    repeat destruct Hc as [<- | Hc]; try contradiction; reflexivity. }
  unfold parseFloatStr. rewrite Hsign, Hinf, Htake.
  change rest with (String "." (decimal b)). cbv iota beta.
  rewrite (decimal_digit b Hb).
  destruct len as [| len]; [lia |]. reflexivity.
Qed.

(** X26: for a number below 1e21 in magnitude, reading back the text that
    [toFixed(1)] prints gives the multiple of a tenth nearest to the number
    (the one farther from zero on a tie): [parseFloat(x.toFixed(1))], as
    [processCsvData] and the demo generator write it, is the rounding the
    records are modelled with. *)
Theorem rounding_through_the_string (env : Env) (q : Q) :
  Qle_bool (inject_Z (10 ^ 21)) (Qabs q) = false ->
  parseFloatStr (toFixed1 env (Fin q)) = round1 (Fin q).
Proof.
  intros Hsmall. unfold toFixed1, round1, roundTenth. rewrite Hsmall.
  set (n := Qfloor (Qabs q * 10 + (1 # 2))).
  assert (Hn : 0 <= n).
  { apply Qfloor_lower. pose proof (Qabs_nonneg q). unfold inject_Z. lra. }
  pose proof (Z.div_mod n 10 ltac:(lia)) as Hdiv.
  pose proof (Z.mod_pos_bound n 10 ltac:(lia)) as Hmod.
  pose proof (Z.div_pos n 10 Hn ltac:(lia)) as Hquot.
  rewrite (parseFloatStr_fixed (Qltb q 0) (n / 10) (n mod 10)) by lia.
  rewrite <- Hdiv. unfold Qmult, inject_Z. cbn [Qnum Qden Pos.mul].
  destruct (Qltb q 0); do 2 f_equal; lia.
Qed.

Lemma rounding_through_the_string_witness :
  Qle_bool (inject_Z (10 ^ 21)) (Qabs (-2241 # 32)) = false
  /\ parseFloatStr (toFixed1 (envAt 0) (Fin (-2241 # 32)))
     = round1 (Fin (-2241 # 32)).
Proof.
  split; [reflexivity |].
  apply (rounding_through_the_string (envAt 0) (-2241 # 32)). reflexivity.
Defined.

(** ** Query engine: the columns intent and the numbers of a question *)

(** X27: asked for columns, schema or headers, the engine never lists the
    headers of the uploaded file: for a dataset made by normalisation the
    answer is always the fourteen field names of a record, whatever the file
    and the mapping were. *)
Theorem columns_intent_lists_record_fields (env : Env) (rows : list Row)
    (mapping : Mapping.t) (g : nat) (recs : list MeasurementRecord) (g' : nat)
    (st : AppState) (question : string) :
  processCsvData env rows mapping g = Ok (recs, g') ->
  data st = recs ->
  selectSubset st (toLowerCase question) <> [] ->
  includes (toLowerCase question) "columns"
  || includes (toLowerCase question) "schema"
  || includes (toLowerCase question) "headers" = true ->
  askLocalAI env st question
  = Ok ("Detected columns: timestamp, date, hour, day, rsrp, rsrq, sinr, "
        +:+ "signalClass, technology, location, throughput, lat, lon, "
        +:+ "originalRow").
Proof.
  intros Hrun Hdata Hsub Hcue.
  rewrite (askLocalAI_some_rows env) by exact Hsub.
  unfold dispatch. rewrite Hcue. f_equal.
  destruct (data st) as [| r0 rest] eqn:E.
  - exfalso. apply Hsub.
    pose proof (selectSubset_sublist st (toLowerCase question)) as Hs.
    rewrite E in Hs. apply sublist_nil_r in Hs. exact Hs.
  - cbn [lookup list_lookup].
    assert (Hr0 : recs !! 0%nat = Some r0) by (rewrite <- Hdata; reflexivity).
    destruct (processCsvData_lookup env rows mapping g recs g' 0 r0 Hrun Hr0)
      as (row & gi & gi' & _ & Hp).
    apply processRow_inv in Hp. cbv zeta in Hp.
    destruct Hp as (_ & _ & _ & _ & _ & _ & _ & _ & _ & _ & _ & _ & Horig).
    unfold summarizeColumns, recordKeys. rewrite Horig. reflexivity.
Qed.

Lemma columns_intent_lists_record_fields_witness :
  exists (recs : list MeasurementRecord) (g' : nat),
    processCsvData (envAt 0) [surveyRow 42] (autoMapping surveyHeaders) 0
    = Ok (recs, g')
    /\ askLocalAI (envAt 0) (stateOf recs) "Which columns are there?"
       = Ok ("Detected columns: timestamp, date, hour, day, rsrp, rsrq, sinr, "
             +:+ "signalClass, technology, location, throughput, lat, lon, "
             +:+ "originalRow").
Proof.
  eexists _, _.
  split; [vm_compute; reflexivity |].
  eapply (columns_intent_lists_record_fields (envAt 0) [surveyRow 42]
            (autoMapping surveyHeaders) 0).
  - vm_compute. reflexivity.
  - reflexivity.
  - vm_compute. discriminate.
  - vm_compute. reflexivity.
Defined.

Lemma takeDigits_nonneg (s : string) :
  forall (acc : Z) (n : nat), 0 <= acc -> 0 <= fst (fst (takeDigits acc n s)).
Proof.
  induction s as [| c s IH]; intros acc n Hacc; cbn [takeDigits fst];
    [exact Hacc |].
  destruct (isDigit c) eqn:E; [| exact Hacc].
  apply IH. unfold digitVal, isDigit in *.
  apply andb_prop in E as [E _]. apply N.leb_le in E. lia.
Qed.

(** X28: [clampInt] reads a group of decimal digits as the number they
    write, leading zeros included, and clamps it: below 2^31 there is no
    wrap-around of the 32-bit conversion [n | 0].  (A captured group of one
    or two digits is always in that range.) *)
Theorem clampInt_reads_digits (s : string) (lo hi : Z) :
  s <> "" ->
  allDigits s = true ->
  digitsValue s < 2 ^ 31 ->
  clampInt (Some s) lo hi = Z.max lo (Z.min hi (digitsValue s)).
Proof.
  intros Hne Hdigits Hsmall. unfold clampInt, toNumber.
  destruct s as [| c s]; [contradiction |]. rewrite Hdigits.
  fold (digitsValue (String c s)).
  pose proof (takeDigits_nonneg (String c s) 0 0 ltac:(lia)) as Hpos.
  fold (digitsValue (String c s)) in Hpos.
  set (v := digitsValue (String c s)) in *.
  assert (Hdouble : nearestDouble v = ofZ v).
  { unfold nearestDouble.
    destruct (Z.leb_spec (Z.log2 v - 52) 0) as [_ | Hbig]; [reflexivity |].
    exfalso.
    destruct (Z.eq_dec v 0) as [-> | Hv]; [cbn in Hbig; lia |].
    pose proof (Z.log2_lt_pow2 v 31 ltac:(lia)) as [Hlog _].
    specialize (Hlog Hsmall). lia. }
  rewrite Hdouble. unfold toInt32, ofZ. rewrite Qtrunc_inject_Z.
  rewrite Z.mod_small by lia.
  destruct (Z.leb_spec (2 ^ 31) v); [lia | reflexivity].
Qed.

Lemma clampInt_reads_digits_witness :
  "07" <> "" /\ clampInt (Some "07") 0 23 = Z.max 0 (Z.min 23 (digitsValue "07")).
Proof.
  split; [discriminate |].
  apply clampInt_reads_digits; [discriminate | reflexivity | reflexivity].
Defined.

(** ** RecordNormalizer: measured values that are kept *)

Lemma resolveThroughput_nonzero (env : Env) (column : string) (row : Row)
    (g : nat) (q : Q) :
  str_truthy column = true ->
  parseFloat (rowGet row column) = Fin q -> ~ (q == 0)%Q ->
  resolveThroughput env column row g = (Fin q, g).
Proof.
  intros Hc Hp Hq. unfold resolveThroughput. rewrite Hc, Hp.
  cbn [num_truthy]. apply Qeq_bool_false in Hq. rewrite Hq.
  destruct (rowGet row column); [reflexivity | discriminate Hp].
Qed.

(** X29: a measured value that is mapped and parses to a finite number
    other than zero is what the record stores, rounded to one decimal: the
    defaults -80, -10 and 15 and the random throughput are used only for
    cells that are unmapped, missing, not numeric or zero. *)
Theorem mapped_values_are_kept (env : Env) (rows : list Row)
    (mapping : Mapping.t) (g : nat) (recs : list MeasurementRecord) (g' : nat)
    (i : nat) (r : MeasurementRecord) (row : Row) :
  processCsvData env rows mapping g = Ok (recs, g') ->
  recs !! i = Some r ->
  rows !! i = Some row ->
  let kept (column : string) (stored : num) :=
    forall q : Q,
      str_truthy column = true ->
      parseFloat (rowGet row column) = Fin q -> ~ (q == 0)%Q ->
      stored = round1 (Fin q) in
  kept (Mapping.rsrp mapping) (rsrp r)
  /\ kept (Mapping.rsrq mapping) (rsrq r)
  /\ kept (Mapping.sinr mapping) (sinr r)
  /\ kept (Mapping.throughput mapping) (throughput r).
Proof.
  intros Hrun Hr Hrow. cbv zeta.
  destruct (processCsvData_lookup env rows mapping g recs g' i r Hrun Hr)
    as (row' & gi & gi' & Hrow' & Hp).
  assert (row' = row) by congruence. subst row'.
  apply processRow_inv in Hp. cbv zeta in Hp.
  destruct Hp as (_ & _ & _ & _ & -> & -> & -> & _ & _ & _ & -> & _).
  repeat split; intros q Hc Hq Hz.
  - rewrite (resolveSignal_nonzero _ _ _ q Hc Hq Hz). reflexivity.
  - rewrite (resolveSignal_nonzero _ _ _ q Hc Hq Hz). reflexivity.
  - rewrite (resolveSignal_nonzero _ _ _ q Hc Hq Hz). reflexivity.
  - rewrite (resolveThroughput_nonzero env _ _ gi q Hc Hq Hz). reflexivity.
Qed.

Lemma mapped_values_are_kept_witness :
  exists (recs : list MeasurementRecord) (g' : nat) (r : MeasurementRecord),
    processCsvData (envAt 0) [surveyRow 42] (autoMapping surveyHeaders) 0
    = Ok (recs, g')
    /\ recs !! 0%nat = Some r
    /\ throughput r = round1 (Fin 42).
Proof.
  eexists _, _, _.
  split; [vm_compute; reflexivity |].
  split; [reflexivity |].
  pose proof (mapped_values_are_kept (envAt 0) [surveyRow 42]
                (autoMapping surveyHeaders) 0) as H.
  edestruct H with (i := 0%nat) (row := surveyRow 42) as (_ & _ & _ & Hthr).
  - vm_compute. reflexivity.
  - reflexivity.
  - reflexivity.
  - apply (Hthr 42%Q); [reflexivity | reflexivity | discriminate].
Defined.
